(** * Netlify deploy assistant: project classifier, config generators, deploy
    success heuristic.

    Shallow embedding of [app.py] (web entry point) and [netlify_ai.py]
    (terminal wizard).  Python [str] values are modelled as Rocq [string]s,
    i.e. sequences of 8-bit characters.  On 7-bit ASCII text the operations
    below are Python's; beyond it they are not: [lower] maps 'A'..'Z' to
    'a'..'z' and leaves every other character alone, where [str.lower] also
    folds letters such as U+212A, and [is_space] knows the ASCII white space
    only, where [str.split], [str.strip] and the class [\s] also take U+00A0
    or U+3000.  Statements whose content depends on case folding or on white
    space therefore carry the hypothesis that the text involved is 7-bit
    ASCII ([is_ascii]).  Paths follow the POSIX flavour of [pathlib]
    (separator '/').  The [analysis] dictionary is a [gmap] from
    key names to tagged Python values; the [set] built by [_detect_env_vars]
    is a [gset]. *)

From Stdlib Require Import Ascii.
From stdpp Require Import gmap strings list fin_maps.

Set Warnings "-register-all".

(** ** Python string operations *)

Module Str.

Definition dq : string := String (ascii_of_nat 34) EmptyString.
Definition nl : ascii := ascii_of_nat 10.
Definition slash : ascii := "/"%char.
Definition newline : string := String nl EmptyString.

Definition lower_char (c : ascii) : ascii :=
  let n := nat_of_ascii c in
  if (65 <=? n) && (n <=? 90) then ascii_of_nat (n + 32) else c.

(** [s.lower()], on 7-bit ASCII text *)
Fixpoint lower (s : string) : string :=
  match s with
  | EmptyString => EmptyString
  | String c t => String (lower_char c) (lower t)
  end.

(** [s.startswith(pre)] *)
Fixpoint startswith (pre s : string) : bool :=
  match pre, s with
  | EmptyString, _ => true
  | String a p, String b t => Ascii.eqb a b && startswith p t
  | String _ _, EmptyString => false
  end.

(** [kw in s] *)
Fixpoint contains (kw s : string) : bool :=
  startswith kw s ||
  match s with
  | EmptyString => false
  | String _ t => contains kw t
  end.

(** [s.endswith(suf)] *)
Fixpoint endswith (suf s : string) : bool :=
  String.eqb s suf ||
  match s with
  | EmptyString => false
  | String _ t => endswith suf t
  end.

(** [s.endswith((suf1, suf2, ...))] *)
Definition endswith_any (sufs : list string) (s : string) : bool :=
  existsb (fun suf => endswith suf s) sufs.

(** [s.split(sep)] for a one-character separator: never empty. *)
Fixpoint split (sep : ascii) (s : string) : list string :=
  match s with
  | EmptyString => [EmptyString]
  | String c t =>
      if Ascii.eqb c sep then EmptyString :: split sep t
      else match split sep t with
           | [] => [String c EmptyString]
           | h :: r => String c h :: r
           end
  end.

(** [sep.join(l)] *)
Fixpoint join (sep : string) (l : list string) : string :=
  match l with
  | [] => EmptyString
  | [x] => x
  | x :: r => x +:+ sep +:+ join sep r
  end.

(** Python's [str.isspace] on the ASCII range: TAB, LF, VT, FF, CR,
    FS, GS, RS, US and the blank. *)
Definition is_space (c : ascii) : bool :=
  let n := nat_of_ascii c in
  ((9 <=? n) && (n <=? 13)) || ((28 <=? n) && (n <=? 32)).

(** One right-to-left pass of [s.split()]: the word under construction at
    the head of [s] (empty when [s] starts with white space) and the
    complete words after it. *)
Fixpoint words_aux (s : string) : string * list string :=
  match s with
  | EmptyString => (EmptyString, [])
  | String c t =>
      let '(w, r) := words_aux t in
      if is_space c
      then (EmptyString, if String.eqb w EmptyString then r else w :: r)
      else (String c w, r)
  end.

(** [s.split()]: maximal runs of non-blank characters. *)
Definition words (s : string) : list string :=
  let '(w, r) := words_aux s in
  if String.eqb w EmptyString then r else w :: r.

(** Python truthiness of an [Optional[str]]. *)
Definition truthy (o : option string) : bool :=
  match o with
  | Some s => negb (String.eqb s EmptyString)
  | None => false
  end.

(** [a or b] on [Optional[str]] values. *)
Definition por (a b : option string) : option string :=
  if truthy a then a else b.

(** [s.lstrip()], [s.rstrip()], [s.strip()] *)
Fixpoint lstrip (s : string) : string :=
  match s with
  | EmptyString => EmptyString
  | String c t => if is_space c then lstrip t else s
  end.

Fixpoint rstrip (s : string) : string :=
  match s with
  | EmptyString => EmptyString
  | String c t =>
      let t' := rstrip t in
      if is_space c && String.eqb t' EmptyString then EmptyString else String c t'
  end.

Definition strip (s : string) : string := lstrip (rstrip s).

End Str.

(** ** [pathlib] paths, POSIX flavour *)

Module PosixPath.
Import Str.

(** [posixpath.splitroot]: the root (empty, one slash or two slashes) and the rest. *)
Definition splitroot (p : string) : string * string :=
  match p with
  | String c1 t1 =>
      if Ascii.eqb c1 slash then
        match t1 with
        | String c2 t2 =>
            if Ascii.eqb c2 slash then
              match t2 with
              | String c3 _ => if Ascii.eqb c3 slash then ("/", t1) else ("//", t2)
              | EmptyString => ("//", t2)
              end
            else ("/", t1)
        | EmptyString => ("/", t1)
        end
      else (EmptyString, p)
  | EmptyString => (EmptyString, p)
  end.

Definition keep_part (x : string) : bool :=
  negb (String.eqb x EmptyString) && negb (String.eqb x ".").

(** [PurePath._parse_path]: root and tail; empty and ["."] segments vanish. *)
Definition parse_path (path : string) : string * list string :=
  if String.eqb path EmptyString then (EmptyString, [])
  else let '(root, rel) := splitroot path in
       (root, List.filter keep_part (split slash rel)).

(** [Path(p).parts] *)
Definition parts (p : string) : list string :=
  let '(root, tail) := parse_path p in
  if String.eqb root EmptyString then tail else root :: tail.

(** [posixpath.join(a, *p)] *)
Definition join_step (path b : string) : string :=
  if startswith "/" b then b
  else if String.eqb path EmptyString || endswith "/" path then path +:+ b
  else path +:+ "/" +:+ b.

Definition posix_join (segs : list string) : string :=
  match segs with
  | [] => EmptyString
  | a :: p => fold_left join_step p a
  end.

(** [str(Path(raw))] *)
Definition path_str (raw : string) : string :=
  let '(root, tail) := parse_path raw in
  let s := root +:+ join "/" tail in
  if String.eqb s EmptyString then "." else s.

(** [str] of the path built from the segments [segs] *)
Definition str_of_segments (segs : list string) : string :=
  path_str (posix_join segs).

End PosixPath.

(** ** The fragment of [re] used by the deploy handler *)

Module Re.
Import Str.

(** A pattern is a sequence of items: a literal, or a greedy repetition
    [cls{lo,}] of a character class. *)
Inductive item :=
| Lit (l : string)
| Many (lo : nat) (cls : ascii -> bool).

Fixpoint drop (n : nat) (s : string) : string :=
  match n, s with
  | S n', String _ t => drop n' t
  | _, _ => s
  end.

Fixpoint take (n : nat) (s : string) : string :=
  match n, s with
  | S n', String c t => String c (take n' t)
  | _, _ => EmptyString
  end.

Fixpoint run_length (cls : ascii -> bool) (s : string) : nat :=
  match s with
  | String c t => if cls c then S (run_length cls t) else 0
  | EmptyString => 0
  end.

(** Backtracking match anchored at the head of [s]; the result is the
    matched text.  A repetition first takes the longest run and gives
    characters back one at a time. *)
Fixpoint match_here (re : list item) (s : string) : option string :=
  match re with
  | [] => Some EmptyString
  | Lit l :: re' =>
      if startswith l s
      then option_map (String.append l) (match_here re' (drop (String.length l) s))
      else None
  | Many lo cls :: re' =>
      let longest := run_length cls s in
      if lo <=? longest then
        (fix back (k : nat) : option string :=
           match match_here re' (drop k s) with
           | Some m => Some (take k s +:+ m)
           | None =>
               match k with
               | S k' => if lo <=? k' then back k' else None
               | 0 => None
               end
           end) longest
      else None
  end.

(** Leftmost match: the first element of [re.findall(re, s)], when that
    list is not empty. *)
Fixpoint search (re : list item) (s : string) : option string :=
  match match_here re s with
  | Some m => Some m
  | None =>
      match s with
      | String _ t => search re t
      | EmptyString => None
      end
  end.

End Re.

(** ** Python values stored in the [analysis] dictionary *)

Inductive value :=
| VNone
| VBool (b : bool)
| VStr (s : string)
| VList (l : list string)
| VInt (n : nat).

Abbreviation dict := (gmap string value).

Definition get_bool (a : dict) (k : string) : bool :=
  match a !! k with Some (VBool b) => b | _ => false end.

Definition get_list (a : dict) (k : string) : list string :=
  match a !! k with Some (VList l) => l | _ => [] end.

(** The truth value of a Python value, as [if v:] and [v and ...] take it. *)
Definition truth (v : value) : bool :=
  match v with
  | VNone => false
  | VBool b => b
  | VStr s => negb (String.eqb s EmptyString)
  | VList l => match l with [] => false | _ :: _ => true end
  | VInt n => negb (Nat.eqb n 0)
  end.

(** [analysis[k] == s] *)
Definition str_is (a : dict) (k s : string) : bool :=
  match a !! k with Some (VStr s') => String.eqb s' s | _ => false end.

(** [if c: f(analysis)] *)
Definition when (c : bool) (f : dict -> dict) (analysis : dict) : dict :=
  if c then f analysis else analysis.

(** ** The project directory *)

(** A file carries its text, or [None] when [read_text] raises; a directory
    lists its entries in [os.scandir] order. *)
Inductive node :=
| File (text : option string)
| Dir (entries : list (string * node)).

Module Fs.
Import Str.

Definition ignore_dirs : list string :=
  [".git"; "node_modules"; "__pycache__"; ".netlify"; "venv"; ".venv"].

Definition ignored (d : string) : bool :=
  existsb (String.eqb d) ignore_dirs.

(** [os.path.relpath(os.path.join(root, file), self.path)] for a directory
    [root] below [self.path], given as its own relative path. *)
Definition rel_join (rel name : string) : string :=
  if String.eqb rel EmptyString then name else rel +:+ "/" +:+ name.

Definition is_file (e : string * node) : bool :=
  match snd e with File _ => true | Dir _ => false end.

(** The loop over [os.walk(self.path)], top-down: the files of a directory
    first, then its sub-directories that survive the [dirs[:]] pruning.
    [os.walk] swallows the [scandir] error of a top that is no directory. *)
Fixpoint walk (rel : string) (n : node) : list string :=
  match n with
  | File _ => []
  | Dir es =>
      map (fun e => rel_join rel (fst e)) (List.filter is_file es) ++
      flat_map (fun e =>
                  match snd e with
                  | Dir _ => if ignored (fst e) then []
                             else walk (rel_join rel (fst e)) (snd e)
                  | File _ => []
                  end) es
  end.

(** [scan_files], identical in both entry points.  [root] is what
    [self.path] names on disk, [None] when nothing is there. *)
Definition scan_files (root : option node) : list string :=
  match root with
  | Some n => walk EmptyString n
  | None => []
  end.

Fixpoint lookup_path (n : node) (comps : list string) : option node :=
  match comps with
  | [] => Some n
  | c :: cs =>
      match n with
      | Dir es =>
          match List.find (fun e => String.eqb (fst e) c) es with
          | Some e => lookup_path (snd e) cs
          | None => None
          end
      | File _ => None
      end
  end.

(** [(self.path / file).read_text(encoding='utf-8', errors='ignore')] for a
    relative [file]; [None] stands for any raised exception. *)
Definition read_text (root : option node) (file : string) : option string :=
  match root with
  | Some n =>
      match lookup_path n (split slash file) with
      | Some (File text) => text
      | _ => None
      end
  | None => None
  end.

Definition exists_ (root : option node) : bool :=
  match root with Some _ => true | None => false end.

Definition is_dir (root : option node) : bool :=
  match root with Some (Dir _) => true | _ => false end.

End Fs.

(** ** The external deployment tool *)

(** What [subprocess.run] observes: the tool ran and exited, or the call
    itself raised. *)
Inductive process :=
| Exited (returncode : Z) (out err : string)
| Raised (msg : string).

(** ** [app.py]: the web entry point *)

Module App.
Import Str.

(** *** [ProjectAnalyzer] *)

Definition initial_analysis (files : list string) (path : string) : dict :=
  <["type" := VStr "static"]> $
  <["type_name" := VStr "靜態網站"]> $
  <["has_html" := VBool false]> $
  <["has_python" := VBool false]> $
  <["has_node" := VBool false]> $
  <["has_netlify_config" := VBool false]> $
  <["has_env_file" := VBool false]> $
  <["has_env_example" := VBool false]> $
  <["has_gitignore" := VBool false]> $
  <["has_requirements" := VBool false]> $
  <["has_package_json" := VBool false]> $
  <["python_files" := VList []]> $
  <["env_vars_needed" := VList []]> $
  <["publish_dir" := VStr "."]> $
  <["functions_dir" := VNone]> $
  <["build_command" := VNone]> $
  <["file_count" := VInt (length files)]> $
  <["path" := VStr path]> ∅.

(** Body of [for file in self.files]. *)
Definition flag_step (analysis : dict) (file : string) : dict :=
  let file_lower := lower file in
  let analysis :=
    when (endswith ".html" file_lower) <["has_html" := VBool true]> analysis in
  let analysis :=
    when (endswith ".py" file_lower)
      (fun a => <["python_files" := VList (get_list a "python_files" ++ [file])]>
                  (<["has_python" := VBool true]> a)) analysis in
  let analysis :=
    when (String.eqb file_lower "package.json")
      (fun a => <["has_package_json" := VBool true]> (<["has_node" := VBool true]> a))
      analysis in
  let analysis :=
    when (String.eqb file_lower "netlify.toml") <["has_netlify_config" := VBool true]>
      analysis in
  let analysis :=
    when (String.eqb file_lower ".env") <["has_env_file" := VBool true]> analysis in
  let analysis :=
    when (String.eqb file_lower ".env.example") <["has_env_example" := VBool true]>
      analysis in
  let analysis :=
    when (String.eqb file_lower ".gitignore") <["has_gitignore" := VBool true]> analysis in
  when (String.eqb file_lower "requirements.txt") <["has_requirements" := VBool true]>
    analysis.

(** ['functions' in py_file.lower() or 'netlify' in py_file.lower()] *)
Definition qualifies (py_file : string) : bool :=
  contains "functions" (lower py_file) || contains "netlify" (lower py_file).

(** [for i, part in enumerate(parts)] up to its [break]: the index of the
    first part that contains 'functions'. *)
Fixpoint functions_index (parts : list string) (i : nat) : option nat :=
  match parts with
  | [] => None
  | part :: rest =>
      if contains "functions" (lower part) then Some i
      else functions_index rest (S i)
  end.

Definition set_functions_dir (analysis : dict) (py_file : string) : dict :=
  let parts := PosixPath.parts py_file in
  match functions_index parts 0 with
  | Some i =>
      <["functions_dir" := VStr (PosixPath.str_of_segments (take (i + 1) parts))]> analysis
  | None => analysis
  end.

(** [for py_file in analysis['python_files']] up to its [break]. *)
Fixpoint python_rule (analysis : dict) (python_files : list string) : dict :=
  match python_files with
  | [] => analysis
  | py_file :: rest =>
      if qualifies py_file
      then set_functions_dir
             (<["type_name" := VStr "Python Serverless Functions"]>
                (<["type" := VStr "python-functions"]> analysis))
             py_file
      else python_rule analysis rest
  end.

Definition patterns : list (string * list string) :=
  [("OPENAI_API_KEY", ["openai"; "gpt"; "chatgpt"]);
   ("GOOGLE_API_KEY", ["google"; "gemini"; "generativeai"]);
   ("ANTHROPIC_API_KEY", ["anthropic"; "claude"]);
   ("DATABASE_URL", ["database"; "postgres"; "mysql"; "mongodb"]);
   ("SECRET_KEY", ["secret"; "jwt"; "session"])].

Definition source_suffixes : list string := [".py"; ".js"; ".ts"; ".jsx"; ".tsx"].

(** [for env_var, keywords in patterns] on one lowered file content. *)
Definition scan_content (content : string) (env_vars : gset string) : gset string :=
  fold_left (fun acc p =>
               if existsb (fun kw => contains kw content) (snd p)
               then {[fst p]} ∪ acc else acc)
            patterns env_vars.

(** The [set] built by [_detect_env_vars]; [read] is
    [(self.path / file).read_text], [None] when it raises. *)
Definition env_var_set (files : list string) (read : string -> option string)
  : gset string :=
  fold_left (fun env_vars file =>
               if endswith_any source_suffixes file then
                 match read file with
                 | Some text => scan_content (lower text) env_vars
                 | None => env_vars
                 end
               else env_vars)
            files ∅.

(** [list(env_vars)]: the order Python gives is unspecified. *)
Definition _detect_env_vars (files : list string) (read : string -> option string)
  : list string :=
  elements (env_var_set files read).

(** [if analysis['has_python']: ...] *)
Definition python_type_rule (analysis : dict) : dict :=
  if get_bool analysis "has_python" then
    let analysis := python_rule analysis (get_list analysis "python_files") in
    when (str_is analysis "type" "static" && get_bool analysis "has_python")
      (fun a => <["type_name" := VStr "Python Serverless Functions"]>
                  (<["type" := VStr "python-functions"]> a))
      analysis
  else analysis.

(** [if analysis['has_node'] and analysis['has_package_json']: ...] *)
Definition node_rule (analysis : dict) : dict :=
  when (get_bool analysis "has_node" && get_bool analysis "has_package_json")
    (fun a => <["build_command" := VStr "npm run build"]>
                (<["type_name" := VStr "Node.js 專案"]>
                   (<["type" := VStr "node-project"]> a)))
    analysis.

(** [detect_project_type] once [self.scan_files()] has filled [self.files]:
    [files] is [self.files], [path] is [str(self.path)]. *)
Definition detect_project_type (files : list string) (path : string)
    (read : string -> option string) : dict :=
  let analysis := fold_left flag_step files (initial_analysis files path) in
  let analysis := python_type_rule analysis in
  let analysis := node_rule analysis in
  <["env_vars_needed" := VList (_detect_env_vars files read)]> analysis.

(** The [/api/analyze] handler. *)
Inductive response :=
| Failure (error : string)
| Analysed (analysis : dict) (file_tree : list string).

Definition analyze_project (root : option node) (path : string) : response :=
  if negb (Fs.exists_ root) then Failure ("路徑不存在: " +:+ path)
  else if negb (Fs.is_dir root) then Failure ("這不是資料夾: " +:+ path)
  else
    let files := Fs.scan_files root in
    Analysed (detect_project_type files path (Fs.read_text root)) files.

(** *** [ConfigGenerator] *)

(** [if x: lines.append(...)] for an [Optional[str]] [x]. *)
Definition when_set (x : option string) (f : string -> list string) : list string :=
  match x with
  | Some v => if truthy x then f v else []
  | None => []
  end.

Definition netlify_toml_lines (publish_dir : string) (functions_dir build_command : option string)
    (python_version : string) : list string :=
  ["[build]"] ++
  when_set functions_dir (fun d => ["  functions = " +:+ dq +:+ d +:+ dq]) ++
  ["  publish = " +:+ dq +:+ publish_dir +:+ dq] ++
  when_set build_command (fun c => ["  command = " +:+ dq +:+ c +:+ dq]) ++
  when_set functions_dir (fun _ =>
    [EmptyString;
     "[build.environment]";
     "  PYTHON_VERSION = " +:+ dq +:+ python_version +:+ dq;
     EmptyString;
     "[[redirects]]";
     "  from = " +:+ dq +:+ "/api/*" +:+ dq;
     "  to = " +:+ dq +:+ "/.netlify/functions/:splat" +:+ dq;
     "  status = 200"]).

Definition generate_netlify_toml (publish_dir : string) (functions_dir build_command : option string)
    (python_version : string) : string :=
  join newline (netlify_toml_lines publish_dir functions_dir build_command python_version)
  +:+ newline.

Definition generate_gitignore : string :=
"# 環境變數（含敏感資訊）
.env
.env.local
.env.production

# Netlify 本地快取
.netlify/

# Python
__pycache__/
*.py[cod]
venv/
.venv/

# Node.js
node_modules/

# 系統檔案
.DS_Store
Thumbs.db

# IDE
.vscode/
.idea/
".

Definition descriptions : gmap string string :=
  <["OPENAI_API_KEY" := "# OpenAI API Key - https://platform.openai.com/api-keys"]> $
  <["GOOGLE_API_KEY" := "# Google API Key (Gemini) - https://aistudio.google.com/app/apikey"]> $
  <["ANTHROPIC_API_KEY" := "# Anthropic API Key - https://console.anthropic.com/"]> $
  <["DATABASE_URL" := "# 資料庫連線字串"]> $
  <["SECRET_KEY" := "# 應用程式密鑰"]> ∅.

Definition env_example_lines (env_vars : list string) : list string :=
  ["# 環境變數範例"; "# 複製此檔案為 .env 並填入真實的值"; EmptyString] ++
  flat_map (fun var =>
              match descriptions !! var with
              | Some d => [d]
              | None => []
              end ++
              [var +:+ "=your_" +:+ lower var +:+ "_here"; EmptyString])
           env_vars ++
  ["# 注意：永遠不要將 .env 檔案上傳到 Git！"].

Definition generate_env_example (env_vars : list string) : string :=
  join newline (env_example_lines env_vars).

(** [name in env_vars] *)
Definition mem (name : string) (env_vars : list string) : bool :=
  existsb (String.eqb name) env_vars.

Definition generate_requirements (env_vars : list string) : string :=
  let packages :=
    (if mem "OPENAI_API_KEY" env_vars then ["openai"] else []) ++
    (if mem "GOOGLE_API_KEY" env_vars then ["google-generativeai"] else []) ++
    (if mem "ANTHROPIC_API_KEY" env_vars then ["anthropic"] else []) in
  let packages :=
    match packages with
    | [] => ["# 在此加入你需要的 Python 套件"]
    | _ => packages
    end in
  join newline packages +:+ newline.

(** *** [Deployer.run_command] and the [/api/deploy] handler *)

Record run_result := { success : bool; stdout : string; stderr : string }.

Definition run_command (p : process) : run_result :=
  match p with
  | Exited returncode out err =>
      {| success := Z.eqb returncode 0; stdout := out; stderr := err |}
  | Raised msg =>
      {| success := false; stdout := EmptyString; stderr := msg |}
  end.

(** [https://[^\s]+netlify[^\s]*] *)
Definition netlify_url_re : list Re.item :=
  [Re.Lit "https://";
   Re.Many 1 (fun c => negb (is_space c));
   Re.Lit "netlify";
   Re.Many 0 (fun c => negb (is_space c))].

(** Body of [for line in all_output.split('\n')], on the pair
    ([url], [deploy_url]). *)
Definition url_step (st : option string * option string) (line : string)
  : option string * option string :=
  let line_lower := lower line in
  if contains "website" line_lower && contains "url" line_lower then
    match last (words line) with
    | Some w => (Some w, snd st)
    | None => st
    end
  else if contains "deploy" line_lower && contains "url" line_lower then
    match last (words line) with
    | Some w => (fst st, Some w)
    | None => st
    end
  else if contains "https://" line && contains "netlify" line then
    match Re.search netlify_url_re line with
    | Some u => (Some u, snd st)
    | None => st
    end
  else st.

Record deploy_response :=
  { r_success : bool; r_url : option string; r_stdout : string; r_stderr : string }.

Definition deploy (p : process) : deploy_response :=
  let result := run_command p in
  let all_output := stdout result +:+ newline +:+ stderr result in
  let '(url, deploy_url) := fold_left url_step (split nl all_output) (None, None) in
  let final_url := por url deploy_url in
  let is_success := success result || bool_decide (final_url <> None) in
  let is_success :=
    if contains "unsettled top-level await" (stderr result) && truthy final_url
    then true else is_success in
  {| r_success := is_success; r_url := final_url;
     r_stdout := stdout result; r_stderr := stderr result |}.

(** [Deployer.check_netlify_cli] and [Deployer.check_logged_in], on what
    running the tool gave; any exception counts as [False]. *)
Definition check_netlify_cli (p : process) : bool :=
  match p with
  | Exited returncode _ _ => Z.eqb returncode 0
  | Raised _ => false
  end.

Definition check_logged_in (p : process) : bool :=
  match p with
  | Exited _ out _ => contains "logged in" (lower out)
  | Raised _ => false
  end.

End App.

(** ** [netlify_ai.py]: the terminal wizard *)

Module NetlifyAi.
Import Str.

(** *** [ProjectAnalyzer] *)

Definition initial_analysis : dict :=
  <["type" := VStr "static"]> $
  <["has_html" := VBool false]> $
  <["has_python" := VBool false]> $
  <["has_node" := VBool false]> $
  <["has_netlify_config" := VBool false]> $
  <["has_env_file" := VBool false]> $
  <["has_env_example" := VBool false]> $
  <["has_gitignore" := VBool false]> $
  <["has_requirements" := VBool false]> $
  <["has_package_json" := VBool false]> $
  <["python_files" := VList []]> $
  <["env_vars_needed" := VList []]> $
  <["publish_dir" := VStr "."]> $
  <["functions_dir" := VNone]> $
  <["build_command" := VNone]> ∅.

(** Body of [for file in self.files]. *)
Definition flag_step (analysis : dict) (file : string) : dict :=
  let file_lower := lower file in
  let analysis :=
    when (endswith ".html" file_lower) <["has_html" := VBool true]> analysis in
  let analysis :=
    when (endswith ".py" file_lower)
      (fun a => <["python_files" := VList (get_list a "python_files" ++ [file])]>
                  (<["has_python" := VBool true]> a)) analysis in
  let analysis :=
    when (String.eqb file_lower "package.json")
      (fun a => <["has_package_json" := VBool true]> (<["has_node" := VBool true]> a))
      analysis in
  let analysis :=
    when (String.eqb file_lower "netlify.toml") <["has_netlify_config" := VBool true]>
      analysis in
  let analysis :=
    when (String.eqb file_lower ".env") <["has_env_file" := VBool true]> analysis in
  let analysis :=
    when (String.eqb file_lower ".env.example") <["has_env_example" := VBool true]>
      analysis in
  let analysis :=
    when (String.eqb file_lower ".gitignore") <["has_gitignore" := VBool true]> analysis in
  when (String.eqb file_lower "requirements.txt") <["has_requirements" := VBool true]>
    analysis.

Definition qualifies (py_file : string) : bool :=
  contains "functions" (lower py_file) || contains "netlify" (lower py_file).

Fixpoint functions_index (parts : list string) (i : nat) : option nat :=
  match parts with
  | [] => None
  | part :: rest =>
      if contains "functions" (lower part) then Some i
      else functions_index rest (S i)
  end.

Definition set_functions_dir (analysis : dict) (py_file : string) : dict :=
  let parts := PosixPath.parts py_file in
  match functions_index parts 0 with
  | Some i =>
      <["functions_dir" := VStr (PosixPath.str_of_segments (take (i + 1) parts))]> analysis
  | None => analysis
  end.

Fixpoint python_rule (analysis : dict) (python_files : list string) : dict :=
  match python_files with
  | [] => analysis
  | py_file :: rest =>
      if qualifies py_file
      then set_functions_dir (<["type" := VStr "python-functions"]> analysis) py_file
      else python_rule analysis rest
  end.

Definition patterns : list (string * list string) :=
  [("OPENAI_API_KEY", ["openai"; "gpt"; "chatgpt"]);
   ("GOOGLE_API_KEY", ["google"; "gemini"; "generativeai"]);
   ("ANTHROPIC_API_KEY", ["anthropic"; "claude"]);
   ("DATABASE_URL", ["database"; "postgres"; "mysql"; "mongodb"]);
   ("SECRET_KEY", ["secret"; "jwt"; "session"]);
   ("API_KEY", ["api_key"; "apikey"])].

Definition source_suffixes : list string := [".py"; ".js"; ".ts"; ".jsx"; ".tsx"].

Definition scan_content (content : string) (env_vars : gset string) : gset string :=
  fold_left (fun acc p =>
               if existsb (fun kw => contains kw content) (snd p)
               then {[fst p]} ∪ acc else acc)
            patterns env_vars.

Definition env_var_set (files : list string) (read : string -> option string)
  : gset string :=
  fold_left (fun env_vars file =>
               if endswith_any source_suffixes file then
                 match read file with
                 | Some text => scan_content (lower text) env_vars
                 | None => env_vars
                 end
               else env_vars)
            files ∅.

Definition _detect_env_vars (files : list string) (read : string -> option string)
  : list string :=
  elements (env_var_set files read).

Definition python_type_rule (analysis : dict) : dict :=
  if get_bool analysis "has_python" then
    let analysis := python_rule analysis (get_list analysis "python_files") in
    when (str_is analysis "type" "static" && get_bool analysis "has_python")
      <["type" := VStr "python-functions"]> analysis
  else analysis.

Definition node_rule (analysis : dict) : dict :=
  when (get_bool analysis "has_node" && get_bool analysis "has_package_json")
    (fun a => <["build_command" := VStr "npm run build"]>
                (<["type" := VStr "node-project"]> a))
    analysis.

(** [detect_project_type] once [self.scan_files()] has filled [self.files]. *)
Definition detect_project_type (files : list string) (read : string -> option string)
  : dict :=
  let analysis := fold_left flag_step files initial_analysis in
  let analysis := python_type_rule analysis in
  let analysis := node_rule analysis in
  <["env_vars_needed" := VList (_detect_env_vars files read)]> analysis.

(** [main] up to the end of its first step: the path checks, then the
    analysis. *)
Inductive outcome :=
| Exit (code : nat)
| Analysed (analysis : dict).

Definition main_analyze (root : option node) : outcome :=
  if negb (Fs.exists_ root) then Exit 1
  else if negb (Fs.is_dir root) then Exit 1
  else Analysed (detect_project_type (Fs.scan_files root) (Fs.read_text root)).

(** *** [ConfigGenerator]; [analysis] is [self.analysis] *)

Definition when_set (x : option string) (f : string -> list string) : list string :=
  match x with
  | Some v => if truthy x then f v else []
  | None => []
  end.

Definition netlify_toml_lines (has_python : bool) (publish_dir : string)
    (functions_dir build_command : option string) (python_version : string) : list string :=
  ["[build]"] ++
  when_set functions_dir (fun d => ["  functions = " +:+ dq +:+ d +:+ dq]) ++
  ["  publish = " +:+ dq +:+ publish_dir +:+ dq] ++
  when_set build_command (fun c => ["  command = " +:+ dq +:+ c +:+ dq]) ++
  (if has_python
   then when_set functions_dir (fun _ =>
          [EmptyString;
           "[functions]";
           "  python_version = " +:+ dq +:+ python_version +:+ dq])
   else []) ++
  when_set functions_dir (fun _ =>
    [EmptyString;
     "[[redirects]]";
     "  from = " +:+ dq +:+ "/api/*" +:+ dq;
     "  to = " +:+ dq +:+ "/.netlify/functions/:splat" +:+ dq;
     "  status = 200"]).

(** [ConfigGenerator.generate_netlify_toml]; the subscript
    [self.analysis['has_python']] is evaluated on every call and raises
    [KeyError] on an analysis without that key: [None]. *)
Definition generate_netlify_toml (analysis : dict) (publish_dir : string)
    (functions_dir build_command : option string) (python_version : string)
  : option string :=
  match analysis !! "has_python" with
  | Some has_python =>
      Some (join newline
              (netlify_toml_lines (truth has_python) publish_dir functions_dir build_command
                 python_version)
            +:+ newline)
  | None => None
  end.

Definition generate_gitignore : string :=
"# 環境變數（含敏感資訊）
.env
.env.local
.env.production

# Netlify 本地快取
.netlify/

# Python
__pycache__/
*.py[cod]
*$py.class
venv/
.venv/
*.egg-info/

# Node.js
node_modules/

# 系統檔案
.DS_Store
Thumbs.db

# IDE
.vscode/
.idea/
*.swp
*.swo
".

Definition descriptions : gmap string string :=
  <["OPENAI_API_KEY" := "# OpenAI API Key - https://platform.openai.com/api-keys"]> $
  <["GOOGLE_API_KEY" := "# Google API Key (Gemini) - https://aistudio.google.com/app/apikey"]> $
  <["ANTHROPIC_API_KEY" := "# Anthropic API Key - https://console.anthropic.com/"]> $
  <["DATABASE_URL" := "# 資料庫連線字串"]> $
  <["SECRET_KEY" := "# 應用程式密鑰"]> $
  <["API_KEY" := "# API 金鑰"]> ∅.

Definition env_example_lines (env_vars : list string) : list string :=
  ["# 環境變數範例"; "# 複製此檔案為 .env 並填入真實的值"; EmptyString] ++
  flat_map (fun var =>
              match descriptions !! var with
              | Some d => [d]
              | None => []
              end ++
              [var +:+ "=your_" +:+ lower var +:+ "_here"; EmptyString])
           env_vars ++
  ["# 注意：永遠不要將 .env 檔案上傳到 Git！"].

Definition generate_env_example (env_vars : list string) : string :=
  join newline (env_example_lines env_vars).

Definition mem (name : string) (env_vars : list string) : bool :=
  existsb (String.eqb name) env_vars.

(** [self.analysis.get('env_vars_needed', [])] feeds the package choice. *)
Definition generate_requirements (analysis : dict) : string :=
  let env_vars := get_list analysis "env_vars_needed" in
  let packages :=
    (if mem "OPENAI_API_KEY" env_vars then ["openai"] else []) ++
    (if mem "GOOGLE_API_KEY" env_vars then ["google-generativeai"] else []) ++
    (if mem "ANTHROPIC_API_KEY" env_vars then ["anthropic"] else []) in
  let packages :=
    match packages with
    | [] => ["# 在此加入你需要的 Python 套件"]
    | _ => packages
    end in
  join newline packages +:+ newline.

(** *** [Deployer] *)

(** The scan of [result.stdout] shared by both deploys: the last word of
    the first line that carries one of [markers].  An [IndexError] from
    [line.split()[-1]] would land in [except Exception] and give [None]. *)
Definition scan_stdout (markers : list string) (out : string) : option string :=
  match List.find (fun line => existsb (fun m => contains m line) markers) (split nl out) with
  | Some line => last (words line)
  | None => None
  end.

Definition deploy_preview (p : process) : option string :=
  match p with
  | Exited returncode out err =>
      if Z.eqb returncode 0
      then scan_stdout ["Website Draft URL"; "Website draft URL"] out
      else None
  | Raised _ => None
  end.

Definition deploy_production (p : process) : option string :=
  match p with
  | Exited returncode out err =>
      if Z.eqb returncode 0 then scan_stdout ["Website URL"] out else None
  | Raised _ => None
  end.

(** *** The prompts

    The terminal is a stream of input lines: [input()] takes the next line,
    and raises [EOFError] when none is left.  What the prompts print is not
    modelled. *)

Inductive reply (A : Type) :=
| Answer (a : A) (rest : list string)
| Eof
| Quit (code : nat).

Arguments Answer {A} a rest.
Arguments Eof {A}.
Arguments Quit {A} code.

Definition bind {A B} (m : reply A) (k : A -> list string -> reply B) : reply B :=
  match m with
  | Answer a rest => k a rest
  | Eof => Eof
  | Quit code => Quit code
  end.

(** [ask_yes_no(question, default)] *)
Fixpoint ask_yes_no (default : bool) (inputs : list string) : reply bool :=
  match inputs with
  | [] => Eof
  | line :: rest =>
      let answer := lower (strip line) in
      if String.eqb answer EmptyString then Answer default rest
      else if mem answer ["y"; "yes"; "是"] then Answer true rest
      else if mem answer ["n"; "no"; "否"] then Answer false rest
      else ask_yes_no default rest
  end.

(** [ask_choice(question, options, default)]; [to_int] is Python's [int],
    [None] standing for [ValueError]. *)
Fixpoint ask_choice (to_int : string -> option Z) (options : list string) (default : Z)
    (inputs : list string) : reply Z :=
  match inputs with
  | [] => Eof
  | line :: rest =>
      let answer := strip line in
      if String.eqb answer EmptyString then Answer default rest
      else
        match to_int answer with
        | Some n =>
            let idx := (n - 1)%Z in
            if Z.leb 0 idx && Z.ltb idx (Z.of_nat (length options))
            then Answer idx rest
            else ask_choice to_int options default rest
        | None => ask_choice to_int options default rest
        end
  end.

(** [ask_input(question, default)] *)
Definition ask_input (default : string) (inputs : list string) : reply string :=
  match inputs with
  | [] => Eof
  | line :: rest =>
      let answer := strip line in
      Answer (if String.eqb answer EmptyString then default else answer) rest
  end.

(** [show_main_menu()]; [cwd] is [os.getcwd()]. *)
Fixpoint show_main_menu (cwd : string) (inputs : list string) : reply string :=
  match inputs with
  | [] => Eof
  | line :: rest =>
      let choice := strip line in
      if String.eqb choice "0" then Quit 0
      else if String.eqb choice "1" then
        match rest with
        | [] => Eof
        | line' :: rest' =>
            let project_path := strip line' in
            if String.eqb project_path EmptyString then show_main_menu cwd rest'
            else Answer project_path rest'
        end
      else if String.eqb choice "2" then Answer "." rest
      else if String.eqb choice "3" then
        match rest with
        | [] => Eof
        | line' :: rest' =>
            let project_path := strip line' in
            Answer (if String.eqb project_path EmptyString then cwd else project_path) rest'
        end
      else show_main_menu cwd rest
  end.

(** The [str] under [analysis[k]] when that value is true in the sense of
    [if analysis[k]:]; [detect_project_type] stores [None] or a [str] under
    'functions_dir'. *)
Definition truthy_str (analysis : dict) (k : string) : option string :=
  match analysis !! k with
  | Some (VStr s) => if String.eqb s EmptyString then None else Some s
  | _ => None
  end.

(** The second step of [main]: publish directory, functions directory and
    build command, as asked from the user. *)
Definition main_configure (analysis : dict) (inputs : list string)
  : reply (string * option string * option string) :=
  bind (ask_input "." inputs) (fun publish_dir inputs =>
  bind (if get_bool analysis "has_python" then
          match truthy_str analysis "functions_dir" with
          | Some d =>
              bind (ask_input d inputs) (fun a inputs => Answer (Some a) inputs)
          | None =>
              bind (ask_yes_no true inputs) (fun yes inputs =>
              if yes
              then bind (ask_input "netlify/functions" inputs)
                     (fun a inputs => Answer (Some a) inputs)
              else Answer None inputs)
          end
        else Answer None inputs) (fun functions_dir inputs =>
  bind (if get_bool analysis "has_node" then
          bind (ask_input "npm run build" inputs) (fun c inputs =>
          Answer (if String.eqb c EmptyString then None else Some c) inputs)
        else Answer None inputs) (fun build_command inputs =>
  Answer (publish_dir, functions_dir, build_command) inputs))).

(** [Deployer.check_logged_in]: ['Logged in' in result.stdout or
    'logged in' in result.stdout.lower()]. *)
Definition check_logged_in (p : process) : bool :=
  match p with
  | Exited _ out _ => contains "Logged in" out || contains "logged in" (lower out)
  | Raised _ => false
  end.

End NetlifyAi.

(** * Vocabulary of the statements *)

(** Text within 7-bit ASCII, the range on which the string operations of
    [Str] are Python's. *)
Fixpoint is_ascii (s : string) : bool :=
  match s with
  | EmptyString => true
  | String c t => (nat_of_ascii c <? 128) && is_ascii t
  end.

(** A file the flag loop records as Python source. *)
Definition is_python (file : string) : bool := Str.endswith ".py" (Str.lower file).

(** A file the flag loop records as the Node manifest. *)
Definition is_manifest (file : string) : bool := String.eqb (Str.lower file) "package.json".

Definition flag_keys : list string :=
  ["has_html"; "has_python"; "python_files"; "has_node"; "has_package_json";
   "has_netlify_config"; "has_env_file"; "has_env_example"; "has_gitignore";
   "has_requirements"].

(** The file the Python loop stops at: the first Python file, in list order,
    whose path mentions 'functions' or 'netlify'. *)
Definition first_qualifying (files : list string) : option string :=
  List.find (fun g => is_python g && App.qualifies g) files.

(** What the inner loop over [parts] leaves in [functions_dir]. *)
Definition functions_dir_of (py_file : string) : value :=
  let parts := PosixPath.parts py_file in
  match App.functions_index parts 0 with
  | Some i => VStr (PosixPath.str_of_segments (take (i + 1) parts))
  | None => VNone
  end.

(** The type the rules arrive at. *)
Definition type_of (files : list string) : string :=
  if existsb is_manifest files then "node-project"
  else if existsb is_python files then "python-functions"
  else "static".

Definition functions_dir_value (files : list string) : value :=
  match first_qualifying files with
  | Some f => functions_dir_of f
  | None => VNone
  end.

Definition build_command_value (files : list string) : value :=
  if existsb is_manifest files then VStr "npm run build" else VNone.

(** A dictionary as [detect_project_type] initialises it, as far as the
    rules read it. *)
Record fresh (a : dict) : Prop := {
  fresh_type : a !! "type" = Some (VStr "static");
  fresh_functions_dir : a !! "functions_dir" = Some VNone;
  fresh_build_command : a !! "build_command" = Some VNone;
  fresh_has_python : get_bool a "has_python" = false;
  fresh_python_files : get_list a "python_files" = [];
  fresh_has_node : get_bool a "has_node" = false;
  fresh_has_package_json : get_bool a "has_package_json" = false
}.

Definition python_type (files : list string) : string :=
  if existsb is_python files then "python-functions" else "static".

(** A path segment as a directory listing gives it: not empty, not ".",
    without a slash. *)
Definition valid_segment (seg : string) : bool :=
  negb (String.eqb seg EmptyString) && negb (String.eqb seg ".") &&
  negb (Str.contains "/" seg).

(** The keyword scan over an arbitrary pattern table. *)
Definition scan_with (pats : list (string * list string)) (content : string)
    (env_vars : gset string) : gset string :=
  fold_left (fun acc p =>
               if existsb (fun kw => Str.contains kw content) (snd p)
               then {[fst p]} ∪ acc else acc)
            pats env_vars.

Definition env_vars_with (pats : list (string * list string)) (files : list string)
    (read : string -> option string) (start : gset string) : gset string :=
  fold_left (fun env_vars file =>
               if Str.endswith_any [".py"; ".js"; ".ts"; ".jsx"; ".tsx"] file then
                 match read file with
                 | Some text => scan_with pats (Str.lower text) env_vars
                 | None => env_vars
                 end
               else env_vars)
            files start.

(** The variable names the web entry point knows, and the wizard's. *)
Definition app_vocabulary : list string :=
  ["OPENAI_API_KEY"; "GOOGLE_API_KEY"; "ANTHROPIC_API_KEY"; "DATABASE_URL"; "SECRET_KEY"].

Definition wizard_vocabulary : list string := app_vocabulary ++ ["API_KEY"].

(** The lines of a generated file, counted by a test. *)
Definition count_lines_where (test : string -> bool) (out : string) : nat :=
  length (List.filter test (Str.split Str.nl out)).

Definition count_line (line out : string) : nat :=
  count_lines_where (String.eqb line) out.

Fixpoint list_prefix (block l : list string) : bool :=
  match block, l with
  | [], _ => true
  | b :: bs, x :: xs => String.eqb b x && list_prefix bs xs
  | _ :: _, [] => false
  end.

(** [block] occurs in [l] as a run of consecutive lines. *)
Fixpoint has_block (block l : list string) : bool :=
  list_prefix block l ||
  match l with
  | [] => false
  | _ :: t => has_block block t
  end.

(** The redirect rule of the manifest. *)
Definition redirect_block : list string :=
  ["[[redirects]]";
   "  from = " +:+ Str.dq +:+ "/api/*" +:+ Str.dq;
   "  to = " +:+ Str.dq +:+ "/.netlify/functions/:splat" +:+ Str.dq;
   "  status = 200"].

(** An argument that holds no line break. *)
Definition single_line (s : string) : bool := negb (Str.contains Str.newline s).

Definition single_line_opt (o : option string) : bool :=
  match o with
  | Some s => single_line s
  | None => true
  end.

(** A line the deploy handler takes a URL from. *)
Definition recognized (line : string) : bool :=
  (Str.contains "website" (Str.lower line) && Str.contains "url" (Str.lower line)) ||
  (Str.contains "deploy" (Str.lower line) && Str.contains "url" (Str.lower line)) ||
  (Str.contains "https://" line && Str.contains "netlify" line &&
   bool_decide (Re.search App.netlify_url_re line <> None)).

(** The URL taken from a recognized line: its last word when the line names a
    website or deploy URL, the leftmost match of the pattern otherwise. *)
Definition extracted (line : string) : option string :=
  if (Str.contains "website" (Str.lower line) || Str.contains "deploy" (Str.lower line))
     && Str.contains "url" (Str.lower line)
  then last (Str.words line)
  else Re.search App.netlify_url_re line.

(** The text the deploy handler scans. *)
Definition all_output (p : process) : string :=
  App.stdout (App.run_command p) +:+ Str.newline +:+ App.stderr (App.run_command p).

Fixpoint all_space (s : string) : bool :=
  match s with
  | EmptyString => true
  | String c t => Str.is_space c && all_space t
  end.

(** What the scan holds in [url] and [deploy_url]: nothing, or a non-empty
    URL extracted from a recognized line among [lines]. *)
Definition from_lines (lines : list string) (o : option string) : Prop :=
  forall u, o = Some u ->
    u <> EmptyString /\
    exists line, line ∈ lines /\ recognized line = true /\ extracted line = Some u.

(** Keys only the web entry point writes. *)
Definition web_only_keys : list string := ["type_name"; "file_count"; "path"].

(** Two analyses that agree on every key the two entry points share. *)
Definition agree (a b : dict) : Prop :=
  forall k, k ∉ web_only_keys -> a !! k = b !! k.

(** A tree whose entry names are path segments, as [os.scandir] reports them. *)
Fixpoint well_named (n : node) : bool :=
  match n with
  | File _ => true
  | Dir es => forallb (fun e => valid_segment (fst e) && well_named (snd e)) es
  end.

(** Induction over a tree together with the entries of its directories. *)
Fixpoint node_rect_entries (P : node -> Prop)
    (on_file : forall text, P (File text))
    (on_dir : forall es, Forall (fun e => P (snd e)) es -> P (Dir es))
    (n : node) : P n :=
  match n with
  | File text => on_file text
  | Dir es =>
      on_dir es
        ((fix entries (l : list (string * node)) : Forall (fun e => P (snd e)) l :=
            match l with
            | [] => List.Forall_nil _
            | e :: l' =>
                @List.Forall_cons _ _ e l' (node_rect_entries P on_file on_dir (snd e)) (entries l')
            end) es)
  end.

(** A small project used in the examples. *)
Definition demo_tree : node :=
  Dir [("index.html", File (Some "<html></html>"));
       (".git", Dir [("config", File (Some "[core]"))]);
       ("netlify",
        Dir [("functions",
              Dir [("handler.py", File (Some "from openai import OpenAI"));
                   ("requirements.txt", File (Some "openai"))])]);
       ("broken.js", File None)].

(** The tests of the flag loop on whole relative paths. *)
Definition is_html (file : string) : bool := Str.endswith ".html" (Str.lower file).

Definition is_named (name file : string) : bool := String.eqb (Str.lower file) name.

(** The Boolean keys of the analysis, each with the test that raises it. *)
Definition flag_tests : list (string * (string -> bool)) :=
  [("has_html", is_html);
   ("has_python", is_python);
   ("has_node", is_manifest);
   ("has_package_json", is_manifest);
   ("has_netlify_config", is_named "netlify.toml");
   ("has_env_file", is_named ".env");
   ("has_env_example", is_named ".env.example");
   ("has_gitignore", is_named ".gitignore");
   ("has_requirements", is_named "requirements.txt")].

(** A step that leaves a key alone or raises it to [True]. *)
Definition raises_only (a a' : dict) : Prop :=
  forall k, k <> "python_files" -> a' !! k = a !! k \/ a' !! k = Some (VBool true).

(** The three variable names that bring a package. *)
Definition package_names : list string :=
  ["OPENAI_API_KEY"; "GOOGLE_API_KEY"; "ANTHROPIC_API_KEY"].

(** The line of the environment template that assigns [var]. *)
Definition assignment (var : string) : string :=
  var +:+ "=your_" +:+ Str.lower var +:+ "_here".

(** A line of the template that is neither blank nor a comment. *)
Definition is_assignment_line (line : string) : bool :=
  negb (Str.startswith "#" line) && negb (String.eqb line EmptyString).

(** The template lines over an arbitrary description table. *)
Definition env_lines_with (descs : gmap string string) (env_vars : list string)
  : list string :=
  ["# 環境變數範例"; "# 複製此檔案為 .env 並填入真實的值"; EmptyString] ++
  flat_map (fun var =>
              match descs !! var with
              | Some d => [d]
              | None => []
              end ++
              [var +:+ "=your_" +:+ Str.lower var +:+ "_here"; EmptyString])
           env_vars ++
  ["# 注意：永遠不要將 .env 檔案上傳到 Git！"].

(** A description that is one comment line. *)
Definition comment_line (d : string) : Prop :=
  Str.startswith "#" d = true /\ Str.contains Str.newline d = false.

(** What a line writes into [url], and into [deploy_url], if anything. *)
Definition sets_url (line : string) : option string :=
  if Str.contains "website" (Str.lower line) && Str.contains "url" (Str.lower line)
  then last (Str.words line)
  else if Str.contains "deploy" (Str.lower line) && Str.contains "url" (Str.lower line)
  then None
  else if Str.contains "https://" line && Str.contains "netlify" line
  then Re.search App.netlify_url_re line
  else None.

Definition sets_deploy_url (line : string) : option string :=
  if Str.contains "website" (Str.lower line) && Str.contains "url" (Str.lower line)
  then None
  else if Str.contains "deploy" (Str.lower line) && Str.contains "url" (Str.lower line)
  then last (Str.words line)
  else None.

(** The line the wizard's preview deploy looks for. *)
Definition preview_marker (line : string) : bool :=
  existsb (fun m => Str.contains m line) ["Website Draft URL"; "Website draft URL"].

(** A tree in which no directory lists a name twice. *)
Fixpoint unique_names (n : node) : bool :=
  match n with
  | File _ => true
  | Dir es =>
      bool_decide (NoDup (map fst es)) && forallb (fun e => unique_names (snd e)) es
  end.

(** * The model at work *)

Example lower_ex : Str.lower "Netlify/Functions/A.PY" = "netlify/functions/a.py".
Proof. reflexivity. Qed.

Example split_ex :
  Str.split Str.slash "a//b/" = ["a"; EmptyString; "b"; EmptyString].
Proof. reflexivity. Qed.

Example words_ex :
  Str.words "  Website URL:   https://demo.netlify.app " =
  ["Website"; "URL:"; "https://demo.netlify.app"].
Proof. reflexivity. Qed.

Example parts_ex :
  PosixPath.parts "./netlify//functions/h.py" = ["netlify"; "functions"; "h.py"].
Proof. reflexivity. Qed.

Example str_of_segments_ex :
  PosixPath.str_of_segments ["/"; "srv"; "functions"] = "/srv/functions".
Proof. reflexivity. Qed.

Example search_ex :
  Re.search App.netlify_url_re "Live: https://app.netlify.com/sites/demo done" =
  Some "https://app.netlify.com/sites/demo".
Proof. reflexivity. Qed.

Example scan_ex :
  Fs.scan_files (Some demo_tree) =
  ["index.html"; "broken.js"; "netlify/functions/handler.py";
   "netlify/functions/requirements.txt"].
Proof. reflexivity. Qed.

Example analyze_ex :
  exists analysis files,
    App.analyze_project (Some demo_tree) "/srv/site" = App.Analysed analysis files /\
    analysis !! "type" = Some (VStr "python-functions") /\
    analysis !! "functions_dir" = Some (VStr "netlify/functions") /\
    analysis !! "env_vars_needed" = Some (VList ["OPENAI_API_KEY"]) /\
    analysis !! "file_count" = Some (VInt 4).
Proof. do 2 eexists. split; [reflexivity|]. by vm_compute. Qed.

Example manifest_ex :
  App.generate_netlify_toml "." (Some "netlify/functions") None "3.10" =
  Str.join Str.newline
    ["[build]";
     "  functions = " +:+ Str.dq +:+ "netlify/functions" +:+ Str.dq;
     "  publish = " +:+ Str.dq +:+ "." +:+ Str.dq;
     EmptyString;
     "[build.environment]";
     "  PYTHON_VERSION = " +:+ Str.dq +:+ "3.10" +:+ Str.dq;
     EmptyString;
     "[[redirects]]";
     "  from = " +:+ Str.dq +:+ "/api/*" +:+ Str.dq;
     "  to = " +:+ Str.dq +:+ "/.netlify/functions/:splat" +:+ Str.dq;
     "  status = 200";
     EmptyString].
Proof. reflexivity. Qed.

Example strip_ex : Str.strip "   netlify/functions  " = "netlify/functions".
Proof. reflexivity. Qed.

Example ask_yes_no_ex :
  NetlifyAi.ask_yes_no true ["maybe"; "  YES "; "n"] = NetlifyAi.Answer true ["n"].
Proof. reflexivity. Qed.

Example show_main_menu_ex :
  NetlifyAi.show_main_menu "/home/me" ["9"; "1"; "   "; "3"; ""; "left"] =
  NetlifyAi.Answer "/home/me" ["left"].
Proof. reflexivity. Qed.

(** * Facts about the string operations *)

Section StrFacts.
Import Str.

Lemma app_cons c s t : String c s +:+ t = String c (s +:+ t).
Proof. reflexivity. Qed.

Lemma app_empty_l s : EmptyString +:+ s = s.
Proof. reflexivity. Qed.

Lemma app_empty_r s : s +:+ EmptyString = s.
Proof. induction s as [|c s IH]; [done|]. by rewrite app_cons, IH. Qed.

Lemma app_assoc_s a b c : (a +:+ b) +:+ c = a +:+ (b +:+ c).
Proof. induction a as [|x a IH]; [done|]. by rewrite !app_cons, IH. Qed.

Lemma eqb_true s t : String.eqb s t = true <-> s = t.
Proof. apply String.eqb_eq. Qed.

Lemma eqb_false s t : String.eqb s t = false <-> s <> t.
Proof. apply String.eqb_neq. Qed.

Lemma lower_app a b : lower (a +:+ b) = lower a +:+ lower b.
Proof. induction a as [|x a IH]; [done|]. rewrite app_cons. simpl. by rewrite IH. Qed.

Lemma startswith_spec pre s : startswith pre s = true <-> exists t, s = pre +:+ t.
Proof.
  revert s. induction pre as [|a pre IH]; intros s; simpl.
  - split; [intros _; by exists s | done].
  - destruct s as [|b s].
    + split; [done | intros [t Ht]; discriminate].
    + rewrite andb_true_iff, IH, Ascii.eqb_eq. split.
      * intros [-> [t ->]]. by exists t.
      * intros [t Ht]. rewrite app_cons in Ht. injection Ht as -> ->. eauto.
Qed.

Lemma contains_unfold kw s :
  contains kw s =
  startswith kw s || match s with EmptyString => false | String _ t => contains kw t end.
Proof. by destruct s. Qed.

(** [kw in s] holds exactly when [s] is [a + kw + b] for some [a], [b]. *)
Lemma contains_spec kw s :
  contains kw s = true <-> exists a b, s = a +:+ kw +:+ b.
Proof.
  induction s as [|c s IH]; rewrite contains_unfold, orb_true_iff, startswith_spec.
  - split.
    + intros [[t Ht]|?]; [|done]. by exists EmptyString, t.
    + intros [[|x a] [b Hb]]; [left; by exists b | discriminate].
  - rewrite IH. split.
    + intros [[t Ht]|[a [b ->]]]; [by exists EmptyString, t|].
      by exists (String c a), b.
    + intros [[|x a] [b Hb]]; [left; by exists b|].
      rewrite app_cons in Hb. injection Hb as -> ->. right. eauto.
Qed.

Lemma contains_within kw a s b :
  contains kw s = true -> contains kw (a +:+ s +:+ b) = true.
Proof.
  rewrite !contains_spec. intros [x [y ->]].
  exists (a +:+ x), (y +:+ b). by rewrite !app_assoc_s.
Qed.

Lemma contains_false_within kw a s b :
  contains kw (a +:+ s +:+ b) = false -> contains kw s = false.
Proof.
  intros H. destruct (contains kw s) eqn:E; [|done].
  by rewrite (contains_within _ a _ b E) in H.
Qed.

(** A keyword written in any letter case inside [text] is found in
    [text.lower()]. *)
Lemma contains_lower kw a m b :
  lower m = kw -> contains kw (lower (a +:+ m +:+ b)) = true.
Proof.
  intros <-. rewrite !lower_app. apply contains_spec. eauto.
Qed.

End StrFacts.

(** * Facts about the classifier *)

(** Closes [f a !! k = a !! k] when [f] inserts under other keys only. *)
Ltac keep_key :=
  intros; rewrite ?lookup_insert_ne by done; reflexivity.

Section FlagLoop.
Import Str.

(** The wizard's copies of the loop bodies are the web ones, verbatim. *)
Lemma flag_step_same : NetlifyAi.flag_step = App.flag_step.
Proof. reflexivity. Qed.

Lemma qualifies_same : NetlifyAi.qualifies = App.qualifies.
Proof. reflexivity. Qed.

Lemma set_functions_dir_same : NetlifyAi.set_functions_dir = App.set_functions_dir.
Proof. reflexivity. Qed.

Lemma lookup_when_keeps c f (a : dict) k :
  (forall a', f a' !! k = a' !! k) -> when c f a !! k = a !! k.
Proof. intros H. unfold when. by destruct c. Qed.

Lemma get_bool_insert_ne (a : dict) k k' v :
  k <> k' -> get_bool (<[k:=v]> a) k' = get_bool a k'.
Proof. intros H. unfold get_bool. by rewrite lookup_insert_ne. Qed.

Lemma get_bool_insert (a : dict) k b : get_bool (<[k:=VBool b]> a) k = b.
Proof. unfold get_bool. by rewrite lookup_insert_eq. Qed.

Lemma get_list_insert_ne (a : dict) k k' v :
  k <> k' -> get_list (<[k:=v]> a) k' = get_list a k'.
Proof. intros H. unfold get_list. by rewrite lookup_insert_ne. Qed.

Lemma get_list_insert (a : dict) k l : get_list (<[k:=VList l]> a) k = l.
Proof. unfold get_list. by rewrite lookup_insert_eq. Qed.

Lemma get_bool_when_keeps c f (a : dict) k :
  (forall a', f a' !! k = a' !! k) -> get_bool (when c f a) k = get_bool a k.
Proof. intros H. unfold get_bool. by rewrite lookup_when_keeps. Qed.

Lemma get_list_when_keeps c f (a : dict) k :
  (forall a', f a' !! k = a' !! k) -> get_list (when c f a) k = get_list a k.
Proof. intros H. unfold get_list. by rewrite lookup_when_keeps. Qed.

Lemma flag_step_keeps (a : dict) file k :
  k ∉ flag_keys -> App.flag_step a file !! k = a !! k.
Proof.
  unfold flag_keys. rewrite !not_elem_of_cons. intros H. destruct_and!.
  unfold App.flag_step. cbv zeta.
  rewrite !lookup_when_keeps; [done | keep_key ..].
Qed.

Lemma flag_step_has_python (a : dict) file :
  get_bool (App.flag_step a file) "has_python" = get_bool a "has_python" || is_python file.
Proof.
  unfold App.flag_step. cbv zeta.
  rewrite !get_bool_when_keeps by keep_key.
  unfold is_python, when at 1. destruct (endswith ".py" (lower file)).
  - rewrite get_bool_insert_ne, get_bool_insert by done. by rewrite orb_true_r.
  - rewrite get_bool_when_keeps by keep_key. by rewrite orb_false_r.
Qed.

Lemma flag_step_python_files (a : dict) file :
  get_list (App.flag_step a file) "python_files" =
  get_list a "python_files" ++ (if is_python file then [file] else []).
Proof.
  unfold App.flag_step. cbv zeta.
  rewrite !get_list_when_keeps by keep_key.
  unfold is_python, when at 1. destruct (endswith ".py" (lower file)).
  - rewrite get_list_insert. by rewrite get_list_when_keeps by keep_key.
  - rewrite get_list_when_keeps by keep_key. by rewrite app_nil_r.
Qed.

Lemma flag_step_has_node (a : dict) file :
  get_bool (App.flag_step a file) "has_node" = get_bool a "has_node" || is_manifest file.
Proof.
  unfold App.flag_step. cbv zeta.
  rewrite !get_bool_when_keeps by keep_key.
  unfold is_manifest, when at 1. destruct (String.eqb (lower file) "package.json").
  - rewrite get_bool_insert_ne, get_bool_insert by done. by rewrite orb_true_r.
  - rewrite !get_bool_when_keeps by keep_key. by rewrite orb_false_r.
Qed.

Lemma flag_step_has_package_json (a : dict) file :
  get_bool (App.flag_step a file) "has_package_json" =
  get_bool a "has_package_json" || is_manifest file.
Proof.
  unfold App.flag_step. cbv zeta.
  rewrite !get_bool_when_keeps by keep_key.
  unfold is_manifest, when at 1. destruct (String.eqb (lower file) "package.json").
  - rewrite get_bool_insert. by rewrite orb_true_r.
  - rewrite !get_bool_when_keeps by keep_key. by rewrite orb_false_r.
Qed.

(** The flag loop as a whole. *)
Lemma flags_keep files (a : dict) k :
  k ∉ flag_keys -> fold_left App.flag_step files a !! k = a !! k.
Proof.
  intros Hk. revert a. induction files as [|f files IH]; intros a; [done|].
  simpl. by rewrite IH, flag_step_keeps.
Qed.

Lemma flags_has_python files (a : dict) :
  get_bool (fold_left App.flag_step files a) "has_python" =
  get_bool a "has_python" || existsb is_python files.
Proof.
  revert a. induction files as [|f files IH]; intros a; simpl.
  - by rewrite orb_false_r.
  - by rewrite IH, flag_step_has_python, orb_assoc.
Qed.

Lemma flags_has_node files (a : dict) :
  get_bool (fold_left App.flag_step files a) "has_node" =
  get_bool a "has_node" || existsb is_manifest files.
Proof.
  revert a. induction files as [|f files IH]; intros a; simpl.
  - by rewrite orb_false_r.
  - by rewrite IH, flag_step_has_node, orb_assoc.
Qed.

Lemma flags_has_package_json files (a : dict) :
  get_bool (fold_left App.flag_step files a) "has_package_json" =
  get_bool a "has_package_json" || existsb is_manifest files.
Proof.
  revert a. induction files as [|f files IH]; intros a; simpl.
  - by rewrite orb_false_r.
  - by rewrite IH, flag_step_has_package_json, orb_assoc.
Qed.

Lemma flags_python_files files (a : dict) :
  get_list (fold_left App.flag_step files a) "python_files" =
  get_list a "python_files" ++ List.filter is_python files.
Proof.
  revert a. induction files as [|f files IH]; intros a; simpl.
  - by rewrite app_nil_r.
  - rewrite IH, flag_step_python_files, <- app_assoc. by destruct (is_python f).
Qed.

End FlagLoop.

(** ** The type rules *)

Section TypeRules.
Import Str.

Lemma set_functions_dir_keeps (a : dict) f k :
  k <> "functions_dir" -> App.set_functions_dir a f !! k = a !! k.
Proof.
  intros Hk. unfold App.set_functions_dir. cbv zeta.
  destruct (App.functions_index _ _); [|done]. by rewrite lookup_insert_ne.
Qed.

Lemma set_functions_dir_sets (a : dict) f :
  a !! "functions_dir" = Some VNone ->
  App.set_functions_dir a f !! "functions_dir" = Some (functions_dir_of f).
Proof.
  intros Ha. unfold App.set_functions_dir, functions_dir_of. cbv zeta.
  destruct (App.functions_index _ _); [|done]. by rewrite lookup_insert_eq.
Qed.

Lemma app_python_rule_find (a : dict) files :
  App.python_rule a (List.filter is_python files) =
  match first_qualifying files with
  | Some f =>
      App.set_functions_dir
        (<["type_name" := VStr "Python Serverless Functions"]>
           (<["type" := VStr "python-functions"]> a)) f
  | None => a
  end.
Proof.
  unfold first_qualifying.
  induction files as [|g files IH]; [done|]. simpl.
  destruct (is_python g); simpl; [|done].
  by destruct (App.qualifies g).
Qed.

Lemma wizard_python_rule_find (a : dict) files :
  NetlifyAi.python_rule a (List.filter is_python files) =
  match first_qualifying files with
  | Some f => App.set_functions_dir (<["type" := VStr "python-functions"]> a) f
  | None => a
  end.
Proof.
  unfold first_qualifying.
  induction files as [|g files IH]; [done|]. simpl.
  destruct (is_python g); simpl; [|done].
  change (NetlifyAi.qualifies g) with (App.qualifies g).
  by destruct (App.qualifies g).
Qed.

Lemma first_qualifying_python files f :
  first_qualifying files = Some f -> existsb is_python files = true.
Proof.
  unfold first_qualifying. intros H. apply find_some in H as [Hin Hq].
  apply andb_true_iff in Hq as [Hp _].
  apply existsb_exists. eauto.
Qed.

Lemma str_is_lookup (a : dict) k s t :
  a !! k = Some (VStr s) -> str_is a k t = String.eqb s t.
Proof. intros H. unfold str_is. by rewrite H. Qed.

End TypeRules.

(** ** What [detect_project_type] leaves under the decision keys *)

Section Detect.
Import Str.

Lemma app_initial_fresh files path : fresh (App.initial_analysis files path).
Proof. split; by vm_compute. Qed.

Lemma wizard_initial_fresh : fresh NetlifyAi.initial_analysis.
Proof. split; by vm_compute. Qed.

Lemma in_flag_keys_dec k : k ∉ flag_keys <-> bool_decide (k ∈ flag_keys) = false.
Proof. by rewrite bool_decide_eq_false. Qed.

Lemma app_python_type_rule files (a0 : dict) :
  fresh a0 ->
  App.python_type_rule (fold_left App.flag_step files a0) =
  match first_qualifying files with
  | Some f =>
      App.set_functions_dir
        (<["type_name" := VStr "Python Serverless Functions"]>
           (<["type" := VStr "python-functions"]> (fold_left App.flag_step files a0))) f
  | None =>
      if existsb is_python files
      then <["type_name" := VStr "Python Serverless Functions"]>
             (<["type" := VStr "python-functions"]> (fold_left App.flag_step files a0))
      else fold_left App.flag_step files a0
  end.
Proof.
  intros [Ht _ _ Hp Hl _ _]. unfold App.python_type_rule. cbv zeta.
  rewrite flags_has_python, Hp, flags_python_files, Hl. simpl.
  rewrite app_python_rule_find.
  destruct (first_qualifying files) as [f|] eqn:F.
  - rewrite (first_qualifying_python _ _ F). unfold when.
    rewrite (str_is_lookup _ "type" "python-functions" "static"); [done|].
    rewrite set_functions_dir_keeps by done.
    by rewrite lookup_insert_ne, lookup_insert_eq.
  - destruct (existsb is_python files) eqn:E; [|done].
    unfold when.
    rewrite (str_is_lookup _ "type" "static" "static"), flags_has_python;
      [by rewrite E, orb_true_r|].
    rewrite flags_keep; [done | by apply in_flag_keys_dec].
Qed.

Lemma wizard_python_type_rule files (a0 : dict) :
  fresh a0 ->
  NetlifyAi.python_type_rule (fold_left App.flag_step files a0) =
  match first_qualifying files with
  | Some f =>
      App.set_functions_dir
        (<["type" := VStr "python-functions"]> (fold_left App.flag_step files a0)) f
  | None =>
      if existsb is_python files
      then <["type" := VStr "python-functions"]> (fold_left App.flag_step files a0)
      else fold_left App.flag_step files a0
  end.
Proof.
  intros [Ht _ _ Hp Hl _ _]. unfold NetlifyAi.python_type_rule. cbv zeta.
  rewrite flags_has_python, Hp, flags_python_files, Hl. simpl.
  rewrite wizard_python_rule_find.
  destruct (first_qualifying files) as [f|] eqn:F.
  - rewrite (first_qualifying_python _ _ F). unfold when.
    rewrite (str_is_lookup _ "type" "python-functions" "static"); [done|].
    rewrite set_functions_dir_keeps by done.
    by rewrite lookup_insert_eq.
  - destruct (existsb is_python files) eqn:E; [|done].
    unfold when.
    rewrite (str_is_lookup _ "type" "static" "static"), flags_has_python;
      [by rewrite E, orb_true_r|].
    rewrite flags_keep; [done | by apply in_flag_keys_dec].
Qed.

Ltac rule_cases files :=
  destruct (first_qualifying files) as [f|] eqn:F;
  [rewrite ?(first_qualifying_python _ _ F)|destruct (existsb is_python files)].

Lemma app_rule_keeps files (a0 : dict) k :
  fresh a0 -> k ∉ ["type"; "type_name"; "functions_dir"] ->
  App.python_type_rule (fold_left App.flag_step files a0) !! k =
  fold_left App.flag_step files a0 !! k.
Proof.
  intros Hf Hk. rewrite !not_elem_of_cons in Hk. destruct_and!.
  rewrite app_python_type_rule by done.
  rule_cases files; rewrite ?set_functions_dir_keeps by done;
    by rewrite ?lookup_insert_ne by done.
Qed.

Lemma app_rule_type files (a0 : dict) :
  fresh a0 ->
  App.python_type_rule (fold_left App.flag_step files a0) !! "type" =
  Some (VStr (python_type files)).
Proof.
  intros Hf. rewrite app_python_type_rule by done. unfold python_type.
  rule_cases files; rewrite ?set_functions_dir_keeps by done;
    rewrite ?lookup_insert_ne, ?lookup_insert_eq by done; try done.
  rewrite flags_keep; [by destruct Hf | by apply in_flag_keys_dec].
Qed.

Lemma app_rule_functions_dir files (a0 : dict) :
  fresh a0 ->
  App.python_type_rule (fold_left App.flag_step files a0) !! "functions_dir" =
  Some (functions_dir_value files).
Proof.
  intros Hf. rewrite app_python_type_rule by done. unfold functions_dir_value.
  assert (fold_left App.flag_step files a0 !! "functions_dir" = Some VNone) as H0.
  { rewrite flags_keep; [by destruct Hf | by apply in_flag_keys_dec]. }
  rule_cases files; rewrite ?lookup_insert_ne by done; try done.
  apply set_functions_dir_sets. by rewrite !lookup_insert_ne.
Qed.

Lemma wizard_rule_keeps files (a0 : dict) k :
  fresh a0 -> k ∉ ["type"; "type_name"; "functions_dir"] ->
  NetlifyAi.python_type_rule (fold_left App.flag_step files a0) !! k =
  fold_left App.flag_step files a0 !! k.
Proof.
  intros Hf Hk. rewrite !not_elem_of_cons in Hk. destruct_and!.
  rewrite wizard_python_type_rule by done.
  rule_cases files; rewrite ?set_functions_dir_keeps by done;
    by rewrite ?lookup_insert_ne by done.
Qed.

Lemma wizard_rule_type files (a0 : dict) :
  fresh a0 ->
  NetlifyAi.python_type_rule (fold_left App.flag_step files a0) !! "type" =
  Some (VStr (python_type files)).
Proof.
  intros Hf. rewrite wizard_python_type_rule by done. unfold python_type.
  rule_cases files; rewrite ?set_functions_dir_keeps by done;
    rewrite ?lookup_insert_ne, ?lookup_insert_eq by done; try done.
  rewrite flags_keep; [by destruct Hf | by apply in_flag_keys_dec].
Qed.

Lemma wizard_rule_functions_dir files (a0 : dict) :
  fresh a0 ->
  NetlifyAi.python_type_rule (fold_left App.flag_step files a0) !! "functions_dir" =
  Some (functions_dir_value files).
Proof.
  intros Hf. rewrite wizard_python_type_rule by done. unfold functions_dir_value.
  assert (fold_left App.flag_step files a0 !! "functions_dir" = Some VNone) as H0.
  { rewrite flags_keep; [by destruct Hf | by apply in_flag_keys_dec]. }
  rule_cases files; rewrite ?lookup_insert_ne by done; try done.
  apply set_functions_dir_sets. by rewrite !lookup_insert_ne.
Qed.

Ltac not_in := rewrite !not_elem_of_cons; repeat split; (done || apply not_elem_of_nil).

Lemma app_rule_get_bool files (a0 : dict) k :
  fresh a0 -> k ∉ ["type"; "type_name"; "functions_dir"] ->
  get_bool (App.python_type_rule (fold_left App.flag_step files a0)) k =
  get_bool (fold_left App.flag_step files a0) k.
Proof. intros Hf Hk. unfold get_bool. by rewrite app_rule_keeps. Qed.

Lemma app_node_rule_test files (a0 : dict) :
  fresh a0 ->
  get_bool (App.python_type_rule (fold_left App.flag_step files a0)) "has_node" &&
  get_bool (App.python_type_rule (fold_left App.flag_step files a0)) "has_package_json" =
  existsb is_manifest files.
Proof.
  intros Hf. rewrite !app_rule_get_bool by (done || not_in).
  rewrite flags_has_node, flags_has_package_json.
  destruct Hf as [_ _ _ _ _ -> ->]. simpl. apply andb_diag.
Qed.

Lemma app_detect_type files path read :
  App.detect_project_type files path read !! "type" = Some (VStr (type_of files)).
Proof.
  unfold App.detect_project_type. cbv zeta. rewrite lookup_insert_ne by done.
  unfold App.node_rule. rewrite app_node_rule_test by apply app_initial_fresh.
  unfold type_of, when. destruct (existsb is_manifest files).
  - by rewrite ?lookup_insert_ne, lookup_insert_eq by done.
  - by rewrite app_rule_type by apply app_initial_fresh.
Qed.

Lemma app_detect_functions_dir files path read :
  App.detect_project_type files path read !! "functions_dir" = Some (functions_dir_value files).
Proof.
  unfold App.detect_project_type. cbv zeta. rewrite lookup_insert_ne by done.
  unfold App.node_rule. rewrite lookup_when_keeps by keep_key.
  by rewrite app_rule_functions_dir by apply app_initial_fresh.
Qed.

Lemma app_detect_build_command files path read :
  App.detect_project_type files path read !! "build_command" = Some (build_command_value files).
Proof.
  unfold App.detect_project_type. cbv zeta. rewrite lookup_insert_ne by done.
  unfold App.node_rule. rewrite app_node_rule_test by apply app_initial_fresh.
  unfold build_command_value, when. destruct (existsb is_manifest files).
  - by rewrite lookup_insert_eq.
  - rewrite app_rule_keeps by (apply app_initial_fresh || not_in).
    rewrite flags_keep by (by apply in_flag_keys_dec).
    apply app_initial_fresh.
Qed.

Lemma app_detect_has_python files path read :
  get_bool (App.detect_project_type files path read) "has_python" = existsb is_python files.
Proof.
  unfold App.detect_project_type. cbv zeta. rewrite get_bool_insert_ne by done.
  unfold App.node_rule. rewrite get_bool_when_keeps by keep_key.
  rewrite app_rule_get_bool by (apply app_initial_fresh || not_in).
  rewrite flags_has_python. by destruct (app_initial_fresh files path) as [_ _ _ -> _ _ _].
Qed.

Lemma wizard_rule_get_bool files (a0 : dict) k :
  fresh a0 -> k ∉ ["type"; "type_name"; "functions_dir"] ->
  get_bool (NetlifyAi.python_type_rule (fold_left App.flag_step files a0)) k =
  get_bool (fold_left App.flag_step files a0) k.
Proof. intros Hf Hk. unfold get_bool. by rewrite wizard_rule_keeps. Qed.

Lemma wizard_node_rule_test files (a0 : dict) :
  fresh a0 ->
  get_bool (NetlifyAi.python_type_rule (fold_left App.flag_step files a0)) "has_node" &&
  get_bool (NetlifyAi.python_type_rule (fold_left App.flag_step files a0)) "has_package_json" =
  existsb is_manifest files.
Proof.
  intros Hf. rewrite !wizard_rule_get_bool by (done || not_in).
  rewrite flags_has_node, flags_has_package_json.
  destruct Hf as [_ _ _ _ _ -> ->]. simpl. apply andb_diag.
Qed.

Lemma wizard_detect_type files read :
  NetlifyAi.detect_project_type files read !! "type" = Some (VStr (type_of files)).
Proof.
  unfold NetlifyAi.detect_project_type. cbv zeta. rewrite lookup_insert_ne by done.
  unfold NetlifyAi.node_rule. rewrite wizard_node_rule_test by apply wizard_initial_fresh.
  unfold type_of, when. destruct (existsb is_manifest files).
  - by rewrite ?lookup_insert_ne, lookup_insert_eq by done.
  - by rewrite wizard_rule_type by apply wizard_initial_fresh.
Qed.

Lemma wizard_detect_functions_dir files read :
  NetlifyAi.detect_project_type files read !! "functions_dir" = Some (functions_dir_value files).
Proof.
  unfold NetlifyAi.detect_project_type. cbv zeta. rewrite lookup_insert_ne by done.
  unfold NetlifyAi.node_rule. rewrite lookup_when_keeps by keep_key.
  by rewrite wizard_rule_functions_dir by apply wizard_initial_fresh.
Qed.

Lemma wizard_detect_build_command files read :
  NetlifyAi.detect_project_type files read !! "build_command" = Some (build_command_value files).
Proof.
  unfold NetlifyAi.detect_project_type. cbv zeta. rewrite lookup_insert_ne by done.
  unfold NetlifyAi.node_rule. rewrite wizard_node_rule_test by apply wizard_initial_fresh.
  unfold build_command_value, when. destruct (existsb is_manifest files).
  - by rewrite lookup_insert_eq.
  - rewrite wizard_rule_keeps by (apply wizard_initial_fresh || not_in).
    rewrite flags_keep by (by apply in_flag_keys_dec).
    apply wizard_initial_fresh.
Qed.

Lemma wizard_detect_has_python files read :
  get_bool (NetlifyAi.detect_project_type files read) "has_python" = existsb is_python files.
Proof.
  unfold NetlifyAi.detect_project_type. cbv zeta. rewrite get_bool_insert_ne by done.
  unfold NetlifyAi.node_rule. rewrite get_bool_when_keeps by keep_key.
  rewrite wizard_rule_get_bool by (apply wizard_initial_fresh || not_in).
  rewrite flags_has_python. by destruct (wizard_initial_fresh) as [_ _ _ -> _ _ _].
Qed.

End Detect.

(** * Facts about paths *)

Section PathFacts.
Import Str.

Lemma split_not_nil sep s : split sep s <> [].
Proof.
  destruct s as [|c s]; simpl; [done|].
  destruct (Ascii.eqb c sep); [done|]. by destruct (split sep s).
Qed.

Lemma split_head_prefix sep s h r :
  split sep s = h :: r -> exists b, s = h +:+ b.
Proof.
  revert h r. induction s as [|c s IH]; intros h r; simpl.
  - intros [= <- <-]. by exists EmptyString.
  - destruct (Ascii.eqb c sep).
    + intros [= <- <-]. by exists (String c s).
    + destruct (split sep s) as [|h' r'] eqn:E.
      * intros [= <- <-]. by exists s.
      * intros [= <- <-]. destruct (IH _ _ eq_refl) as [b ->]. by exists b.
Qed.

(** Every piece of [s.split(sep)] is a substring of [s]. *)
Lemma split_sub sep s x :
  x ∈ split sep s -> exists a b, s = a +:+ x +:+ b.
Proof.
  revert x. induction s as [|c s IH]; intros x; simpl.
  - intros ->%list_elem_of_singleton. by exists EmptyString, EmptyString.
  - destruct (Ascii.eqb c sep).
    + intros [->|Hin]%elem_of_cons.
      * by exists EmptyString, (String c s).
      * destruct (IH _ Hin) as (a & b & ->). by exists (String c a), b.
    + destruct (split sep s) as [|h r] eqn:E.
      * by destruct (split_not_nil _ _ E).
      * intros [->|Hin]%elem_of_cons.
        -- destruct (split_head_prefix _ _ _ _ E) as [b ->].
           by exists EmptyString, b.
        -- destruct (IH x) as (a & b & ->); [by right|].
           by exists (String c a), b.
Qed.

Lemma splitroot_app p root rel : PosixPath.splitroot p = (root, rel) -> p = root +:+ rel.
Proof.
  unfold PosixPath.splitroot. intros H.
  repeat case_match; simplify_eq; try done;
    repeat match goal with
           | E : Ascii.eqb _ _ = true |- _ => apply Ascii.eqb_eq in E; subst
           end; done.
Qed.

(** Every part of a path is a substring of the path. *)
Lemma parts_sub p x :
  x ∈ PosixPath.parts p -> exists a b, p = a +:+ x +:+ b.
Proof.
  unfold PosixPath.parts, PosixPath.parse_path.
  destruct (String.eqb p EmptyString) eqn:Ep.
  { simpl. by intros ?%elem_of_nil. }
  destruct (PosixPath.splitroot p) as [root rel] eqn:Er.
  apply splitroot_app in Er as ->.
  assert (x ∈ List.filter PosixPath.keep_part (split slash rel) ->
          exists a b, root +:+ rel = a +:+ x +:+ b) as Htail.
  { intros Hin%list_elem_of_In%filter_In. destruct Hin as [Hin%list_elem_of_In _].
    destruct (split_sub _ _ _ Hin) as (a & b & ->).
    exists (root +:+ a), b. by rewrite !app_assoc_s. }
  destruct (String.eqb root EmptyString); [done|].
  intros [->|Hin]%elem_of_cons; [|by apply Htail].
  by exists EmptyString, rel.
Qed.

Lemma functions_index_none parts i :
  (forall x, x ∈ parts -> contains "functions" (lower x) = false) ->
  App.functions_index parts i = None.
Proof.
  revert i. induction parts as [|x parts IH]; intros i H; [done|].
  simpl. rewrite H by left. apply IH. intros y Hy. apply H. by right.
Qed.

(** A path that does not mention 'functions' has no part that does. *)
Lemma functions_dir_of_none f :
  contains "functions" (lower f) = false -> functions_dir_of f = VNone.
Proof.
  intros H. unfold functions_dir_of. cbv zeta.
  rewrite functions_index_none; [done|].
  intros x (a & b & ->)%parts_sub.
  rewrite !lower_app in H. by apply contains_false_within in H.
Qed.

(** *** Paths written as segments joined by '/' *)

Lemma no_char_cons sep c x :
  contains (String sep EmptyString) (String c x) = false <->
  Ascii.eqb c sep = false /\ contains (String sep EmptyString) x = false.
Proof.
  rewrite contains_unfold.
  change (startswith (String sep EmptyString) (String c x)) with (Ascii.eqb sep c && true).
  by rewrite andb_true_r, orb_false_iff, (Ascii.eqb_sym sep c).
Qed.

Lemma no_char_app sep a b :
  contains (String sep EmptyString) (a +:+ b) = false <->
  contains (String sep EmptyString) a = false /\ contains (String sep EmptyString) b = false.
Proof.
  induction a as [|c a IH].
  - rewrite app_empty_l. split; [by intros ->|by intros [_ ->]].
  - rewrite app_cons, !no_char_cons, IH. tauto.
Qed.

(** A string without the separator splits into itself. *)
Lemma split_plain sep x :
  contains (String sep EmptyString) x = false -> split sep x = [x].
Proof.
  induction x as [|c x IH]; [done|].
  intros [Hc Hx]%no_char_cons. simpl. by rewrite Hc, IH.
Qed.

Lemma split_piece sep x t :
  contains (String sep EmptyString) x = false ->
  split sep (x +:+ String sep t) = x :: split sep t.
Proof.
  induction x as [|c x IH].
  - intros _. rewrite app_empty_l. simpl. by rewrite Ascii.eqb_refl.
  - intros [Hc Hx]%no_char_cons. rewrite app_cons. simpl. by rewrite Hc, IH.
Qed.

Lemma join_cons sep x y l : join sep (x :: y :: l) = x +:+ sep +:+ join sep (y :: l).
Proof. reflexivity. Qed.

(** [sep.join(l).split(sep)] gives [l] back when no element holds [sep]. *)
Lemma split_join_char sep l :
  l <> [] -> Forall (fun x => contains (String sep EmptyString) x = false) l ->
  split sep (join (String sep EmptyString) l) = l.
Proof.
  induction l as [|x [|y l] IH]; [done| |]; intros _ Hv.
  - apply Forall_cons in Hv as [Hx _]. by apply split_plain.
  - apply Forall_cons in Hv as [Hx Hv].
    rewrite join_cons. change (String sep EmptyString +:+ ?t) with (String sep t).
    rewrite split_piece by done. by rewrite IH.
Qed.

Lemma join_snoc_empty sep l :
  l <> [] -> join sep (l ++ [EmptyString]) = join sep l +:+ sep.
Proof.
  induction l as [|x [|y l] IH]; [done| |]; intros _.
  - simpl. by rewrite app_empty_r.
  - change ((x :: y :: l) ++ [EmptyString]) with (x :: y :: (l ++ [EmptyString])).
    rewrite !join_cons.
    change (y :: l ++ [EmptyString]) with ((y :: l) ++ [EmptyString]).
    rewrite IH by done. by rewrite !app_assoc_s.
Qed.

Lemma valid_segment_spec seg :
  valid_segment seg = true ->
  seg <> EmptyString /\ PosixPath.keep_part seg = true /\ contains "/" seg = false.
Proof.
  unfold valid_segment, PosixPath.keep_part.
  rewrite !andb_true_iff, !negb_true_iff. intros [[H1 H2] H3].
  rewrite H1, H2. by apply eqb_false in H1.
Qed.

Lemma split_join segs :
  segs <> [] -> Forall (fun x => valid_segment x = true) segs ->
  split slash (join "/" segs) = segs.
Proof.
  intros Hne Hv. apply split_join_char; [done|].
  eapply Forall_impl; [exact Hv|]. by intros x (_ & _ & Hx)%valid_segment_spec.
Qed.

Lemma filter_valid segs :
  Forall (fun x => valid_segment x = true) segs ->
  List.filter PosixPath.keep_part segs = segs.
Proof.
  induction 1 as [|x segs (_ & Hx & _)%valid_segment_spec Hv IH]; [done|].
  simpl. by rewrite Hx, IH.
Qed.

(** The head of a joined path is the head of its first segment. *)
Lemma join_head x segs :
  valid_segment x = true ->
  exists c t, join "/" (x :: segs) = String c t /\ Ascii.eqb c slash = false.
Proof.
  intros (Hne & _ & Hs)%valid_segment_spec.
  destruct x as [|c x]; [done|]. apply (no_char_cons slash) in Hs as [Hc _].
  destruct segs as [|y segs]; [by exists c, x|].
  rewrite join_cons, app_cons. eauto.
Qed.

Lemma parse_join segs :
  segs <> [] -> Forall (fun x => valid_segment x = true) segs ->
  PosixPath.parse_path (join "/" segs) = (EmptyString, segs).
Proof.
  intros Hne Hv. unfold PosixPath.parse_path.
  destruct segs as [|x segs]; [done|].
  destruct (join_head x segs) as (c & t & Hj & Hc); [by inversion Hv|].
  assert (PosixPath.splitroot (join "/" (x :: segs)) = (EmptyString, join "/" (x :: segs)))
    as ->.
  { rewrite Hj. simpl. by rewrite Hc. }
  rewrite split_join, filter_valid by done.
  by rewrite Hj.
Qed.

Lemma parts_join segs :
  Forall (fun x => valid_segment x = true) segs ->
  PosixPath.parts (join "/" segs) = segs.
Proof.
  intros Hv. destruct segs as [|x segs]; [done|].
  unfold PosixPath.parts. by rewrite parse_join.
Qed.

Lemma startswith_refl s : startswith s s = true.
Proof. apply startswith_spec. exists EmptyString. by rewrite app_empty_r. Qed.

Lemma endswith_unfold suf s :
  endswith suf s =
  String.eqb s suf || match s with EmptyString => false | String _ t => endswith suf t end.
Proof. by destruct s. Qed.

Lemma endswith_contains suf s : endswith suf s = true -> contains suf s = true.
Proof.
  induction s as [|c s IH]; rewrite endswith_unfold, contains_unfold, !orb_true_iff.
  - intros [<-%eqb_true|?]; [|done]. by left.
  - intros [<-%eqb_true|H]; [left; apply startswith_refl | right; auto].
Qed.

Lemma endswith_slash_app a b :
  b <> EmptyString -> contains "/" b = false -> endswith "/" (a +:+ b) = false.
Proof.
  intros Hb Hs. induction a as [|c a IH].
  - rewrite app_empty_l. destruct (endswith "/" b) eqn:E; [|done].
    apply endswith_contains in E. congruence.
  - rewrite app_cons, endswith_unfold, IH, orb_false_r.
    apply eqb_false. intros [= -> E].
    destruct a; [by rewrite app_empty_l in E | by rewrite app_cons in E].
Qed.

Lemma join_step_valid acc y :
  acc <> EmptyString -> endswith "/" acc = false -> valid_segment y = true ->
  PosixPath.join_step acc y = acc +:+ "/" +:+ y.
Proof.
  intros Ha He (Hne & _ & Hs)%valid_segment_spec. unfold PosixPath.join_step.
  destruct y as [|c y]; [done|]. apply (no_char_cons slash) in Hs as [Hc _].
  change (startswith "/" (String c y)) with (Ascii.eqb slash c && true).
  rewrite andb_true_r, Ascii.eqb_sym, Hc, He.
  apply eqb_false in Ha. by rewrite Ha.
Qed.

Lemma join_merge acc y l :
  join "/" ((acc +:+ "/" +:+ y) :: l) = acc +:+ "/" +:+ join "/" (y :: l).
Proof.
  destruct l as [|z l]; [done|]. by rewrite !join_cons, !app_assoc_s.
Qed.

Lemma fold_join_step p acc :
  acc <> EmptyString -> endswith "/" acc = false ->
  Forall (fun x => valid_segment x = true) p ->
  fold_left PosixPath.join_step p acc = join "/" (acc :: p).
Proof.
  intros Ha He Hv. revert acc Ha He.
  induction Hv as [|y p Hy Hv IH]; intros acc Ha He; [done|].
  simpl fold_left. rewrite join_step_valid by done.
  destruct (valid_segment_spec _ Hy) as (Hne & _ & Hs).
  rewrite IH.
  - apply join_merge.
  - by destruct acc.
  - rewrite <- app_assoc_s. by apply endswith_slash_app.
Qed.

Lemma posix_join_valid segs :
  Forall (fun x => valid_segment x = true) segs ->
  PosixPath.posix_join segs = join "/" segs.
Proof.
  destruct segs as [|x segs]; [done|].
  intros [Hx Hv]%Forall_cons. destruct (valid_segment_spec _ Hx) as (Hne & _ & Hs).
  simpl. apply fold_join_step; [done| |done].
  rewrite <- (app_empty_l x). by apply endswith_slash_app.
Qed.

(** Segments joined by '/' print as written. *)
Lemma str_of_segments_valid segs :
  segs <> [] -> Forall (fun x => valid_segment x = true) segs ->
  PosixPath.str_of_segments segs = join "/" segs.
Proof.
  intros Hne Hv. unfold PosixPath.str_of_segments, PosixPath.path_str.
  rewrite posix_join_valid, parse_join by done.
  rewrite app_empty_l. destruct segs as [|x segs]; [done|].
  destruct (join_head x segs) as (c & t & -> & _); [by inversion Hv | done].
Qed.

Lemma functions_index_first segs1 seg segs2 i :
  (forall x, x ∈ segs1 -> contains "functions" (lower x) = false) ->
  contains "functions" (lower seg) = true ->
  App.functions_index (segs1 ++ seg :: segs2) i = Some (i + length segs1).
Proof.
  revert i. induction segs1 as [|x segs1 IH]; intros i H1 H2; simpl.
  - rewrite H2. f_equal. lia.
  - rewrite H1 by left. rewrite IH; [f_equal; lia | | done].
    intros y Hy. apply H1. by right.
Qed.

(** The directory derived from a path given by its segments: everything up
    to the first segment that mentions 'functions'. *)
Lemma functions_dir_of_join segs1 seg segs2 :
  Forall (fun x => valid_segment x = true) (segs1 ++ seg :: segs2) ->
  (forall x, x ∈ segs1 -> contains "functions" (lower x) = false) ->
  contains "functions" (lower seg) = true ->
  functions_dir_of (join "/" (segs1 ++ seg :: segs2)) =
  VStr (join "/" (segs1 ++ [seg])).
Proof.
  intros Hv H1 H2. unfold functions_dir_of. cbv zeta.
  rewrite parts_join, (functions_index_first _ _ _ 0) by done.
  replace (0 + length segs1 + 1) with (length (segs1 ++ [seg]))
    by (rewrite length_app; simpl; lia).
  replace (segs1 ++ seg :: segs2) with ((segs1 ++ [seg]) ++ segs2) in *
    by (by rewrite <- app_assoc).
  rewrite take_app_length. f_equal.
  apply str_of_segments_valid; [by destruct segs1|].
  by apply Forall_app in Hv as [? _].
Qed.

End PathFacts.

(** * Facts about the scanner *)

Section ScannerFacts.
Import Str.

Lemma join_snoc sep l x :
  l <> [] -> join sep (l ++ [x]) = join sep l +:+ sep +:+ x.
Proof.
  induction l as [|y [|z l] IH]; [done|done|]; intros _.
  change ((y :: z :: l) ++ [x]) with (y :: z :: (l ++ [x])).
  rewrite !join_cons.
  change (z :: l ++ [x]) with ((z :: l) ++ [x]).
  rewrite IH by done. by rewrite !app_assoc_s.
Qed.

Lemma join_valid_nonempty segs :
  segs <> [] -> Forall (fun x => valid_segment x = true) segs ->
  String.eqb (join "/" segs) EmptyString = false.
Proof.
  intros Hne Hv. destruct segs as [|x segs]; [done|].
  destruct (join_head x segs) as (c & t & -> & _); [by inversion Hv | done].
Qed.

(** The relative path of an entry [name] of the directory [segs]. *)
Lemma rel_join_segments segs name :
  Forall (fun x => valid_segment x = true) segs ->
  Fs.rel_join (join "/" segs) name = join "/" (segs ++ [name]).
Proof.
  intros Hv. unfold Fs.rel_join. destruct segs as [|x segs]; [done|].
  rewrite join_valid_nonempty by done. by rewrite join_snoc.
Qed.

(** Below a directory reached through valid segments the walk yields paths
    made of valid segments. *)
Lemma walk_segments n segs p :
  well_named n = true ->
  Forall (fun x => valid_segment x = true) segs ->
  p ∈ Fs.walk (join "/" segs) n ->
  exists segs', segs' <> [] /\ Forall (fun x => valid_segment x = true) segs' /\
                p = join "/" segs'.
Proof.
  revert segs p. induction n as [text|es IH] using node_rect_entries; intros segs p Hn Hv.
  { by intros ?%elem_of_nil. }
  cbn [Fs.walk well_named] in *. rewrite forallb_forall in Hn.
  rewrite Forall_forall in IH.
  intros [Hp|Hp]%elem_of_app.
  - apply list_elem_of_In, in_map_iff in Hp as (e & <- & [He _]%filter_In).
    apply Hn, andb_true_iff in He as [Hname _].
    exists (segs ++ [e.1]). rewrite rel_join_segments by done.
    split; [by destruct segs|]. split; [|done].
    apply Forall_app. by split; [|repeat constructor].
  - apply list_elem_of_In, in_flat_map in Hp as (e & He & Hp).
    pose proof (Hn _ He) as [Hname Hchild]%andb_true_iff.
    assert (p ∈ Fs.walk (join "/" (segs ++ [e.1])) e.2) as Hw.
    { rewrite <- rel_join_segments by done. apply list_elem_of_In.
      destruct e.2; [done|]. by destruct (Fs.ignored e.1). }
    apply (IH e) in Hw; [done|by apply list_elem_of_In|done|].
    apply Forall_app. by split; [|repeat constructor].
Qed.

(** Every path [scan_files] reports is a non-empty sequence of valid segments
    joined by '/'. *)
Lemma scan_files_segments n p :
  well_named n = true -> p ∈ Fs.scan_files (Some n) ->
  exists segs, segs <> [] /\ Forall (fun x => valid_segment x = true) segs /\
               p = join "/" segs.
Proof.
  intros Hn Hp. by apply (walk_segments n [] p).
Qed.

End ScannerFacts.

(** * The classifier: precedence, functions directory *)

Section ClassifierClaims.
Import Str.

Lemma has_manifest files :
  (exists f, f ∈ files /\ lower f = "package.json") <-> existsb is_manifest files = true.
Proof.
  rewrite existsb_exists. unfold is_manifest. split.
  - intros (f & Hin%list_elem_of_In & Hf). exists f. by rewrite Hf.
  - intros (f & Hin%list_elem_of_In & Hf%eqb_true). eauto.
Qed.

Lemma no_manifest files :
  (forall g, g ∈ files -> is_manifest g = false) <-> existsb is_manifest files = false.
Proof.
  rewrite <- not_true_iff_false, existsb_exists. split.
  - intros H (g & Hin%list_elem_of_In & Hg). by rewrite H in Hg.
  - intros H g Hin%list_elem_of_In. apply not_true_iff_false. eauto.
Qed.

Lemma has_python_file files :
  (exists g, g ∈ files /\ is_python g = true) <-> existsb is_python files = true.
Proof.
  rewrite existsb_exists. split; intros (g & Hin%list_elem_of_In & Hg); eauto.
Qed.

Lemma first_qualifying_split pre f post :
  (forall g, g ∈ pre -> is_python g = true -> App.qualifies g = false) ->
  is_python f = true -> App.qualifies f = true ->
  first_qualifying (pre ++ f :: post) = Some f.
Proof.
  intros Hpre Hp Hq. unfold first_qualifying.
  induction pre as [|g pre IH]; simpl.
  - by rewrite Hp, Hq.
  - destruct (is_python g) eqn:Eg; simpl.
    + rewrite (Hpre g) by (done || left). apply IH. intros; apply Hpre; [by right | done].
    + apply IH. intros; apply Hpre; [by right | done].
Qed.

Lemma join_sub sep segs seg :
  seg ∈ segs -> exists a b, join sep segs = a +:+ seg +:+ b.
Proof.
  induction segs as [|x [|y segs] IH].
  - by intros ?%elem_of_nil.
  - intros ->%list_elem_of_singleton. exists EmptyString, EmptyString.
    by rewrite app_empty_l, app_empty_r.
  - intros [->|Hin]%elem_of_cons; rewrite join_cons.
    + by exists EmptyString, (sep +:+ join sep (y :: segs)).
    + destruct (IH Hin) as (a & b & ->).
      exists (x +:+ sep +:+ a), b. by rewrite !app_assoc_s.
Qed.

(** C1, as the claim states it, fails: the flag loop compares whole relative
    paths, so a file named 'package.json' below the root is no manifest.  The
    list below holds such a file and is classified as 'static', without build
    command, by both entry points. *)
Lemma nested_manifest_is_not_node :
  App.detect_project_type ["web/package.json"; "index.html"] "/srv/site" (fun _ => None)
    !! "type" = Some (VStr "static") /\
  App.detect_project_type ["web/package.json"; "index.html"] "/srv/site" (fun _ => None)
    !! "build_command" = Some VNone /\
  NetlifyAi.detect_project_type ["web/package.json"; "index.html"] (fun _ => None)
    !! "type" = Some (VStr "static") /\
  NetlifyAi.detect_project_type ["web/package.json"; "index.html"] (fun _ => None)
    !! "build_command" = Some VNone.
Proof. by vm_compute. Qed.

(** C1, amended: a file list that holds the entry 'package.json' itself (the
    relative path is 'package.json' in some letter case: the manifest at the
    root of the project) is classified as 'node-project' with the build
    command 'npm run build', whatever Python files it holds, by the web entry
    point and by the wizard alike. *)
Theorem node_rule_has_final_precedence files path read :
  (exists f, f ∈ files /\ lower f = "package.json") ->
  App.detect_project_type files path read !! "type" = Some (VStr "node-project") /\
  App.detect_project_type files path read !! "build_command" = Some (VStr "npm run build") /\
  NetlifyAi.detect_project_type files read !! "type" = Some (VStr "node-project") /\
  NetlifyAi.detect_project_type files read !! "build_command" = Some (VStr "npm run build").
Proof.
  intros H%has_manifest.
  rewrite app_detect_type, app_detect_build_command.
  rewrite wizard_detect_type, wizard_detect_build_command.
  unfold type_of, build_command_value. by rewrite H.
Qed.

Lemma node_rule_has_final_precedence_witness :
  (exists f, f ∈ ["netlify/functions/api.py"; "Package.JSON"] /\ lower f = "package.json") /\
  App.detect_project_type ["netlify/functions/api.py"; "Package.JSON"] "/srv/site"
    (fun _ => Some "import openai") !! "type" = Some (VStr "node-project") /\
  NetlifyAi.detect_project_type ["netlify/functions/api.py"; "Package.JSON"]
    (fun _ => Some "import openai") !! "build_command" = Some (VStr "npm run build").
Proof.
  split.
  - exists "Package.JSON". split; [by repeat constructor | reflexivity].
  - destruct (node_rule_has_final_precedence
                ["netlify/functions/api.py"; "Package.JSON"] "/srv/site"
                (fun _ => Some "import openai")) as (Htype & _ & _ & Hcommand).
    + exists "Package.JSON". split; [by repeat constructor | reflexivity].
    + by split.
Defined.

(** C2, as the claim states it, fails: with a Python file under a 'functions'
    directory next to a 'package.json' the analysis ends with type
    'node-project' and [functions_dir] set. *)
Lemma functions_dir_set_on_node_project :
  App.detect_project_type ["functions/hello.py"; "package.json"] "/srv/site" (fun _ => None)
    !! "functions_dir" = Some (VStr "functions") /\
  App.detect_project_type ["functions/hello.py"; "package.json"] "/srv/site" (fun _ => None)
    !! "type" = Some (VStr "node-project") /\
  NetlifyAi.detect_project_type ["functions/hello.py"; "package.json"] (fun _ => None)
    !! "functions_dir" = Some (VStr "functions") /\
  NetlifyAi.detect_project_type ["functions/hello.py"; "package.json"] (fun _ => None)
    !! "type" = Some (VStr "node-project").
Proof. by vm_compute. Qed.

(** C2, amended: for a list of 7-bit ASCII paths, [functions_dir] is set only
    if the list holds a Python file; the type is then 'python-functions' when
    the list holds no 'package.json', and 'node-project' when it holds one. *)
Theorem functions_dir_needs_python_evidence files path read :
  forallb is_ascii files = true ->
  App.detect_project_type files path read !! "functions_dir" <> Some VNone \/
  NetlifyAi.detect_project_type files read !! "functions_dir" <> Some VNone ->
  (exists g, g ∈ files /\ is_python g = true) /\
  App.detect_project_type files path read !! "type" =
    NetlifyAi.detect_project_type files read !! "type" /\
  ((forall g, g ∈ files -> is_manifest g = false) /\
   App.detect_project_type files path read !! "type" = Some (VStr "python-functions") \/
   (exists f, f ∈ files /\ lower f = "package.json") /\
   App.detect_project_type files path read !! "type" = Some (VStr "node-project")).
Proof.
  intros _.
  rewrite app_detect_functions_dir, wizard_detect_functions_dir.
  rewrite app_detect_type, wizard_detect_type.
  intros H. assert (exists f, first_qualifying files = Some f) as [f Hf].
  { unfold functions_dir_value in H. destruct (first_qualifying files); [eauto|].
    by destruct H. }
  apply first_qualifying_python in Hf.
  split; [by apply has_python_file|]. split; [done|].
  unfold type_of. rewrite Hf.
  destruct (existsb is_manifest files) eqn:E; [right|left].
  - split; [by apply has_manifest|done].
  - split; [by apply no_manifest|done].
Qed.

Lemma functions_dir_needs_python_evidence_witness :
  forallb is_ascii ["api/Functions/Hello.PY"; "PACKAGE.json"] = true /\
  (App.detect_project_type ["api/Functions/Hello.PY"; "PACKAGE.json"] "/srv/site"
     (fun _ => None) !! "functions_dir" <> Some VNone \/
   NetlifyAi.detect_project_type ["api/Functions/Hello.PY"; "PACKAGE.json"] (fun _ => None)
     !! "functions_dir" <> Some VNone) /\
  (exists g, g ∈ ["api/Functions/Hello.PY"; "PACKAGE.json"] /\ is_python g = true).
Proof.
  split; [reflexivity|]. split.
  - left. by vm_compute.
  - apply (functions_dir_needs_python_evidence
             ["api/Functions/Hello.PY"; "PACKAGE.json"] "/srv/site" (fun _ => None)).
    + reflexivity.
    + left. by vm_compute.
Defined.

Lemma no_manifest_type files :
  (forall g, g ∈ files -> is_manifest g = false) ->
  (exists g, g ∈ files /\ is_python g = true) ->
  type_of files = "python-functions".
Proof.
  intros Hm%no_manifest Hp%has_python_file. unfold type_of. by rewrite Hm, Hp.
Qed.

(** C4, as the claim states it, fails: the Python loop stops at the first file
    whose path mentions 'functions' or 'netlify'.  Here the first Python file
    that mentions 'functions' is 'functions/b.py', yet [functions_dir] is not
    'functions': the loop stopped at 'netlify/a.py' and left it unset. *)
Lemma functions_dir_unset_behind_netlify_match :
  App.detect_project_type ["netlify/a.py"; "functions/b.py"] "/srv/site" (fun _ => None)
    !! "functions_dir" = Some VNone /\
  NetlifyAi.detect_project_type ["netlify/a.py"; "functions/b.py"] (fun _ => None)
    !! "functions_dir" = Some VNone.
Proof. by vm_compute. Qed.

(** C4, amended: for a list of 7-bit ASCII paths without a 'package.json',
    when the first Python file whose path mentions 'functions' or 'netlify'
    is [segs1/seg/segs2] (segments joined by '/') and [seg] is its first
    segment that mentions 'functions', the type is 'python-functions' and
    [functions_dir] is [segs1/seg]; whatever follows that file in the list
    has no influence. *)
Theorem functions_dir_from_first_qualifying_file pre post segs1 seg segs2 path read :
  forallb is_ascii (pre ++ join "/" (segs1 ++ seg :: segs2) :: post) = true ->
  (forall g, g ∈ pre ++ join "/" (segs1 ++ seg :: segs2) :: post -> is_manifest g = false) ->
  (forall g, g ∈ pre -> is_python g = true -> App.qualifies g = false) ->
  is_python (join "/" (segs1 ++ seg :: segs2)) = true ->
  Forall (fun x => valid_segment x = true) (segs1 ++ seg :: segs2) ->
  (forall x, x ∈ segs1 -> contains "functions" (lower x) = false) ->
  contains "functions" (lower seg) = true ->
  App.detect_project_type (pre ++ join "/" (segs1 ++ seg :: segs2) :: post) path read
    !! "type" = Some (VStr "python-functions") /\
  App.detect_project_type (pre ++ join "/" (segs1 ++ seg :: segs2) :: post) path read
    !! "functions_dir" = Some (VStr (join "/" (segs1 ++ [seg]))) /\
  NetlifyAi.detect_project_type (pre ++ join "/" (segs1 ++ seg :: segs2) :: post) read
    !! "type" = Some (VStr "python-functions") /\
  NetlifyAi.detect_project_type (pre ++ join "/" (segs1 ++ seg :: segs2) :: post) read
    !! "functions_dir" = Some (VStr (join "/" (segs1 ++ [seg]))).
Proof.
  intros _ Hm Hpre Hpy Hv H1 H2.
  rewrite app_detect_type, app_detect_functions_dir.
  rewrite wizard_detect_type, wizard_detect_functions_dir.
  rewrite no_manifest_type; [|done|].
  2:{ eexists. split; [|exact Hpy]. apply elem_of_app. right. by left. }
  unfold functions_dir_value. rewrite first_qualifying_split; [|done..|].
  - by rewrite functions_dir_of_join.
  - unfold App.qualifies. apply orb_true_iff. left.
    destruct (join_sub "/" (segs1 ++ seg :: segs2) seg) as (a & b & ->).
    { apply elem_of_app. right. by left. }
    rewrite !lower_app. by apply contains_within.
Qed.

Lemma functions_dir_from_first_qualifying_file_witness :
  App.detect_project_type
    (["index.html"; "src/util.py"] ++
     join "/" (["api"] ++ "My_Functions" :: ["v1"; "Hello.PY"]) :: ["functions/late.py"])
    "/srv/site" (fun _ => None)
    !! "functions_dir" = Some (VStr (join "/" (["api"] ++ ["My_Functions"]))).
Proof.
  apply (functions_dir_from_first_qualifying_file
           ["index.html"; "src/util.py"] ["functions/late.py"]
           ["api"] "My_Functions" ["v1"; "Hello.PY"] "/srv/site" (fun _ => None)).
  - reflexivity.
  - intros g Hg. cbn [app] in Hg. rewrite !elem_of_cons in Hg.
    destruct Hg as [->|[->|[->|[->|Hg]]]]; try reflexivity. by apply elem_of_nil in Hg.
  - intros g Hg. rewrite !elem_of_cons in Hg.
    destruct Hg as [->|[->|Hg]]; try reflexivity. by apply elem_of_nil in Hg.
  - reflexivity.
  - repeat constructor.
  - intros x Hx. rewrite !elem_of_cons in Hx.
    destruct Hx as [->|Hx]; try reflexivity. by apply elem_of_nil in Hx.
  - reflexivity.
Defined.

(** C10: for a list of 7-bit ASCII paths without a 'package.json', when the
    first Python file whose path mentions 'functions' or 'netlify' does so
    through 'netlify' alone, the type is 'python-functions' and
    [functions_dir] stays [None]. *)
Theorem netlify_match_leaves_functions_dir_unset pre f post path read :
  forallb is_ascii (pre ++ f :: post) = true ->
  (forall g, g ∈ pre ++ f :: post -> is_manifest g = false) ->
  (forall g, g ∈ pre -> is_python g = true -> App.qualifies g = false) ->
  is_python f = true ->
  contains "netlify" (lower f) = true ->
  contains "functions" (lower f) = false ->
  App.detect_project_type (pre ++ f :: post) path read !! "type" =
    Some (VStr "python-functions") /\
  App.detect_project_type (pre ++ f :: post) path read !! "functions_dir" = Some VNone /\
  NetlifyAi.detect_project_type (pre ++ f :: post) read !! "type" =
    Some (VStr "python-functions") /\
  NetlifyAi.detect_project_type (pre ++ f :: post) read !! "functions_dir" = Some VNone.
Proof.
  intros _ Hm Hpre Hpy Hn Hf.
  rewrite app_detect_type, app_detect_functions_dir.
  rewrite wizard_detect_type, wizard_detect_functions_dir.
  rewrite no_manifest_type; [|done|].
  2:{ exists f. split; [|done]. apply elem_of_app. right. by left. }
  unfold functions_dir_value. rewrite first_qualifying_split; [|done..|].
  - by rewrite functions_dir_of_none.
  - unfold App.qualifies. by rewrite Hn, orb_true_r.
Qed.

Lemma netlify_match_leaves_functions_dir_unset_witness :
  App.detect_project_type (["index.html"; "src/util.py"] ++ "Netlify/edge/Handler.py" ::
                           ["functions/late.py"]) "/srv/site" (fun _ => None)
    !! "functions_dir" = Some VNone.
Proof.
  apply (netlify_match_leaves_functions_dir_unset
           ["index.html"; "src/util.py"] "Netlify/edge/Handler.py" ["functions/late.py"]
           "/srv/site" (fun _ => None)).
  - reflexivity.
  - intros g Hg. cbn [app] in Hg. rewrite !elem_of_cons in Hg.
    destruct Hg as [->|[->|[->|[->|Hg]]]]; try reflexivity. by apply elem_of_nil in Hg.
  - intros g Hg. rewrite !elem_of_cons in Hg.
    destruct Hg as [->|[->|Hg]]; try reflexivity. by apply elem_of_nil in Hg.
  - reflexivity.
  - reflexivity.
  - reflexivity.
Defined.

End ClassifierClaims.

(** * Environment-variable inference *)

Section EnvVars.
Import Str.

Lemma app_env_var_set_with files read :
  App.env_var_set files read = env_vars_with App.patterns files read ∅.
Proof. reflexivity. Qed.

Lemma wizard_env_var_set_with files read :
  NetlifyAi.env_var_set files read = env_vars_with NetlifyAi.patterns files read ∅.
Proof. reflexivity. Qed.

Lemma scan_with_mono pats content (X : gset string) : X ⊆ scan_with pats content X.
Proof.
  unfold scan_with. revert X. induction pats as [|p pats IH]; intros X; [done|].
  simpl. etrans; [|apply IH]. destruct (existsb _ _); set_solver.
Qed.

Lemma scan_with_within pats content (X V : gset string) :
  X ⊆ V -> Forall (fun p => fst p ∈ V) pats -> scan_with pats content X ⊆ V.
Proof.
  unfold scan_with. intros HX Hp. revert X HX.
  induction Hp as [|p pats Hp Hps IH]; intros X HX; [done|].
  simpl. apply IH. destruct (existsb _ _); [|done].
  apply union_subseteq. split; [by apply singleton_subseteq_l | done].
Qed.

Lemma scan_with_hit pats content (X : gset string) name kws kw :
  (name, kws) ∈ pats -> kw ∈ kws -> contains kw content = true ->
  name ∈ scan_with pats content X.
Proof.
  intros Hin Hkw Hc. revert X.
  induction pats as [|p pats IH]; intros X; [by apply elem_of_nil in Hin|].
  apply elem_of_cons in Hin as [<-|Hin].
  - unfold scan_with. cbn [fold_left fst snd].
    assert (existsb (fun kw => contains kw content) kws = true) as ->.
    { apply existsb_exists. exists kw. by rewrite <- list_elem_of_In. }
    apply (scan_with_mono pats content). set_solver.
  - apply (IH Hin).
Qed.

Lemma env_vars_with_mono pats files read (X : gset string) :
  X ⊆ env_vars_with pats files read X.
Proof.
  unfold env_vars_with. revert X. induction files as [|f files IH]; intros X; [done|].
  simpl. etrans; [|apply IH].
  repeat case_match; try done. apply scan_with_mono.
Qed.

Lemma env_vars_with_within pats files read (X V : gset string) :
  X ⊆ V -> Forall (fun p => fst p ∈ V) pats -> env_vars_with pats files read X ⊆ V.
Proof.
  unfold env_vars_with. intros HX Hp. revert X HX.
  induction files as [|f files IH]; intros X HX; [done|].
  simpl. apply IH. repeat case_match; try done. by apply scan_with_within.
Qed.

Lemma env_vars_with_hit pats files read (X : gset string) file text name kws kw :
  file ∈ files ->
  endswith_any [".py"; ".js"; ".ts"; ".jsx"; ".tsx"] file = true ->
  read file = Some text ->
  (name, kws) ∈ pats -> kw ∈ kws -> contains kw (lower text) = true ->
  name ∈ env_vars_with pats files read X.
Proof.
  intros Hin Hext Hread Hp Hkw Hc. revert X.
  induction files as [|f files IH]; intros X; [by apply elem_of_nil in Hin|].
  apply elem_of_cons in Hin as [<-|Hin].
  - unfold env_vars_with. cbn [fold_left fst snd]. rewrite Hext, Hread.
    apply (env_vars_with_mono pats files read). by eapply scan_with_hit.
  - apply (IH Hin).
Qed.

(** C8: the variables reported by [_detect_env_vars] come without duplicates
    and from the fixed vocabulary: five names in the web entry point, the
    same five and 'API_KEY' in the wizard; this is the list stored under
    [env_vars_needed]. *)
Theorem env_vars_within_vocabulary files path read :
  NoDup (App._detect_env_vars files read) /\
  (forall v, v ∈ App._detect_env_vars files read -> v ∈ app_vocabulary) /\
  App.detect_project_type files path read !! "env_vars_needed" =
    Some (VList (App._detect_env_vars files read)) /\
  NoDup (NetlifyAi._detect_env_vars files read) /\
  (forall v, v ∈ NetlifyAi._detect_env_vars files read -> v ∈ wizard_vocabulary) /\
  NetlifyAi.detect_project_type files read !! "env_vars_needed" =
    Some (VList (NetlifyAi._detect_env_vars files read)).
Proof.
  unfold App._detect_env_vars, NetlifyAi._detect_env_vars.
  rewrite app_env_var_set_with, wizard_env_var_set_with.
  repeat split.
  - apply NoDup_elements.
  - intros v Hv%elem_of_elements.
    apply (env_vars_with_within _ _ _ _ (list_to_set app_vocabulary)) in Hv.
    + by apply elem_of_list_to_set in Hv.
    + set_solver.
    + repeat constructor; by vm_compute.
  - unfold App.detect_project_type. cbv zeta. by rewrite lookup_insert_eq.
  - apply NoDup_elements.
  - intros v Hv%elem_of_elements.
    apply (env_vars_with_within _ _ _ _ (list_to_set wizard_vocabulary)) in Hv.
    + by apply elem_of_list_to_set in Hv.
    + set_solver.
    + repeat constructor; by vm_compute.
  - unfold NetlifyAi.detect_project_type. cbv zeta. by rewrite lookup_insert_eq.
Qed.

(** C9: when a listed file ends in one of '.py', '.js', '.ts', '.jsx', '.tsx',
    can be read, and its text holds 'openai' in any letter case, then
    'OPENAI_API_KEY' is among the variables [_detect_env_vars] returns. *)
Theorem openai_keyword_adds_openai_key files read file a m b :
  file ∈ files ->
  endswith_any [".py"; ".js"; ".ts"; ".jsx"; ".tsx"] file = true ->
  read file = Some (a +:+ m +:+ b) ->
  lower m = "openai" ->
  "OPENAI_API_KEY" ∈ App._detect_env_vars files read /\
  "OPENAI_API_KEY" ∈ NetlifyAi._detect_env_vars files read.
Proof.
  intros Hin Hext Hread Hm.
  unfold App._detect_env_vars, NetlifyAi._detect_env_vars.
  rewrite app_env_var_set_with, wizard_env_var_set_with, !elem_of_elements.
  split.
  - eapply (env_vars_with_hit App.patterns); [done..| | |by apply contains_lower];
      by repeat constructor.
  - eapply (env_vars_with_hit NetlifyAi.patterns); [done..| | |by apply contains_lower];
      by repeat constructor.
Qed.

Lemma openai_keyword_adds_openai_key_witness :
  "OPENAI_API_KEY" ∈
    App._detect_env_vars ["index.html"; "api/chat.ts"]
      (fun f => if String.eqb f "api/chat.ts"
                then Some ("import " +:+ "OpenAI" +:+ " from 'sdk'") else None).
Proof.
  apply (openai_keyword_adds_openai_key
           ["index.html"; "api/chat.ts"]
           (fun f => if String.eqb f "api/chat.ts"
                     then Some ("import " +:+ "OpenAI" +:+ " from 'sdk'") else None)
           "api/chat.ts" "import " "OpenAI" " from 'sdk'").
  - by repeat constructor.
  - reflexivity.
  - reflexivity.
  - reflexivity.
Defined.

End EnvVars.

(** * The scanner and a root that is no directory *)

Section Scanner.

(** C7, as the claim states it, fails: [scan_files] has no error path.  On a
    root that does not exist, and on a root that is a plain file, [os.walk]
    yields nothing and the scan returns the empty list. *)
Lemma scan_files_of_bad_root_is_empty :
  Fs.scan_files None = [] /\ Fs.scan_files (Some (File (Some "plain text"))) = [].
Proof. split; reflexivity. Qed.

(** C7, amended: on a root that does not exist or is not a directory
    [scan_files] returns the empty list; such a root is turned down by the
    callers: the analyze handler answers with a failure message and the
    wizard leaves with exit status 1. *)
Theorem bad_root_is_rejected_by_the_callers root path :
  Fs.is_dir root = false ->
  Fs.scan_files root = [] /\
  (exists error, App.analyze_project root path = App.Failure error) /\
  NetlifyAi.main_analyze root = NetlifyAi.Exit 1.
Proof.
  intros H. unfold App.analyze_project, NetlifyAi.main_analyze.
  destruct root as [[text|entries]|]; [|done|]; simpl; eauto.
Qed.

Lemma bad_root_is_rejected_by_the_callers_witness :
  Fs.is_dir None = false /\
  exists error, App.analyze_project None "/no/such/dir" = App.Failure error.
Proof.
  split; [reflexivity|].
  apply (bad_root_is_rejected_by_the_callers None "/no/such/dir"). reflexivity.
Defined.

(** A directory is scanned and analysed by both entry points. *)
Lemma directory_is_analysed entries path :
  App.analyze_project (Some (Dir entries)) path =
    App.Analysed
      (App.detect_project_type (Fs.scan_files (Some (Dir entries))) path
         (Fs.read_text (Some (Dir entries))))
      (Fs.scan_files (Some (Dir entries))) /\
  NetlifyAi.main_analyze (Some (Dir entries)) =
    NetlifyAi.Analysed
      (NetlifyAi.detect_project_type (Fs.scan_files (Some (Dir entries)))
         (Fs.read_text (Some (Dir entries)))).
Proof. split; reflexivity. Qed.

End Scanner.

(** * The generated manifest *)

Section Manifest.
Import Str.

Lemma single_line_spec s : single_line s = true <-> contains newline s = false.
Proof. unfold single_line. apply negb_true_iff. Qed.

Ltac plain_line :=
  change newline with (String nl EmptyString) in *;
  rewrite ?no_char_app; repeat split; first [assumption | reflexivity].

Ltac split_cases functions_dir build_command :=
  destruct functions_dir as [d|], build_command as [c|]; simpl;
  try destruct (String.eqb d EmptyString); try destruct (String.eqb c EmptyString); simpl.

Lemma web_manifest_lines publish_dir functions_dir build_command python_version :
  single_line publish_dir = true -> single_line_opt functions_dir = true ->
  single_line_opt build_command = true -> single_line python_version = true ->
  split nl (App.generate_netlify_toml publish_dir functions_dir build_command python_version) =
  App.netlify_toml_lines publish_dir functions_dir build_command python_version ++ [EmptyString].
Proof.
  intros Hp Hf Hb Hv. unfold App.generate_netlify_toml.
  rewrite <- join_snoc_empty by done.
  apply split_join_char; [by destruct (App.netlify_toml_lines _ _ _ _)|].
  apply single_line_spec in Hp, Hv.
  unfold App.netlify_toml_lines, App.when_set.
  split_cases functions_dir build_command;
    try apply single_line_spec in Hf; try apply single_line_spec in Hb;
    repeat constructor; plain_line.
Qed.

(** The wizard's generator returns a text when the analysis has the key
    'has_python', and raises otherwise. *)
Lemma wizard_manifest_text analysis publish_dir functions_dir build_command python_version
    has_python :
  analysis !! "has_python" = Some has_python ->
  NetlifyAi.generate_netlify_toml analysis publish_dir functions_dir build_command
    python_version =
  Some (join newline
          (NetlifyAi.netlify_toml_lines (truth has_python) publish_dir functions_dir
             build_command python_version) +:+ newline).
Proof. intros H. unfold NetlifyAi.generate_netlify_toml. by rewrite H. Qed.

Remark wizard_manifest_needs_has_python analysis publish_dir functions_dir build_command
    python_version :
  NetlifyAi.generate_netlify_toml analysis publish_dir functions_dir build_command
    python_version = None <-> analysis !! "has_python" = None.
Proof. unfold NetlifyAi.generate_netlify_toml. by destruct (analysis !! "has_python"). Qed.

Lemma wizard_manifest_lines has_python publish_dir functions_dir build_command
    python_version :
  single_line publish_dir = true -> single_line_opt functions_dir = true ->
  single_line_opt build_command = true -> single_line python_version = true ->
  split nl (join newline
              (NetlifyAi.netlify_toml_lines has_python publish_dir functions_dir
                 build_command python_version) +:+ newline) =
  NetlifyAi.netlify_toml_lines has_python publish_dir functions_dir build_command
    python_version ++ [EmptyString].
Proof.
  intros Hp Hf Hb Hv.
  rewrite <- join_snoc_empty by done.
  apply split_join_char; [by destruct (NetlifyAi.netlify_toml_lines _ _ _ _ _)|].
  apply single_line_spec in Hp, Hv.
  unfold NetlifyAi.netlify_toml_lines, NetlifyAi.when_set.
  destruct has_python;
  split_cases functions_dir build_command;
    try apply single_line_spec in Hf; try apply single_line_spec in Hb;
    repeat constructor; plain_line.
Qed.

(** C5, as the claim states it, fails: the generator tests the truth value of
    [functions_dir], so the empty string, although not [None], gives a
    manifest without redirect block; and arguments are pasted in as they
    come, so a functions directory that carries line breaks can bring a second
    '[[redirects]]' line with it. *)
Lemma empty_functions_dir_gives_no_redirect :
  count_line "[[redirects]]"
    (App.generate_netlify_toml "." (Some EmptyString) None "3.10") = 0 /\
  (exists text,
     NetlifyAi.generate_netlify_toml (<["has_python" := VBool true]> ∅) "."
       (Some EmptyString) None "3.10" = Some text /\
     count_line "[[redirects]]" text = 0) /\
  count_line "[[redirects]]"
    (App.generate_netlify_toml "."
       (Some ("api" +:+ dq +:+ newline +:+ "[[redirects]]" +:+ newline +:+ "  x = " +:+ dq))
       None "3.10") = 2.
Proof. split; [reflexivity|]. split; [by eexists|reflexivity]. Qed.

(** C5, amended: for arguments without line breaks, a non-empty
    [functions_dir] gives a manifest with exactly one '[[redirects]]' line,
    heading the block that sends '/api/*' to '/.netlify/functions/:splat'
    with status 200; with [functions_dir] [None] or empty the manifest has no
    '[[redirects]]' line, no environment section ('[build.environment]' in
    the web entry point, '[functions]' in the wizard) and no line pinning
    the Python version.  The wizard's generator gives a manifest whenever the
    analysis has the key 'has_python'; without that key it raises
    [KeyError]. *)
Theorem manifest_redirect_block analysis publish_dir functions_dir build_command
    python_version :
  single_line publish_dir = true -> single_line_opt functions_dir = true ->
  single_line_opt build_command = true -> single_line python_version = true ->
  (truthy functions_dir = true ->
   count_line "[[redirects]]"
     (App.generate_netlify_toml publish_dir functions_dir build_command python_version) = 1 /\
   has_block redirect_block
     (split nl (App.generate_netlify_toml publish_dir functions_dir build_command
                  python_version)) = true) /\
  (truthy functions_dir = false ->
   count_line "[[redirects]]"
     (App.generate_netlify_toml publish_dir functions_dir build_command python_version) = 0 /\
   count_line "[build.environment]"
     (App.generate_netlify_toml publish_dir functions_dir build_command python_version) = 0 /\
   count_lines_where (startswith "  PYTHON_VERSION")
     (App.generate_netlify_toml publish_dir functions_dir build_command python_version) = 0) /\
  (forall has_python, analysis !! "has_python" = Some has_python ->
   exists text,
     NetlifyAi.generate_netlify_toml analysis publish_dir functions_dir build_command
       python_version = Some text /\
     (truthy functions_dir = true ->
      count_line "[[redirects]]" text = 1 /\
      has_block redirect_block (split nl text) = true) /\
     (truthy functions_dir = false ->
      count_line "[[redirects]]" text = 0 /\
      count_line "[functions]" text = 0 /\
      count_lines_where (startswith "  python_version") text = 0)) /\
  (analysis !! "has_python" = None ->
   NetlifyAi.generate_netlify_toml analysis publish_dir functions_dir build_command
     python_version = None).
Proof.
  intros Hp Hf Hb Hv. split; [|split; [|split]].
  - unfold count_line, count_lines_where. rewrite web_manifest_lines by done.
    unfold App.netlify_toml_lines, App.when_set, truthy.
    destruct functions_dir as [d|], build_command as [c|];
      try destruct (String.eqb d EmptyString); try destruct (String.eqb c EmptyString);
      intros Ht; try discriminate Ht; vm_compute; repeat split.
  - unfold count_line, count_lines_where. rewrite web_manifest_lines by done.
    unfold App.netlify_toml_lines, App.when_set, truthy.
    destruct functions_dir as [d|], build_command as [c|];
      try destruct (String.eqb d EmptyString); try destruct (String.eqb c EmptyString);
      intros Ht; try discriminate Ht; vm_compute; repeat split.
  - intros has_python Hkey. eexists. split; [by apply wizard_manifest_text|].
    unfold count_line, count_lines_where. rewrite wizard_manifest_lines by done.
    unfold NetlifyAi.netlify_toml_lines, NetlifyAi.when_set, truthy.
    destruct (truth has_python);
      destruct functions_dir as [d|], build_command as [c|];
      try destruct (String.eqb d EmptyString); try destruct (String.eqb c EmptyString);
      (split; intros Ht; [try discriminate Ht | try discriminate Ht]);
      vm_compute; repeat split.
  - by apply wizard_manifest_needs_has_python.
Qed.

Lemma manifest_redirect_block_witness :
  count_line "[[redirects]]"
    (App.generate_netlify_toml "." (Some "netlify/functions") (Some "npm run build")
       "3.10") = 1 /\
  exists text,
    NetlifyAi.generate_netlify_toml (<["has_python" := VBool true]> ∅) "."
      (Some "netlify/functions") (Some "npm run build") "3.10" = Some text /\
    count_line "[[redirects]]" text = 1.
Proof.
  assert ((<["has_python" := VBool true]> ∅ : dict) !! "has_python" = Some (VBool true))
    as Hkey by (vm_compute; reflexivity).
  destruct (manifest_redirect_block (<["has_python" := VBool true]> ∅) "."
              (Some "netlify/functions") (Some "npm run build") "3.10"
              eq_refl eq_refl eq_refl eq_refl) as (Hweb & _ & Hwizard & _).
  destruct (Hweb eq_refl) as [Hcount _].
  destruct (Hwizard (VBool true) Hkey) as (text & Htext & Hset & _).
  destruct (Hset eq_refl) as [Hcount' _].
  split; [exact Hcount|]. exists text. by split.
Defined.

End Manifest.

(** * Deploy success *)

Section Deploy.
Import Str.

(** ** [s.split()] *)

Lemma words_aux_nonempty s :
  Forall (fun w => w <> EmptyString) (words_aux s).2.
Proof.
  induction s as [|c s IH]; simpl; [constructor|].
  destruct (words_aux s) as [w r]. simpl in IH.
  destruct (is_space c); simpl; [|done].
  destruct (String.eqb w EmptyString) eqn:E; [done|].
  constructor; [by apply eqb_false|done].
Qed.

Lemma words_nonempty s : Forall (fun w => w <> EmptyString) (words s).
Proof.
  unfold words. pose proof (words_aux_nonempty s) as H.
  destruct (words_aux s) as [w r]. simpl in H.
  destruct (String.eqb w EmptyString) eqn:E; [done|].
  constructor; [by apply eqb_false|done].
Qed.

Lemma words_nil_all_space s : words s = [] -> all_space s = true.
Proof.
  unfold words. induction s as [|c s IH]; [done|]. simpl.
  destruct (words_aux s) as [w r].
  destruct (is_space c); simpl; [|done].
  by destruct (String.eqb w EmptyString).
Qed.

Lemma is_space_lower c : is_space c = true -> lower_char c = c.
Proof. by destruct c as [[] [] [] [] [] [] [] []]. Qed.

Lemma lower_char_space c : is_space (lower_char c) = true -> is_space c = true.
Proof. by destruct c as [[] [] [] [] [] [] [] []]. Qed.

Lemma all_space_lower s : all_space (lower s) = all_space s.
Proof.
  induction s as [|c s IH]; [done|]. simpl. rewrite IH. f_equal.
  destruct (is_space c) eqn:E.
  - by rewrite (is_space_lower _ E).
  - destruct (is_space (lower_char c)) eqn:E'; [|done].
    apply lower_char_space in E'. congruence.
Qed.

Lemma all_space_app a b : all_space (a +:+ b) = all_space a && all_space b.
Proof.
  induction a as [|c a IH]; [done|]. rewrite app_cons. simpl.
  by rewrite IH, andb_assoc.
Qed.

(** A line that holds a keyword with a visible character has a word. *)
Lemma keyword_line_has_word kw line :
  all_space kw = false -> contains kw (lower line) = true -> words line <> [].
Proof.
  intros Hkw (a & b & Hl)%contains_spec Hw%words_nil_all_space.
  rewrite <- all_space_lower, Hl, !all_space_app, Hkw in Hw.
  by rewrite andb_false_r in Hw.
Qed.

Lemma keyword_line_last_word kw line :
  all_space kw = false -> contains kw (lower line) = true ->
  exists w, last (words line) = Some w /\ w <> EmptyString.
Proof.
  intros Hkw Hc. pose proof (keyword_line_has_word _ _ Hkw Hc) as Hne.
  pose proof (words_nonempty line) as Hall.
  destruct (last (words line)) as [w|] eqn:E.
  - exists w. split; [done|].
    rewrite Forall_forall in Hall. apply Hall.
    apply last_Some in E as [l' ->]. apply elem_of_app. right. by left.
  - by apply last_None in E.
Qed.

(** ** The URL pattern *)

Lemma search_some re s m :
  Re.search re s = Some m -> exists t, Re.match_here re t = Some m.
Proof.
  induction s as [|c s IH]; simpl.
  - destruct (Re.match_here re EmptyString) eqn:E; [|done]. intros [= <-]. eauto.
  - destruct (Re.match_here re (String c s)) eqn:E; [intros [= <-]; eauto | done].
Qed.

Lemma match_here_lit l re s m :
  Re.match_here (Re.Lit l :: re) s = Some m -> exists m', m = l +:+ m'.
Proof.
  change (Re.match_here (Re.Lit l :: re) s) with
    (if startswith l s
     then option_map (String.append l) (Re.match_here re (Re.drop (String.length l) s))
     else None).
  destruct (startswith l s); [|done].
  destruct (Re.match_here re _) as [m'|]; [|done]. intros [= <-]. eauto.
Qed.

(** A match of the URL pattern starts with the scheme. *)
Lemma netlify_url_nonempty line u :
  Re.search App.netlify_url_re line = Some u -> u <> EmptyString.
Proof.
  intros [t Ht]%search_some. apply match_here_lit in Ht as [m' ->]. done.
Qed.

(** ** The scan of the output lines *)

Lemma recognized_extracted line :
  recognized line = true -> exists u, extracted line = Some u /\ u <> EmptyString.
Proof.
  unfold recognized, extracted.
  destruct (contains "url" (lower line)) eqn:Eurl; rewrite ?andb_true_r, ?andb_false_r.
  - destruct (contains "website" (lower line)) eqn:Ew; simpl.
    { intros _. by apply (keyword_line_last_word "website"). }
    destruct (contains "deploy" (lower line)) eqn:Ed; simpl.
    { intros _. by apply (keyword_line_last_word "deploy"). }
    intros (_ & Hre%bool_decide_eq_true)%andb_true_iff.
    destruct (Re.search App.netlify_url_re line) as [u|] eqn:E; [|done].
    exists u. split; [done|]. by eapply netlify_url_nonempty.
  - simpl. intros (_ & Hre%bool_decide_eq_true)%andb_true_iff.
    destruct (Re.search App.netlify_url_re line) as [u|] eqn:E; [|done].
    exists u. split; [done|]. by eapply netlify_url_nonempty.
Qed.

Lemma url_step_unrecognized st line :
  recognized line = false -> App.url_step st line = st.
Proof.
  unfold recognized, App.url_step. cbv zeta.
  intros [[-> ->]%orb_false_iff H]%orb_false_iff.
  destruct (contains "https://" line && contains "netlify" line); [|done].
  simpl in H. apply bool_decide_eq_false in H.
  destruct (Re.search App.netlify_url_re line); [|done]. by destruct H.
Qed.

Lemma url_step_recognized st line :
  recognized line = true ->
  exists u, extracted line = Some u /\ u <> EmptyString /\
    (App.url_step st line = (Some u, st.2) \/ App.url_step st line = (st.1, Some u)).
Proof.
  intros Hr. destruct (recognized_extracted _ Hr) as (u & Hu & Hne).
  exists u. split; [done|]. split; [done|].
  unfold recognized in Hr. unfold extracted in Hu. unfold App.url_step. cbv zeta.
  destruct (contains "url" (lower line)); rewrite ?andb_true_r, ?andb_false_r in *.
  - destruct (contains "website" (lower line)); simpl in *.
    { rewrite Hu. by left. }
    destruct (contains "deploy" (lower line)); simpl in *.
    { rewrite Hu. by right. }
    apply andb_true_iff in Hr as [-> _]. rewrite Hu. by left.
  - simpl in *. apply andb_true_iff in Hr as [-> _]. rewrite Hu. by left.
Qed.

Lemma url_step_cases st line :
  App.url_step st line = st \/
  exists u, recognized line = true /\ extracted line = Some u /\ u <> EmptyString /\
    (App.url_step st line = (Some u, st.2) \/ App.url_step st line = (st.1, Some u)).
Proof.
  destruct (recognized line) eqn:E.
  - right. destruct (url_step_recognized st _ E) as (u & ? & ? & ?). eauto 6.
  - left. by apply url_step_unrecognized.
Qed.

Lemma scan_from_lines L ls st :
  (forall l, l ∈ ls -> l ∈ L) ->
  from_lines L st.1 -> from_lines L st.2 ->
  from_lines L (fold_left App.url_step ls st).1 /\
  from_lines L (fold_left App.url_step ls st).2.
Proof.
  revert st. induction ls as [|l ls IH]; intros st Hsub H1 H2; [done|].
  simpl. apply IH.
  - intros; apply Hsub; by right.
  - destruct (url_step_cases st l) as [->|(u & Hr & He & Hne & [->| ->])]; [done| |done].
    intros u' [= <-]. split; [done|]. exists l. split; [apply Hsub; by left|done].
  - destruct (url_step_cases st l) as [->|(u & Hr & He & Hne & [->| ->])]; [done|done|].
    intros u' [= <-]. split; [done|]. exists l. split; [apply Hsub; by left|done].
Qed.

Lemma scan_keeps_found ls st :
  is_Some st.1 \/ is_Some st.2 ->
  is_Some (fold_left App.url_step ls st).1 \/ is_Some (fold_left App.url_step ls st).2.
Proof.
  revert st. induction ls as [|l ls IH]; intros st H; [done|].
  simpl. apply IH.
  destruct (url_step_cases st l) as [->|(u & _ & _ & _ & [->| ->])]; [done|..]; simpl.
  - by left.
  - by right.
Qed.

Lemma scan_finds ls st line :
  line ∈ ls -> recognized line = true ->
  is_Some (fold_left App.url_step ls st).1 \/ is_Some (fold_left App.url_step ls st).2.
Proof.
  revert st. induction ls as [|l ls IH]; intros st Hin Hr; [by apply elem_of_nil in Hin|].
  simpl. apply elem_of_cons in Hin as [<-|Hin]; [|by apply IH].
  apply scan_keeps_found.
  destruct (url_step_recognized st _ Hr) as (u & _ & _ & [->| ->]); simpl; [by left|by right].
Qed.

(** C6, as the claim states it, fails.  The wizard reads the output only
    after exit code 0: a draft-URL line with a non-zero exit code gives no
    URL.  The web handler takes an 'https://' URL with 'netlify' only when
    something stands between the scheme and 'netlify': with a non-zero exit
    code the line below is reported as a failure without URL. *)
Lemma deploy_url_line_reported_as_failure :
  NetlifyAi.deploy_preview
    (Exited 1 "Website Draft URL: https://demo.netlify.app"
       "Warning: unsettled top-level await") = None /\
  App.r_success (App.deploy (Exited 1 "Live at https://netlify.app/demo"
                               "Warning: unsettled top-level await")) = false /\
  App.r_url (App.deploy (Exited 1 "Live at https://netlify.app/demo"
                           "Warning: unsettled top-level await")) = None.
Proof. by vm_compute. Qed.

(** After a non-zero exit code the wizard's two deploys give no URL, whatever
    the output holds. *)
Lemma wizard_deploy_reads_output_after_exit_zero returncode out err :
  returncode <> 0%Z ->
  NetlifyAi.deploy_preview (Exited returncode out err) = None /\
  NetlifyAi.deploy_production (Exited returncode out err) = None.
Proof. intros Hrc%Z.eqb_neq. simpl. by rewrite Hrc. Qed.

(** C6, amended: in the web deploy handler, for 7-bit ASCII output, whenever
    a line of stdout plus stderr is recognized (it holds 'website' and 'url',
    or 'deploy' and 'url', in any letter case, or the pattern
    https://[^\s]+netlify[^\s]* matches in it), the deploy is reported as
    success with a non-empty URL extracted from a recognized line, whatever
    the exit code and the warnings on stderr. *)
Theorem web_deploy_succeeds_on_recognized_line p line :
  is_ascii (all_output p) = true ->
  line ∈ split nl (all_output p) ->
  recognized line = true ->
  App.r_success (App.deploy p) = true /\
  exists u, App.r_url (App.deploy p) = Some u /\ u <> EmptyString /\
    exists line', line' ∈ split nl (all_output p) /\ recognized line' = true /\
                  extracted line' = Some u.
Proof.
  intros _ Hin Hr.
  assert (exists u, App.r_url (App.deploy p) = Some u /\ u <> EmptyString /\
            exists line', line' ∈ split nl (all_output p) /\ recognized line' = true /\
                          extracted line' = Some u) as Hurl.
  { unfold App.deploy. cbv zeta. fold (all_output p).
    pose proof (scan_finds _ (None, None) _ Hin Hr) as Hfound.
    destruct (scan_from_lines (split nl (all_output p)) (split nl (all_output p))
                (None, None)) as [H1 H2]; [done..|].
    destruct (fold_left App.url_step (split nl (all_output p)) (None, None))
      as [url deploy_url]. simpl in *.
    unfold por, truthy. destruct url as [u|].
    - destruct (H1 u eq_refl) as [Hne Hline].
      apply eqb_false in Hne as Hb. rewrite Hb. simpl. eauto.
    - destruct Hfound as [[? [=]]|[u ->]]. destruct (H2 u eq_refl). eauto. }
  split; [|done].
  destruct Hurl as (u & Hu & Hne & _). revert Hu.
  unfold App.deploy. cbv zeta.
  destruct (fold_left _ _ _) as [url deploy_url]. simpl. intros ->.
  rewrite bool_decide_eq_true_2 by done. rewrite orb_true_r. by destruct (_ && _).
Qed.

Lemma web_deploy_succeeds_on_recognized_line_witness :
  App.r_success
    (App.deploy (Exited 1 "Deploying...
Website URL:   https://demo.netlify.app" "Warning: unsettled top-level await")) = true.
Proof.
  apply (web_deploy_succeeds_on_recognized_line
           (Exited 1 "Deploying...
Website URL:   https://demo.netlify.app" "Warning: unsettled top-level await")
           "Website URL:   https://demo.netlify.app").
  - reflexivity.
  - vm_compute. right. left.
  - reflexivity.
Defined.

End Deploy.

(** * The two entry points side by side *)

Section Variants.
Import Str.

Lemma agree_insert (a b : dict) k v : agree a b -> agree (<[k:=v]> a) (<[k:=v]> b).
Proof.
  intros H k' Hk'. rewrite !lookup_insert. case_decide; [done|]. by apply H.
Qed.

Lemma agree_insert_web (a b : dict) k v :
  k ∈ web_only_keys -> agree a b -> agree (<[k:=v]> a) b.
Proof.
  intros Hk H k' Hk'. rewrite lookup_insert_ne; [by apply H|]. by intros ->.
Qed.

Lemma agree_get_list (a b : dict) k :
  agree a b -> k ∉ web_only_keys -> get_list a k = get_list b k.
Proof. intros H Hk. unfold get_list. by rewrite (H k Hk). Qed.

Lemma agree_when c f g (a b : dict) :
  (forall a' b', agree a' b' -> agree (f a') (g b')) ->
  agree a b -> agree (when c f a) (when c g b).
Proof. intros Hfg H. unfold when. destruct c; auto. Qed.

Lemma not_web_only k : bool_decide (k ∈ web_only_keys) = false -> k ∉ web_only_keys.
Proof. by intros H%bool_decide_eq_false. Qed.

Lemma is_web_only k : bool_decide (k ∈ web_only_keys) = true -> k ∈ web_only_keys.
Proof. by intros H%bool_decide_eq_true. Qed.

Lemma agree_flag_step (a b : dict) file :
  agree a b -> agree (App.flag_step a file) (App.flag_step b file).
Proof.
  intros H. unfold App.flag_step. cbv zeta.
  repeat (apply agree_when; [intros a' b' H'; repeat apply agree_insert; try done|]);
    try done.
  rewrite (agree_get_list a' b' "python_files") by (done || by apply not_web_only).
  by repeat apply agree_insert.
Qed.

Lemma agree_flags files (a b : dict) :
  agree a b -> agree (fold_left App.flag_step files a) (fold_left App.flag_step files b).
Proof.
  revert a b. induction files as [|f files IH]; intros a b H; [done|].
  simpl. by apply IH, agree_flag_step.
Qed.

Lemma agree_initial files path :
  agree (App.initial_analysis files path) NetlifyAi.initial_analysis.
Proof.
  assert (App.initial_analysis files path =
          <["type_name" := VStr "靜態網站"]>
            (<["file_count" := VInt (length files)]>
               (<["path" := VStr path]> NetlifyAi.initial_analysis))) as ->.
  { apply map_eq. intros k. unfold App.initial_analysis, NetlifyAi.initial_analysis.
    rewrite !lookup_insert. repeat case_decide; simplify_eq; done. }
  repeat (apply agree_insert_web; [by apply is_web_only|]). done.
Qed.

Lemma agree_set_functions_dir (a b : dict) f :
  agree a b -> agree (App.set_functions_dir a f) (App.set_functions_dir b f).
Proof.
  intros H. unfold App.set_functions_dir. cbv zeta.
  destruct (App.functions_index _ _); [by apply agree_insert|done].
Qed.

Lemma agree_python_type_rule files path :
  agree (App.python_type_rule (fold_left App.flag_step files (App.initial_analysis files path)))
        (NetlifyAi.python_type_rule (fold_left App.flag_step files NetlifyAi.initial_analysis)).
Proof.
  rewrite app_python_type_rule by apply app_initial_fresh.
  rewrite wizard_python_type_rule by apply wizard_initial_fresh.
  pose proof (agree_flags files _ _ (agree_initial files path)) as H.
  assert (agree
            (<["type_name" := VStr "Python Serverless Functions"]>
               (<["type" := VStr "python-functions"]>
                  (fold_left App.flag_step files (App.initial_analysis files path))))
            (<["type" := VStr "python-functions"]>
               (fold_left App.flag_step files NetlifyAi.initial_analysis))) as Hmark.
  { apply agree_insert_web; [by apply is_web_only|]. by apply agree_insert. }
  destruct (first_qualifying files); [by apply agree_set_functions_dir|].
  by destruct (existsb is_python files).
Qed.

Lemma agree_node_rule files path :
  agree
    (App.node_rule
       (App.python_type_rule (fold_left App.flag_step files (App.initial_analysis files path))))
    (NetlifyAi.node_rule
       (NetlifyAi.python_type_rule (fold_left App.flag_step files NetlifyAi.initial_analysis))).
Proof.
  unfold App.node_rule, NetlifyAi.node_rule.
  rewrite app_node_rule_test by apply app_initial_fresh.
  rewrite wizard_node_rule_test by apply wizard_initial_fresh.
  apply agree_when; [|apply agree_python_type_rule].
  intros a' b' H'. apply agree_insert.
  apply agree_insert_web; [by apply is_web_only|]. by apply agree_insert.
Qed.

(** The analyses agree on every shared key but the variable list. *)
Lemma detect_agree files path read k :
  k ∉ ["type_name"; "file_count"; "path"; "env_vars_needed"] ->
  App.detect_project_type files path read !! k = NetlifyAi.detect_project_type files read !! k.
Proof.
  intros Hk. apply not_elem_of_cons in Hk as [H1 Hk].
  apply not_elem_of_cons in Hk as [H2 Hk]. apply not_elem_of_cons in Hk as [H3 Hk].
  apply not_elem_of_cons in Hk as [H4 _].
  unfold App.detect_project_type, NetlifyAi.detect_project_type. cbv zeta.
  rewrite !lookup_insert_ne by done.
  apply agree_node_rule. unfold web_only_keys. rewrite !not_elem_of_cons.
  repeat split; (done || apply not_elem_of_nil).
Qed.

(** *** The variable tables *)

Lemma minus_union_singleton (X : gset string) v name :
  v <> name -> ({[v]} ∪ X) ∖ {[name]} = {[v]} ∪ X ∖ {[name]}.
Proof.
  intros Hv. apply set_eq. intros x.
  rewrite elem_of_difference, !elem_of_union, elem_of_difference, !elem_of_singleton.
  split.
  - intros [[->|Hx] Hn]; [by left | by right].
  - intros [->|[Hx Hn]]; [by split; [left|] | by split; [right|]].
Qed.

Lemma minus_union_same (X : gset string) name :
  ({[name]} ∪ X) ∖ {[name]} = X ∖ {[name]}.
Proof.
  apply set_eq. intros x.
  rewrite !elem_of_difference, elem_of_union, !elem_of_singleton.
  split.
  - by intros [[->|Hx] Hn].
  - intros [Hx Hn]. by split; [right|].
Qed.

Lemma scan_with_app p1 p2 content (X : gset string) :
  scan_with (p1 ++ p2) content X = scan_with p2 content (scan_with p1 content X).
Proof. unfold scan_with. by rewrite fold_left_app. Qed.

Lemma scan_with_minus pats content (X : gset string) name :
  Forall (fun p => fst p <> name) pats ->
  scan_with pats content X ∖ {[name]} = scan_with pats content (X ∖ {[name]}).
Proof.
  unfold scan_with. intros Hp. revert X.
  induction Hp as [|p pats Hp Hps IH]; intros X; [done|].
  simpl. rewrite IH. f_equal. destruct (existsb _ _); [|done].
  by apply minus_union_singleton.
Qed.

Lemma wizard_scan_minus content (Y : gset string) :
  NetlifyAi.scan_content content Y ∖ {["API_KEY"]} =
  App.scan_content content (Y ∖ {["API_KEY"]}).
Proof.
  change (NetlifyAi.scan_content content Y) with
    (scan_with (App.patterns ++ [("API_KEY", ["api_key"; "apikey"])]) content Y).
  rewrite scan_with_app.
  change (App.scan_content content (Y ∖ {["API_KEY"]})) with
    (scan_with App.patterns content (Y ∖ {["API_KEY"]})).
  rewrite <- scan_with_minus by (repeat constructor; done).
  unfold scan_with at 1. cbn [fold_left fst snd].
  destruct (existsb _ _); [|done]. apply minus_union_same.
Qed.

Lemma wizard_env_minus files read (X Y : gset string) :
  Y ∖ {["API_KEY"]} = X ->
  env_vars_with NetlifyAi.patterns files read Y ∖ {["API_KEY"]} =
  env_vars_with App.patterns files read X.
Proof.
  unfold env_vars_with. revert X Y. induction files as [|f files IH]; intros X Y H; [done|].
  cbn [fold_left]. apply IH.
  destruct (endswith_any _ f); [|done]. destruct (read f) as [text|]; [|done].
  rewrite <- H. apply wizard_scan_minus.
Qed.

(** The wizard reports what the web entry point reports, and 'API_KEY' when
    a file mentions it. *)
Lemma detect_env_vars_related files read v :
  v ∈ App._detect_env_vars files read <->
  v ∈ NetlifyAi._detect_env_vars files read /\ v <> "API_KEY".
Proof.
  unfold App._detect_env_vars, NetlifyAi._detect_env_vars.
  rewrite !elem_of_elements, app_env_var_set_with, wizard_env_var_set_with.
  rewrite <- (wizard_env_minus files read ∅ ∅) by done.
  rewrite elem_of_difference, elem_of_singleton. done.
Qed.

(** *** The generators *)

Lemma manifests_equal_without_functions analysis has_python publish_dir functions_dir
    build_command python_version :
  truthy functions_dir = false ->
  analysis !! "has_python" = Some has_python ->
  NetlifyAi.generate_netlify_toml analysis publish_dir functions_dir build_command
    python_version =
  Some (App.generate_netlify_toml publish_dir functions_dir build_command python_version).
Proof.
  intros Ht Hkey. unfold NetlifyAi.generate_netlify_toml, App.generate_netlify_toml.
  rewrite Hkey. f_equal.
  unfold NetlifyAi.netlify_toml_lines, App.netlify_toml_lines.
  assert (forall f, NetlifyAi.when_set functions_dir f = []) as Hw.
  { intros f. unfold NetlifyAi.when_set. destruct functions_dir; [by rewrite Ht|done]. }
  change App.when_set with NetlifyAi.when_set. rewrite !Hw.
  by destruct (truth has_python).
Qed.

Lemma descriptions_related var :
  var <> "API_KEY" -> NetlifyAi.descriptions !! var = App.descriptions !! var.
Proof.
  intros Hv. unfold NetlifyAi.descriptions, App.descriptions.
  rewrite !lookup_insert. repeat case_decide; simplify_eq; done.
Qed.

Lemma env_examples_equal env_vars :
  "API_KEY" ∉ env_vars ->
  NetlifyAi.generate_env_example env_vars = App.generate_env_example env_vars.
Proof.
  intros H. unfold NetlifyAi.generate_env_example, App.generate_env_example.
  unfold NetlifyAi.env_example_lines, App.env_example_lines. do 3 f_equal.
  induction env_vars as [|var env_vars IH]; [done|].
  apply not_elem_of_cons in H as [Hv H]. simpl.
  rewrite descriptions_related by done. by rewrite IH.
Qed.

(** C3, as the claim states it, fails: the two entry points do not produce
    equal results.  The ignore files differ, the manifests differ as soon as a
    functions directory is given, and a file that mentions 'api_key' makes the
    wizard alone report 'API_KEY'. *)
Lemma entry_points_differ :
  App.generate_gitignore <> NetlifyAi.generate_gitignore /\
  Some (App.generate_netlify_toml "." (Some "netlify/functions") None "3.10") <>
    NetlifyAi.generate_netlify_toml (<["has_python" := VBool true]> ∅) "."
      (Some "netlify/functions") None "3.10" /\
  App._detect_env_vars ["app.py"] (fun _ => Some "API_KEY = load()") = [] /\
  NetlifyAi._detect_env_vars ["app.py"] (fun _ => Some "API_KEY = load()") = ["API_KEY"].
Proof.
  repeat split.
  - intros H. apply (f_equal String.length) in H. by vm_compute in H.
  - intros H. apply (f_equal (option_map String.length)) in H. by vm_compute in H.
Qed.

(** C3, amended: the entry points share the classification and part of the
    generators.  For every file list the two analyses agree on each key other
    than 'type_name', 'file_count', 'path' (web only) and 'env_vars_needed';
    the web variable list is the wizard's without 'API_KEY'; the dependency
    lists are equal for equal variable lists; the manifests are equal when no
    functions directory (or an empty one) is given and the wizard's analysis
    has the key 'has_python' (without it the wizard's generator raises
    [KeyError]); the environment templates are equal for variable lists
    without 'API_KEY'. *)
Theorem entry_points_share_classification files path read analysis publish_dir
    functions_dir build_command python_version env_vars :
  (forall k, k ∉ ["type_name"; "file_count"; "path"; "env_vars_needed"] ->
     App.detect_project_type files path read !! k =
     NetlifyAi.detect_project_type files read !! k) /\
  (forall v, v ∈ App._detect_env_vars files read <->
             v ∈ NetlifyAi._detect_env_vars files read /\ v <> "API_KEY") /\
  NetlifyAi.generate_requirements analysis =
    App.generate_requirements (get_list analysis "env_vars_needed") /\
  (truthy functions_dir = false ->
   forall has_python, analysis !! "has_python" = Some has_python ->
   NetlifyAi.generate_netlify_toml analysis publish_dir functions_dir build_command
     python_version =
   Some (App.generate_netlify_toml publish_dir functions_dir build_command python_version)) /\
  ("API_KEY" ∉ env_vars ->
   NetlifyAi.generate_env_example env_vars = App.generate_env_example env_vars).
Proof.
  split; [intros k; apply detect_agree|].
  split; [apply detect_env_vars_related|].
  split; [reflexivity|].
  split; [|apply env_examples_equal].
  intros Ht has_python Hkey. by apply (manifests_equal_without_functions _ has_python).
Qed.

Lemma entry_points_share_classification_witness :
  truthy None = false /\
  ("API_KEY" ∉ ["OPENAI_API_KEY"]) /\
  NetlifyAi.generate_netlify_toml
    (NetlifyAi.detect_project_type ["index.html"; "package.json"] (fun _ => None))
    "dist" None (Some "npm run build") "3.10" =
    Some (App.generate_netlify_toml "dist" None (Some "npm run build") "3.10") /\
  NetlifyAi.generate_env_example ["OPENAI_API_KEY"] =
    App.generate_env_example ["OPENAI_API_KEY"].
Proof.
  destruct (entry_points_share_classification
              ["index.html"; "package.json"] "/srv/site" (fun _ => None)
              (NetlifyAi.detect_project_type ["index.html"; "package.json"] (fun _ => None))
              "dist" None (Some "npm run build") "3.10" ["OPENAI_API_KEY"])
    as (_ & _ & _ & Hmanifest & Htemplate).
  assert ("API_KEY" ∉ ["OPENAI_API_KEY"]) as Hnot.
  { intros [H|H]%elem_of_cons; [discriminate H|]. by apply elem_of_nil in H. }
  assert (NetlifyAi.detect_project_type ["index.html"; "package.json"] (fun _ => None)
            !! "has_python" = Some (VBool false)) as Hkey by (vm_compute; reflexivity).
  split; [reflexivity|]. split; [exact Hnot|].
  split; [exact (Hmanifest eq_refl (VBool false) Hkey) | exact (Htemplate Hnot)].
Defined.

End Variants.

(** * More about the classifier *)

Section MoreFlags.
Import Str.

Ltac flag_step_flag test :=
  unfold App.flag_step; cbv zeta;
  rewrite ?get_bool_when_keeps by keep_key;
  unfold when at 1; destruct test;
  [rewrite get_bool_insert; by rewrite orb_true_r
  |rewrite ?get_bool_when_keeps by keep_key; by rewrite orb_false_r].

Lemma flag_step_has_html (a : dict) file :
  get_bool (App.flag_step a file) "has_html" = get_bool a "has_html" || is_html file.
Proof. unfold is_html. flag_step_flag (endswith ".html" (lower file)). Qed.

Lemma flag_step_has_netlify_config (a : dict) file :
  get_bool (App.flag_step a file) "has_netlify_config" =
  get_bool a "has_netlify_config" || is_named "netlify.toml" file.
Proof. unfold is_named. flag_step_flag (String.eqb (lower file) "netlify.toml"). Qed.

Lemma flag_step_has_env_file (a : dict) file :
  get_bool (App.flag_step a file) "has_env_file" =
  get_bool a "has_env_file" || is_named ".env" file.
Proof. unfold is_named. flag_step_flag (String.eqb (lower file) ".env"). Qed.

Lemma flag_step_has_env_example (a : dict) file :
  get_bool (App.flag_step a file) "has_env_example" =
  get_bool a "has_env_example" || is_named ".env.example" file.
Proof. unfold is_named. flag_step_flag (String.eqb (lower file) ".env.example"). Qed.

Lemma flag_step_has_gitignore (a : dict) file :
  get_bool (App.flag_step a file) "has_gitignore" =
  get_bool a "has_gitignore" || is_named ".gitignore" file.
Proof. unfold is_named. flag_step_flag (String.eqb (lower file) ".gitignore"). Qed.

Lemma flag_step_has_requirements (a : dict) file :
  get_bool (App.flag_step a file) "has_requirements" =
  get_bool a "has_requirements" || is_named "requirements.txt" file.
Proof. unfold is_named. flag_step_flag (String.eqb (lower file) "requirements.txt"). Qed.

(** A flag that each step can only raise holds after the loop exactly when
    it held before or some file raises it. *)
Lemma flags_fold k test :
  (forall (a : dict) file,
     get_bool (App.flag_step a file) k = get_bool a k || test file) ->
  forall files (a : dict),
    get_bool (fold_left App.flag_step files a) k = get_bool a k || existsb test files.
Proof.
  intros Hstep files. induction files as [|f files IH]; intros a; simpl.
  - by rewrite orb_false_r.
  - by rewrite IH, Hstep, orb_assoc.
Qed.

Lemma app_detect_keeps_flag files path read k :
  k ∉ ["type"; "type_name"; "functions_dir"; "build_command"; "env_vars_needed"] ->
  App.detect_project_type files path read !! k =
  fold_left App.flag_step files (App.initial_analysis files path) !! k.
Proof.
  intros Hk. rewrite !not_elem_of_cons in Hk. destruct_and!.
  unfold App.detect_project_type. cbv zeta. rewrite lookup_insert_ne by done.
  unfold App.node_rule. rewrite lookup_when_keeps by keep_key.
  apply app_rule_keeps; [apply app_initial_fresh|].
  rewrite !not_elem_of_cons. repeat split; (done || apply not_elem_of_nil).
Qed.

Lemma wizard_detect_keeps_flag files read k :
  k ∉ ["type"; "type_name"; "functions_dir"; "build_command"; "env_vars_needed"] ->
  NetlifyAi.detect_project_type files read !! k =
  fold_left App.flag_step files NetlifyAi.initial_analysis !! k.
Proof.
  intros Hk. rewrite !not_elem_of_cons in Hk. destruct_and!.
  unfold NetlifyAi.detect_project_type. cbv zeta. rewrite lookup_insert_ne by done.
  unfold NetlifyAi.node_rule. rewrite lookup_when_keeps by keep_key.
  apply wizard_rule_keeps; [apply wizard_initial_fresh|].
  rewrite !not_elem_of_cons. repeat split; (done || apply not_elem_of_nil).
Qed.

Lemma raises_only_refl (a : dict) : raises_only a a.
Proof. intros k _. by left. Qed.

Lemma raises_only_trans (a b c : dict) :
  raises_only a b -> raises_only b c -> raises_only a c.
Proof.
  intros H1 H2 k Hk. destruct (H2 k Hk) as [-> | ->]; [by apply H1 | by right].
Qed.

Lemma raises_only_when c f (a : dict) :
  (forall a', raises_only a' (f a')) -> raises_only a (when c f a).
Proof. intros Hf. unfold when. destruct c; [apply Hf | apply raises_only_refl]. Qed.

Lemma raises_only_insert (a : dict) k :
  raises_only a (<[k := VBool true]> a).
Proof.
  intros k' _. rewrite lookup_insert. case_decide; [by right | by left].
Qed.

Lemma raises_only_flag_step (a : dict) file : raises_only a (App.flag_step a file).
Proof.
  unfold App.flag_step. cbv zeta.
  repeat (eapply raises_only_trans;
          [|apply raises_only_when; intros a'; try apply raises_only_insert]).
  - apply raises_only_refl.
  - intros k Hk. rewrite lookup_insert_ne by done.
    rewrite lookup_insert. case_decide; [by right | by left].
  - eapply raises_only_trans; apply raises_only_insert.
Qed.

Lemma raises_only_flags files (a : dict) :
  raises_only a (fold_left App.flag_step files a).
Proof.
  revert a. induction files as [|f files IH]; intros a; [apply raises_only_refl|].
  simpl. eapply raises_only_trans; [apply raises_only_flag_step | apply IH].
Qed.

(** A Boolean key stays Boolean through the loop. *)
Lemma flags_lookup_bool files (a : dict) k b :
  k <> "python_files" -> a !! k = Some (VBool b) ->
  fold_left App.flag_step files a !! k =
  Some (VBool (get_bool (fold_left App.flag_step files a) k)).
Proof.
  intros Hk Ha. unfold get_bool.
  destruct (raises_only_flags files a k Hk) as [-> | ->]; [by rewrite Ha | done].
Qed.

Lemma flag_tests_step k test :
  (k, test) ∈ flag_tests ->
  k <> "python_files" /\
  bool_decide
    (k ∈ ["type"; "type_name"; "functions_dir"; "build_command"; "env_vars_needed"]) = false /\
  forall (a : dict) file,
    get_bool (App.flag_step a file) k = get_bool a k || test file.
Proof.
  unfold flag_tests. rewrite !elem_of_cons, elem_of_nil.
  intros H. destruct_or!; try done; simplify_eq;
    (split; [done|]); (split; [done|]).
  - apply flag_step_has_html.
  - apply flag_step_has_python.
  - apply flag_step_has_node.
  - apply flag_step_has_package_json.
  - apply flag_step_has_netlify_config.
  - apply flag_step_has_env_file.
  - apply flag_step_has_env_example.
  - apply flag_step_has_gitignore.
  - apply flag_step_has_requirements.
Qed.

Lemma flag_tests_initial k test files path :
  (k, test) ∈ flag_tests ->
  App.initial_analysis files path !! k = Some (VBool false) /\
  NetlifyAi.initial_analysis !! k = Some (VBool false).
Proof.
  unfold flag_tests. rewrite !elem_of_cons, elem_of_nil.
  intros H. destruct_or!; try done; simplify_eq; by vm_compute.
Qed.

Lemma flags_from_initial files (a : dict) k test :
  (k, test) ∈ flag_tests -> a !! k = Some (VBool false) ->
  fold_left App.flag_step files a !! k = Some (VBool (existsb test files)).
Proof.
  intros Hk Ha. destruct (flag_tests_step _ _ Hk) as (Hne & _ & Hstep).
  rewrite (flags_lookup_bool files a k false) by done.
  rewrite (flags_fold k test Hstep). unfold get_bool at 1. by rewrite Ha.
Qed.

End MoreFlags.

Section ClassifierProperties.
Import Str.

Lemma no_python_file files :
  (forall g, g ∈ files -> is_python g = false) <-> existsb is_python files = false.
Proof.
  rewrite <- not_true_iff_false, existsb_exists. split.
  - intros H (g & Hin%list_elem_of_In & Hg). by rewrite H in Hg.
  - intros H g Hin%list_elem_of_In. apply not_true_iff_false. eauto.
Qed.

(** X1: for a list of 7-bit ASCII paths the type is decided by two questions
    only.  It is 'node-project' exactly when the list holds the entry
    'package.json' (any letter case); 'python-functions' exactly when it
    holds no such entry but a Python file; 'static' exactly when it holds
    neither.  Both entry points agree. *)
Theorem type_is_decided_by_manifest_and_python files path read :
  forallb is_ascii files = true ->
  App.detect_project_type files path read !! "type" =
    NetlifyAi.detect_project_type files read !! "type" /\
  (App.detect_project_type files path read !! "type" = Some (VStr "node-project") <->
   exists f, f ∈ files /\ lower f = "package.json") /\
  (App.detect_project_type files path read !! "type" = Some (VStr "python-functions") <->
   (forall g, g ∈ files -> is_manifest g = false) /\
   exists g, g ∈ files /\ is_python g = true) /\
  (App.detect_project_type files path read !! "type" = Some (VStr "static") <->
   (forall g, g ∈ files -> is_manifest g = false) /\
   forall g, g ∈ files -> is_python g = false).
Proof.
  intros _.
  rewrite app_detect_type, wizard_detect_type.
  rewrite has_manifest, no_manifest, has_python_file, no_python_file.
  unfold type_of.
  destruct (existsb is_manifest files), (existsb is_python files);
    repeat split; intros; destruct_and?; done.
Qed.

Lemma type_is_decided_by_manifest_and_python_witness :
  App.detect_project_type ["api/Hello.PY"; "Package.Json"] "/srv/site" (fun _ => None)
    !! "type" = Some (VStr "node-project") <->
  exists f, f ∈ ["api/Hello.PY"; "Package.Json"] /\ lower f = "package.json".
Proof.
  destruct (type_is_decided_by_manifest_and_python
              ["api/Hello.PY"; "Package.Json"] "/srv/site" (fun _ => None) eq_refl)
    as (_ & Hnode & _).
  exact Hnode.
Defined.

(** X2: the build command goes with the type.  It is 'npm run build' when
    the type is 'node-project' and [None] for the two other types. *)
Theorem build_command_goes_with_node_project files path read :
  (App.detect_project_type files path read !! "build_command" = Some (VStr "npm run build") <->
   App.detect_project_type files path read !! "type" = Some (VStr "node-project")) /\
  (App.detect_project_type files path read !! "build_command" = Some VNone <->
   App.detect_project_type files path read !! "type" <> Some (VStr "node-project")) /\
  NetlifyAi.detect_project_type files read !! "build_command" =
    App.detect_project_type files path read !! "build_command".
Proof.
  rewrite app_detect_type, app_detect_build_command, wizard_detect_build_command.
  unfold type_of, build_command_value.
  destruct (existsb is_manifest files), (existsb is_python files);
    repeat split; intros; try done.
Qed.

(** X3: for a list of 7-bit ASCII paths every Boolean key reports whether
    some file passes its test: 'has_html' and 'has_python' look at the suffix
    of the lower-cased path, the seven others compare the whole lower-cased
    relative path with one fixed name, so a 'requirements.txt' or
    '.gitignore' below the root does not count. *)
Theorem flags_report_matching_files files path read k test :
  forallb is_ascii files = true ->
  (k, test) ∈ flag_tests ->
  App.detect_project_type files path read !! k = Some (VBool (existsb test files)) /\
  NetlifyAi.detect_project_type files read !! k = Some (VBool (existsb test files)).
Proof.
  intros _ Hk. destruct (flag_tests_step _ _ Hk) as (_ & Hkeep%bool_decide_eq_false & _).
  destruct (flag_tests_initial _ _ files path Hk) as [Ha Hw].
  rewrite app_detect_keeps_flag, wizard_detect_keeps_flag by done.
  by rewrite !(flags_from_initial files _ k test).
Qed.

Lemma flags_report_matching_files_witness :
  ("has_requirements", is_named "requirements.txt") ∈ flag_tests /\
  App.detect_project_type ["netlify/functions/requirements.txt"; "Index.HTML"] "/srv/site"
    (fun _ => None) !! "has_requirements" = Some (VBool false) /\
  NetlifyAi.detect_project_type ["netlify/functions/requirements.txt"; "Index.HTML"]
    (fun _ => None) !! "has_html" = Some (VBool true).
Proof.
  split; [by repeat constructor|]. split.
  - apply (flags_report_matching_files
             ["netlify/functions/requirements.txt"; "Index.HTML"] "/srv/site"
             (fun _ => None) "has_requirements" (is_named "requirements.txt"));
      [reflexivity|by repeat constructor].
  - apply (flags_report_matching_files
             ["netlify/functions/requirements.txt"; "Index.HTML"] "/srv/site"
             (fun _ => None) "has_html" is_html); [reflexivity|by repeat constructor].
Defined.

Lemma flag_step_python_files_lookup (a : dict) file l :
  a !! "python_files" = Some (VList l) ->
  App.flag_step a file !! "python_files" =
  Some (VList (l ++ if is_python file then [file] else [])).
Proof.
  intros Ha. unfold App.flag_step. cbv zeta.
  rewrite !lookup_when_keeps by keep_key.
  unfold is_python, when at 1. destruct (endswith ".py" (lower file)).
  - rewrite lookup_insert_eq, get_list_when_keeps by keep_key.
    unfold get_list. by rewrite Ha.
  - rewrite lookup_when_keeps by keep_key. by rewrite app_nil_r.
Qed.

Lemma flags_python_files_lookup files (a : dict) l :
  a !! "python_files" = Some (VList l) ->
  fold_left App.flag_step files a !! "python_files" =
  Some (VList (l ++ List.filter is_python files)).
Proof.
  revert a l. induction files as [|f files IH]; intros a l Ha; simpl.
  - by rewrite app_nil_r.
  - rewrite (IH _ _ (flag_step_python_files_lookup a f l Ha)), <- app_assoc.
    by destruct (is_python f).
Qed.

(** X4: 'python_files' holds the Python files of the list, as written and in
    list order, and 'has_python' says whether there is one. *)
Theorem python_files_keep_list_order files path read :
  App.detect_project_type files path read !! "python_files" =
    Some (VList (List.filter is_python files)) /\
  NetlifyAi.detect_project_type files read !! "python_files" =
    Some (VList (List.filter is_python files)) /\
  (App.detect_project_type files path read !! "has_python" = Some (VBool true) <->
   List.filter is_python files <> []).
Proof.
  rewrite app_detect_keeps_flag, wizard_detect_keeps_flag
    by (rewrite !not_elem_of_cons; repeat split; (done || apply not_elem_of_nil)).
  rewrite !(flags_python_files_lookup files _ []) by done.
  split; [done|]. split; [done|].
  rewrite app_detect_keeps_flag
    by (rewrite !not_elem_of_cons; repeat split; (done || apply not_elem_of_nil)).
  rewrite (flags_from_initial files _ "has_python" is_python);
    [|by repeat constructor|done].
  induction files as [|f files IH]; simpl; [done|].
  destruct (is_python f); simpl; [done|apply IH].
Qed.

End ClassifierProperties.

Section FunctionsDirSet.
Import Str.

Lemma functions_index_some parts i x :
  x ∈ parts -> contains "functions" (lower x) = true ->
  exists j, App.functions_index parts i = Some j.
Proof.
  revert i. induction parts as [|y parts IH]; intros i Hin Hx.
  - by apply elem_of_nil in Hin.
  - simpl. destruct (contains "functions" (lower y)) eqn:E; [eauto|].
    apply elem_of_cons in Hin as [->|Hin]; [congruence|]. by apply IH.
Qed.

(** A prefix without the separator lies in the first piece. *)
Lemma startswith_split_head sep kw s :
  contains (String sep EmptyString) kw = false -> startswith kw s = true ->
  exists h r, split sep s = h :: r /\ startswith kw h = true.
Proof.
  revert s. induction kw as [|k kw IH]; intros s Hk Hs.
  - destruct (split sep s) as [|h r] eqn:E; [by apply split_not_nil in E|]. by exists h, r.
  - apply no_char_cons in Hk as [Hk Hkw].
    destruct s as [|c s]; [done|]. simpl in Hs. apply andb_true_iff in Hs as [Hc Hs].
    apply Ascii.eqb_eq in Hc as <-.
    destruct (IH s Hkw Hs) as (h & r & E & Hh).
    exists (String k h), r. simpl. rewrite Hk, E. split; [done|].
    by rewrite Ascii.eqb_refl.
Qed.

(** A substring without the separator lies in one piece. *)
Lemma contains_split sep kw s :
  contains (String sep EmptyString) kw = false -> contains kw s = true ->
  exists piece, piece ∈ split sep s /\ contains kw piece = true.
Proof.
  intros Hk. induction s as [|c s IH]; rewrite contains_unfold, orb_true_iff.
  - intros [Hs|?]; [|done]. exists EmptyString. split; [by left|].
    by rewrite contains_unfold, Hs.
  - intros [Hs|Hs].
    + destruct (startswith_split_head sep kw _ Hk Hs) as (h & r & E & Hh).
      exists h. rewrite E. split; [by left|]. by rewrite contains_unfold, Hh.
    + destruct (IH Hs) as (piece & Hin & Hp). simpl.
      destruct (Ascii.eqb c sep); [exists piece; split; [by right|done]|].
      destruct (split sep s) as [|h r]; [by apply elem_of_nil in Hin|].
      apply elem_of_cons in Hin as [->|Hin].
      * exists (String c h). split; [by left|].
        by apply (contains_within kw (String c EmptyString) h EmptyString) in Hp;
          rewrite app_empty_r in Hp.
      * exists piece. split; [by right|done].
Qed.

Lemma lower_char_slash c : Ascii.eqb (lower_char c) slash = Ascii.eqb c slash.
Proof. by destruct c as [[] [] [] [] [] [] [] []]. Qed.

Lemma split_lower s : split slash (lower s) = map lower (split slash s).
Proof.
  induction s as [|c s IH]; [done|]. simpl. rewrite lower_char_slash, IH.
  destruct (Ascii.eqb c slash); [done|]. by destruct (split slash s).
Qed.

Lemma contains_functions_skip_slash s :
  contains "functions" (String slash s) = contains "functions" s.
Proof. by rewrite contains_unfold. Qed.

(** A path that mentions 'functions' has a part that does. *)
Lemma parts_mention_functions f :
  contains "functions" (lower f) = true ->
  exists part, part ∈ PosixPath.parts f /\ contains "functions" (lower part) = true.
Proof.
  intros Hf. unfold PosixPath.parts, PosixPath.parse_path.
  destruct (String.eqb f EmptyString) eqn:Ef.
  { apply eqb_true in Ef as ->. done. }
  destruct (PosixPath.splitroot f) as [root rel] eqn:Er.
  assert (contains "functions" (lower rel) = true) as Hrel.
  { unfold PosixPath.splitroot in Er.
    repeat case_match; simplify_eq; try done;
      repeat match goal with
             | E : Ascii.eqb _ _ = true |- _ => apply Ascii.eqb_eq in E; subst
             end;
      cbn [lower] in Hf; change (lower_char slash) with slash in Hf;
      by rewrite ?contains_functions_skip_slash in Hf. }
  destruct (contains_split slash "functions" (lower rel)) as (piece & Hin & Hp);
    [done|done|].
  rewrite split_lower in Hin. apply list_elem_of_fmap in Hin as (part & -> & Hin).
  assert (part ∈ List.filter PosixPath.keep_part (split slash rel)) as Hkept.
  { apply list_elem_of_In, filter_In. split; [by apply list_elem_of_In|].
    unfold PosixPath.keep_part.
    destruct (String.eqb part EmptyString) eqn:E1; [by apply eqb_true in E1 as ->|].
    destruct (String.eqb part ".") eqn:E2; [by apply eqb_true in E2 as ->|done]. }
  exists part. split; [|done].
  destruct (String.eqb root EmptyString); [done|by right].
Qed.

Lemma functions_dir_of_set f :
  contains "functions" (lower f) = true ->
  exists d, functions_dir_of f = VStr d /\ d <> EmptyString.
Proof.
  intros (part & Hin & Hp)%parts_mention_functions.
  unfold functions_dir_of. cbv zeta.
  destruct (functions_index_some _ 0 _ Hin Hp) as [j ->].
  eexists. split; [done|].
  unfold PosixPath.str_of_segments, PosixPath.path_str.
  destruct (PosixPath.parse_path _) as [root tail].
  destruct (String.eqb _ EmptyString) eqn:E; [done|by apply eqb_false].
Qed.

(** X5: 'functions_dir' is set exactly when the first Python file whose path
    mentions 'functions' or 'netlify' mentions 'functions'; it is then a
    non-empty string, so the truth test the wizard applies to it tells set
    from unset.  This holds for paths of any shape. *)
Theorem functions_dir_set_iff_first_match_mentions_functions files path read :
  (App.detect_project_type files path read !! "functions_dir" <> Some VNone <->
   exists f, first_qualifying files = Some f /\ contains "functions" (lower f) = true) /\
  (App.detect_project_type files path read !! "functions_dir" = Some VNone \/
   exists d, App.detect_project_type files path read !! "functions_dir" = Some (VStr d) /\
             d <> EmptyString) /\
  NetlifyAi.detect_project_type files read !! "functions_dir" =
    App.detect_project_type files path read !! "functions_dir".
Proof.
  rewrite app_detect_functions_dir, wizard_detect_functions_dir.
  unfold functions_dir_value.
  destruct (first_qualifying files) as [f|]; [|split; [|by split; [left|]]].
  - destruct (contains "functions" (lower f)) eqn:E.
    + destruct (functions_dir_of_set f E) as (d & -> & Hd).
      split; [split; [eauto|done]|]. split; [right; eauto|done].
    + rewrite (functions_dir_of_none f E).
      split; [split; [done|]|by split; [left|]]. intros (f' & [= <-] & Hf). congruence.
  - split; [done|]. by intros (f' & [=] & _).
Qed.

End FunctionsDirSet.

(** * More about the environment-variable inference *)

Section MoreEnvVars.
Import Str.

Lemma scan_with_inv pats content (X : gset string) v :
  v ∈ scan_with pats content X ->
  v ∈ X \/ exists kws kw, (v, kws) ∈ pats /\ kw ∈ kws /\ contains kw content = true.
Proof.
  unfold scan_with. revert X.
  induction pats as [|[name kws0] pats IH]; intros X; [by left|].
  cbn [fold_left fst snd]. intros [Hv|(kws & kw & Hin & Hkw & Hc)]%IH.
  - destruct (existsb _ kws0) eqn:E; [|by left].
    apply elem_of_union in Hv as [Hv|Hv]; [|by left].
    apply elem_of_singleton in Hv as ->.
    apply existsb_exists in E as (kw & Hkw%list_elem_of_In & Hc).
    right. exists kws0, kw. split; [by left|done].
  - right. exists kws, kw. split; [by right|done].
Qed.

Lemma env_vars_with_inv pats files read (X : gset string) v :
  v ∈ env_vars_with pats files read X ->
  v ∈ X \/
  exists file text kws kw,
    file ∈ files /\ endswith_any [".py"; ".js"; ".ts"; ".jsx"; ".tsx"] file = true /\
    read file = Some text /\ (v, kws) ∈ pats /\ kw ∈ kws /\
    contains kw (lower text) = true.
Proof.
  unfold env_vars_with. revert X. induction files as [|f files IH]; intros X; [by left|].
  cbn [fold_left]. intros [Hv|(file & text & kws & kw & Hin & H)]%IH.
  - destruct (endswith_any _ f) eqn:Ef; [|by left].
    destruct (read f) as [text|] eqn:Er; [|by left].
    apply scan_with_inv in Hv as [Hv|(kws & kw & H)]; [by left|].
    right. exists f, text, kws, kw. split; [by left|done].
  - right. exists file, text, kws, kw. split; [by right|done].
Qed.

(** X6: when the listed files that can be read hold 7-bit ASCII text, a
    variable is reported exactly when some listed file ends in one of the
    five source suffixes (as written, no case folding), can be read, and its
    lower-cased text holds one of the keywords of that variable.  Files with
    another suffix and files that cannot be read contribute nothing. *)
Theorem env_var_reported_iff_keyword_in_source_file files read v :
  (forall file text, file ∈ files -> read file = Some text -> is_ascii text = true) ->
  (v ∈ App._detect_env_vars files read <->
   exists file text kws kw,
     file ∈ files /\ endswith_any [".py"; ".js"; ".ts"; ".jsx"; ".tsx"] file = true /\
     read file = Some text /\ (v, kws) ∈ App.patterns /\ kw ∈ kws /\
     contains kw (lower text) = true) /\
  (v ∈ NetlifyAi._detect_env_vars files read <->
   exists file text kws kw,
     file ∈ files /\ endswith_any [".py"; ".js"; ".ts"; ".jsx"; ".tsx"] file = true /\
     read file = Some text /\ (v, kws) ∈ NetlifyAi.patterns /\ kw ∈ kws /\
     contains kw (lower text) = true).
Proof.
  intros _.
  unfold App._detect_env_vars, NetlifyAi._detect_env_vars.
  rewrite !elem_of_elements, app_env_var_set_with, wizard_env_var_set_with.
  split; split.
  - intros [Hv|H]%env_vars_with_inv; [by apply elem_of_empty in Hv|done].
  - intros (file & text & kws & kw & ? & ? & ? & ? & ? & ?).
    by eapply env_vars_with_hit.
  - intros [Hv|H]%env_vars_with_inv; [by apply elem_of_empty in Hv|done].
  - intros (file & text & kws & kw & ? & ? & ? & ? & ? & ?).
    by eapply env_vars_with_hit.
Qed.

Lemma env_var_reported_iff_keyword_in_source_file_witness :
  "GOOGLE_API_KEY" ∈ NetlifyAi._detect_env_vars ["src/Chat.TS"; "lib/chat.ts"]
    (fun file => if String.eqb file "lib/chat.ts" then Some "import { Gemini } from 'sdk'"
                 else Some "import openai") <->
  exists file text kws kw,
    file ∈ ["src/Chat.TS"; "lib/chat.ts"] /\
    endswith_any [".py"; ".js"; ".ts"; ".jsx"; ".tsx"] file = true /\
    (if String.eqb file "lib/chat.ts" then Some "import { Gemini } from 'sdk'"
     else Some "import openai") = Some text /\
    ("GOOGLE_API_KEY", kws) ∈ NetlifyAi.patterns /\ kw ∈ kws /\
    contains kw (lower text) = true.
Proof.
  destruct (env_var_reported_iff_keyword_in_source_file
              ["src/Chat.TS"; "lib/chat.ts"]
              (fun file => if String.eqb file "lib/chat.ts"
                           then Some "import { Gemini } from 'sdk'"
                           else Some "import openai")
              "GOOGLE_API_KEY") as [_ Hwizard].
  - intros file text _. by destruct (String.eqb file "lib/chat.ts"); intros [= <-].
  - exact Hwizard.
Defined.

Lemma env_vars_with_perm pats files files' read v :
  files ≡ₚ files' ->
  v ∈ env_vars_with pats files read ∅ -> v ∈ env_vars_with pats files' read ∅.
Proof.
  intros Hp [Hv|(file & text & kws & kw & Hin & H)]%env_vars_with_inv.
  - by apply elem_of_empty in Hv.
  - rewrite Hp in Hin. destruct H as (? & ? & ? & ? & ?). by eapply env_vars_with_hit.
Qed.

Lemma existsb_perm {A} (test : A -> bool) (l l' : list A) :
  l ≡ₚ l' -> existsb test l = existsb test l'.
Proof.
  induction 1 as [|x l l' _ IH|x y l|l1 l2 l3 _ IH1 _ IH2]; simpl.
  - done.
  - by rewrite IH.
  - by rewrite !orb_assoc, (orb_comm (test x)).
  - by rewrite IH1.
Qed.

(** X7: the order in which the scanner lists the files has no influence on
    the type, the build command, the Boolean keys and the set of reported
    variables.  (It has on 'python_files' and 'functions_dir'.) *)
Theorem classification_ignores_file_order files files' path read :
  files ≡ₚ files' ->
  App.detect_project_type files path read !! "type" =
    App.detect_project_type files' path read !! "type" /\
  App.detect_project_type files path read !! "build_command" =
    App.detect_project_type files' path read !! "build_command" /\
  (forall k test, (k, test) ∈ flag_tests ->
     App.detect_project_type files path read !! k =
     App.detect_project_type files' path read !! k) /\
  (forall v, v ∈ App._detect_env_vars files read <->
             v ∈ App._detect_env_vars files' read) /\
  NetlifyAi.detect_project_type files read !! "type" =
    NetlifyAi.detect_project_type files' read !! "type" /\
  (forall v, v ∈ NetlifyAi._detect_env_vars files read <->
             v ∈ NetlifyAi._detect_env_vars files' read).
Proof.
  intros Hp.
  rewrite !app_detect_type, !app_detect_build_command, !wizard_detect_type.
  unfold type_of, build_command_value.
  rewrite (existsb_perm is_manifest _ _ Hp), (existsb_perm is_python _ _ Hp).
  split; [done|]. split; [done|]. split.
  { intros k test Hk. destruct (flag_tests_step _ _ Hk) as (_ & Hkeep%bool_decide_eq_false & _).
    destruct (flag_tests_initial _ _ files path Hk) as [Ha _].
    destruct (flag_tests_initial _ _ files' path Hk) as [Ha' _].
    rewrite !app_detect_keeps_flag by done.
    rewrite (flags_from_initial files _ k test), (flags_from_initial files' _ k test) by done.
    by rewrite (existsb_perm test _ _ Hp). }
  unfold App._detect_env_vars, NetlifyAi._detect_env_vars.
  split; [|split; [done|]]; intros v;
    rewrite !elem_of_elements, ?app_env_var_set_with, ?wizard_env_var_set_with;
    split; by apply env_vars_with_perm.
Qed.

Lemma classification_ignores_file_order_witness :
  ["api/a.py"; "package.json"] ≡ₚ ["package.json"; "api/a.py"] /\
  App.detect_project_type ["api/a.py"; "package.json"] "/srv/site" (fun _ => None) !! "type" =
    App.detect_project_type ["package.json"; "api/a.py"] "/srv/site" (fun _ => None) !! "type".
Proof.
  assert (["api/a.py"; "package.json"] ≡ₚ ["package.json"; "api/a.py"]) as Hp
    by apply perm_swap.
  split; [exact Hp|].
  apply (classification_ignores_file_order _ _ "/srv/site" (fun _ => None) Hp).
Defined.

(** The order does matter for the functions directory. *)
Remark functions_dir_depends_on_file_order :
  App.detect_project_type ["a/functions/x.py"; "b/functions/y.py"] "/srv/site"
    (fun _ => None) !! "functions_dir" = Some (VStr "a/functions") /\
  App.detect_project_type ["b/functions/y.py"; "a/functions/x.py"] "/srv/site"
    (fun _ => None) !! "functions_dir" = Some (VStr "b/functions").
Proof. by vm_compute. Qed.

End MoreEnvVars.

(** * More about the generators *)

Section MoreGenerators.
Import Str.

Lemma mem_spec name l : App.mem name l = true <-> name ∈ l.
Proof.
  unfold App.mem. rewrite existsb_exists. split.
  - by intros (x & Hin%list_elem_of_In & ->%eqb_true).
  - intros Hin. exists name. split; [by apply list_elem_of_In | by apply eqb_true].
Qed.

Lemma mem_agree name l l' : (name ∈ l <-> name ∈ l') -> App.mem name l = App.mem name l'.
Proof.
  intros H. destruct (App.mem name l) eqn:E, (App.mem name l') eqn:E'; try done.
  - apply mem_spec, H, mem_spec in E. congruence.
  - apply mem_spec, H, mem_spec in E'. congruence.
Qed.

(** X8: the dependency list depends only on which of the three names
    'OPENAI_API_KEY', 'GOOGLE_API_KEY', 'ANTHROPIC_API_KEY' occur in the
    variable list, not on their order, their number of occurrences or any
    other name.  The unspecified order of [list(env_vars)] therefore does not
    show in 'requirements.txt'. *)
Theorem requirements_depend_on_membership_only l l' :
  (forall name, name ∈ package_names -> (name ∈ l <-> name ∈ l')) ->
  App.generate_requirements l = App.generate_requirements l' /\
  NetlifyAi.generate_requirements (<["env_vars_needed" := VList l]> ∅) =
    NetlifyAi.generate_requirements (<["env_vars_needed" := VList l']> ∅).
Proof.
  intros H.
  assert (App.generate_requirements l = App.generate_requirements l') as Heq.
  { unfold App.generate_requirements.
    rewrite (mem_agree "OPENAI_API_KEY" l l'), (mem_agree "GOOGLE_API_KEY" l l'),
      (mem_agree "ANTHROPIC_API_KEY" l l'); [done|apply H; by repeat constructor..]. }
  split; [done|].
  change (NetlifyAi.generate_requirements (<["env_vars_needed" := VList l]> ∅)) with
    (App.generate_requirements (get_list (<["env_vars_needed" := VList l]> ∅) "env_vars_needed")).
  change (NetlifyAi.generate_requirements (<["env_vars_needed" := VList l']> ∅)) with
    (App.generate_requirements (get_list (<["env_vars_needed" := VList l']> ∅) "env_vars_needed")).
  by rewrite !get_list_insert.
Qed.

Lemma requirements_depend_on_membership_only_witness :
  App.generate_requirements ["SECRET_KEY"; "OPENAI_API_KEY"; "OPENAI_API_KEY"] =
  App.generate_requirements ["OPENAI_API_KEY"; "DATABASE_URL"].
Proof.
  apply (requirements_depend_on_membership_only
           ["SECRET_KEY"; "OPENAI_API_KEY"; "OPENAI_API_KEY"]
           ["OPENAI_API_KEY"; "DATABASE_URL"]).
  intros name Hn. unfold package_names in Hn. rewrite !elem_of_cons, elem_of_nil in Hn.
  destruct Hn as [->|[->|[->|[]]]]; rewrite !elem_of_cons, !elem_of_nil; split;
    intros H; destruct_or?; try done; auto.
Defined.


(** *** The environment template *)

Lemma lower_char_nl c : Ascii.eqb (lower_char c) nl = Ascii.eqb c nl.
Proof. by destruct c as [[] [] [] [] [] [] [] []]. Qed.

Lemma lower_single_line v :
  contains newline (lower v) = false <-> contains newline v = false.
Proof.
  change newline with (String nl EmptyString).
  induction v as [|c v IH]; [done|]. cbn [lower].
  by rewrite !no_char_cons, lower_char_nl, IH.
Qed.

Lemma assignment_single_line v :
  contains newline v = false -> contains newline (assignment v) = false.
Proof.
  intros Hv. unfold assignment. change newline with (String nl EmptyString) in *.
  rewrite !no_char_app. repeat split; try done. by apply lower_single_line.
Qed.

Lemma assignment_is_assignment_line v :
  startswith "#" v = false -> is_assignment_line (assignment v) = true.
Proof.
  intros Hv. unfold is_assignment_line, assignment.
  destruct v as [|c v]; [done|]. rewrite app_cons.
  change (startswith "#" (String c ?t)) with (Ascii.eqb "#" c && true).
  change (startswith "#" (String c v)) with (Ascii.eqb "#" c && true) in Hv.
  by rewrite Hv.
Qed.

Lemma comment_is_no_assignment_line d :
  startswith "#" d = true -> is_assignment_line d = false.
Proof. intros Hd. unfold is_assignment_line. by rewrite Hd. Qed.

Lemma app_descriptions_comments :
  map_Forall (fun _ d => comment_line d) App.descriptions.
Proof.
  unfold App.descriptions. repeat (apply map_Forall_insert_2; [by split|]).
  apply map_Forall_empty.
Qed.

Lemma wizard_descriptions_comments :
  map_Forall (fun _ d => comment_line d) NetlifyAi.descriptions.
Proof.
  unfold NetlifyAi.descriptions. repeat (apply map_Forall_insert_2; [by split|]).
  apply map_Forall_empty.
Qed.

Lemma env_lines_with_single descs vars :
  map_Forall (fun _ d => comment_line d) descs ->
  Forall (fun v => single_line v = true) vars ->
  Forall (fun x => contains (String nl EmptyString) x = false) (env_lines_with descs vars).
Proof.
  intros Hd Hv. unfold env_lines_with.
  apply Forall_app. split; [by repeat constructor|].
  apply Forall_app. split; [|by repeat constructor].
  induction Hv as [|v vars Hv%single_line_spec Hvs IH]; [constructor|].
  cbn [flat_map]. apply Forall_app. split; [|done].
  apply Forall_app. split.
  - destruct (descs !! v) as [d|] eqn:E; [|constructor].
    repeat constructor. by destruct (Hd _ _ E).
  - repeat constructor. by apply assignment_single_line.
Qed.

Lemma env_lines_with_assignments descs vars :
  map_Forall (fun _ d => comment_line d) descs ->
  Forall (fun v => startswith "#" v = false) vars ->
  List.filter is_assignment_line (env_lines_with descs vars) = map assignment vars.
Proof.
  intros Hd Hv. unfold env_lines_with.
  rewrite !List.filter_app.
  assert (List.filter is_assignment_line
            ["# 環境變數範例"; "# 複製此檔案為 .env 並填入真實的值"; EmptyString] = []) as ->
    by reflexivity.
  assert (List.filter is_assignment_line ["# 注意：永遠不要將 .env 檔案上傳到 Git！"] = [])
    as -> by reflexivity.
  rewrite app_nil_r, app_nil_l.
  induction Hv as [|v vars Hv Hvs IH]; [done|].
  cbn [flat_map map]. rewrite !List.filter_app, IH.
  assert (List.filter is_assignment_line
            (match descs !! v with Some d => [d] | None => [] end) = []) as ->.
  { destruct (descs !! v) as [d|] eqn:E; [|done]. destruct (Hd _ _ E) as [Hc _].
    cbn [List.filter]. by rewrite comment_is_no_assignment_line. }
  cbn [List.filter app]. fold (assignment v).
  by rewrite assignment_is_assignment_line.
Qed.

Lemma env_example_split descs vars :
  map_Forall (fun _ d => comment_line d) descs ->
  Forall (fun v => single_line v = true) vars ->
  split nl (join newline (env_lines_with descs vars)) = env_lines_with descs vars.
Proof.
  intros Hd Hv. apply split_join_char; [done|]. by apply env_lines_with_single.
Qed.

(** X10: for 7-bit ASCII variable names that hold no line break and do not
    start with '#', the lines of the environment template that are neither
    blank nor comments are the assignments [NAME=your_name_here], one for
    each given name, in the order given and with repetitions kept. *)
Theorem env_example_assigns_each_variable_in_order vars :
  forallb is_ascii vars = true ->
  Forall (fun v => single_line v = true) vars ->
  Forall (fun v => startswith "#" v = false) vars ->
  List.filter is_assignment_line (split nl (App.generate_env_example vars)) =
    map assignment vars /\
  List.filter is_assignment_line (split nl (NetlifyAi.generate_env_example vars)) =
    map assignment vars.
Proof.
  intros _ H1 H2.
  change (App.generate_env_example vars) with
    (join newline (env_lines_with App.descriptions vars)).
  change (NetlifyAi.generate_env_example vars) with
    (join newline (env_lines_with NetlifyAi.descriptions vars)).
  rewrite !env_example_split
    by (done || apply app_descriptions_comments || apply wizard_descriptions_comments).
  split; apply env_lines_with_assignments;
    (done || apply app_descriptions_comments || apply wizard_descriptions_comments).
Qed.

Lemma env_example_assigns_each_variable_in_order_witness :
  List.filter is_assignment_line
    (split nl (App.generate_env_example ["SECRET_KEY"; "MY_TOKEN"; "SECRET_KEY"])) =
  ["SECRET_KEY=your_secret_key_here"; "MY_TOKEN=your_my_token_here";
   "SECRET_KEY=your_secret_key_here"].
Proof.
  apply (env_example_assigns_each_variable_in_order ["SECRET_KEY"; "MY_TOKEN"; "SECRET_KEY"]);
    [reflexivity|by repeat constructor..].
Defined.

(** *** The sections of the manifest *)

(** X11: for arguments without line breaks the manifest opens with '[build]'
    and has exactly one 'publish' line; it has a 'functions' line exactly for
    a non-empty functions directory and a 'command' line exactly for a
    non-empty build command.  This holds of the web entry point and, for an
    analysis that has the key 'has_python', of the wizard.  The web entry
    point pins the Python version ('[build.environment]') whenever the
    functions directory is non-empty; the wizard ('[functions]') only if in
    addition 'has_python' is true in the analysis. *)
Theorem manifest_sections_follow_arguments analysis publish_dir functions_dir
    build_command python_version :
  single_line publish_dir = true -> single_line_opt functions_dir = true ->
  single_line_opt build_command = true -> single_line python_version = true ->
  (head (split nl (App.generate_netlify_toml publish_dir functions_dir build_command
                     python_version)) = Some "[build]" /\
   count_lines_where (startswith "  publish = ")
     (App.generate_netlify_toml publish_dir functions_dir build_command python_version) = 1 /\
   count_lines_where (startswith "  functions = ")
     (App.generate_netlify_toml publish_dir functions_dir build_command python_version) =
     (if truthy functions_dir then 1 else 0) /\
   count_lines_where (startswith "  command = ")
     (App.generate_netlify_toml publish_dir functions_dir build_command python_version) =
     (if truthy build_command then 1 else 0) /\
   count_line "[build.environment]"
     (App.generate_netlify_toml publish_dir functions_dir build_command python_version) =
     (if truthy functions_dir then 1 else 0)) /\
  (forall has_python, analysis !! "has_python" = Some has_python ->
   exists text,
     NetlifyAi.generate_netlify_toml analysis publish_dir functions_dir build_command
       python_version = Some text /\
     head (split nl text) = Some "[build]" /\
     count_lines_where (startswith "  publish = ") text = 1 /\
     count_lines_where (startswith "  functions = ") text =
       (if truthy functions_dir then 1 else 0) /\
     count_lines_where (startswith "  command = ") text =
       (if truthy build_command then 1 else 0) /\
     count_line "[functions]" text =
       (if truth has_python && truthy functions_dir then 1 else 0)).
Proof.
  intros Hp Hf Hb Hv. split.
  - unfold count_line, count_lines_where. rewrite web_manifest_lines by done.
    unfold App.netlify_toml_lines, App.when_set, truthy.
    destruct functions_dir as [d|], build_command as [c|];
      try destruct (String.eqb d EmptyString); try destruct (String.eqb c EmptyString);
      vm_compute; repeat split.
  - intros has_python Hkey. eexists. split; [by apply wizard_manifest_text|].
    unfold count_line, count_lines_where. rewrite wizard_manifest_lines by done.
    unfold NetlifyAi.netlify_toml_lines, NetlifyAi.when_set, truthy.
    destruct (truth has_python);
      destruct functions_dir as [d|], build_command as [c|];
      try destruct (String.eqb d EmptyString); try destruct (String.eqb c EmptyString);
      vm_compute; repeat split.
Qed.

Lemma manifest_sections_follow_arguments_witness :
  exists text,
    NetlifyAi.generate_netlify_toml (<["has_python" := VBool false]> ∅) "."
      (Some "netlify/functions") None "3.10" = Some text /\
    count_lines_where (startswith "  functions = ") text = 1 /\
    count_line "[functions]" text = 0.
Proof.
  assert ((<["has_python" := VBool false]> ∅ : dict) !! "has_python" = Some (VBool false))
    as Hkey by (vm_compute; reflexivity).
  destruct (manifest_sections_follow_arguments (<["has_python" := VBool false]> ∅)
              "." (Some "netlify/functions") None "3.10"
              eq_refl eq_refl eq_refl eq_refl) as [_ Hwizard].
  destruct (Hwizard (VBool false) Hkey)
    as (text & Htext & _ & _ & Hfunctions & _ & Hsection).
  exists text. by split.
Defined.

End MoreGenerators.

(** * More about the deploy handlers *)

Section MoreDeploy.
Import Str.

Lemma scan_unrecognized ls st :
  Forall (fun l => recognized l = false) ls -> fold_left App.url_step ls st = st.
Proof.
  intros H. revert st. induction H as [|l ls Hl _ IH]; intros st; [done|].
  simpl. by rewrite url_step_unrecognized, IH.
Qed.

Lemma existsb_false_Forall {A} (test : A -> bool) l :
  existsb test l = false <-> Forall (fun x => test x = false) l.
Proof.
  induction l as [|x l IH]; simpl; [by split; [constructor|]|].
  rewrite orb_false_iff, IH, Forall_cons. tauto.
Qed.

Lemma deploy_url_found p line :
  line ∈ split nl (all_output p) -> recognized line = true ->
  exists u, App.r_url (App.deploy p) = Some u /\ u <> EmptyString.
Proof.
  intros Hin Hr. unfold App.deploy. cbv zeta. fold (all_output p).
  pose proof (scan_finds _ (None, None) _ Hin Hr) as Hfound.
  destruct (scan_from_lines (split nl (all_output p)) (split nl (all_output p))
              (None, None)) as [H1 H2]; [done..|].
  destruct (fold_left App.url_step (split nl (all_output p)) (None, None))
    as [url deploy_url]. simpl in *.
  unfold por, truthy. destruct url as [u|].
  - destruct (H1 u eq_refl) as [Hne _].
    apply eqb_false in Hne as Hb. rewrite Hb. simpl. eauto.
  - destruct Hfound as [[? [=]]|[u ->]]. destruct (H2 u eq_refl). eauto.
Qed.

Lemma deploy_url_none p :
  existsb recognized (split nl (all_output p)) = false ->
  App.r_url (App.deploy p) = None /\
  App.r_success (App.deploy p) = App.success (App.run_command p).
Proof.
  intros H%existsb_false_Forall. unfold App.deploy. cbv zeta. fold (all_output p).
  rewrite scan_unrecognized by done. simpl.
  rewrite andb_false_r. split; [done|]. apply orb_false_r.
Qed.

(** X12: for 7-bit ASCII output the web deploy handler reports success
    exactly when the tool exited with code 0 or some line of stdout plus
    stderr is recognized, and it reports a URL exactly when some line is
    recognized.  The check for the 'unsettled top-level await' warning never
    changes the answer. *)
Theorem web_deploy_success_is_exit_code_or_recognized_line p :
  is_ascii (all_output p) = true ->
  App.r_success (App.deploy p) =
    App.success (App.run_command p) || existsb recognized (split nl (all_output p)) /\
  (App.r_url (App.deploy p) = None <->
   existsb recognized (split nl (all_output p)) = false).
Proof.
  intros _.
  destruct (existsb recognized (split nl (all_output p))) eqn:E.
  - apply existsb_exists in E as (line & Hin%list_elem_of_In & Hr).
    destruct (deploy_url_found p line Hin Hr) as (u & Hu & Hne).
    split; [|by rewrite Hu]. rewrite orb_true_r. revert Hu.
    unfold App.deploy. cbv zeta.
    destruct (fold_left _ _ _) as [url deploy_url]. simpl. intros ->.
    rewrite bool_decide_eq_true_2 by done. rewrite orb_true_r. by destruct (_ && _).
  - destruct (deploy_url_none p E) as [-> ->]. by rewrite orb_false_r.
Qed.

Lemma web_deploy_success_is_exit_code_or_recognized_line_witness :
  App.r_success
    (App.deploy (Exited 1 "Deploy URL: https://x.netlify.app" "npm ERR! code 1")) =
    App.success (App.run_command
                   (Exited 1 "Deploy URL: https://x.netlify.app" "npm ERR! code 1")) ||
    existsb recognized
      (split nl (all_output
                   (Exited 1 "Deploy URL: https://x.netlify.app" "npm ERR! code 1"))) /\
  (App.r_url
     (App.deploy (Exited 1 "Deploy URL: https://x.netlify.app" "npm ERR! code 1")) = None <->
   existsb recognized
     (split nl (all_output
                  (Exited 1 "Deploy URL: https://x.netlify.app" "npm ERR! code 1"))) = false).
Proof.
  exact (web_deploy_success_is_exit_code_or_recognized_line
           (Exited 1 "Deploy URL: https://x.netlify.app" "npm ERR! code 1") eq_refl).
Defined.

(** *** Which line wins *)

Lemma url_step_sets st line :
  App.url_step st line =
  (match sets_url line with Some u => Some u | None => st.1 end,
   match sets_deploy_url line with Some w => Some w | None => st.2 end).
Proof.
  unfold App.url_step, sets_url, sets_deploy_url. cbv zeta. destruct st as [url deploy_url].
  destruct (contains "website" (lower line) && contains "url" (lower line)).
  { by destruct (last (words line)). }
  destruct (contains "deploy" (lower line) && contains "url" (lower line)).
  { by destruct (last (words line)). }
  destruct (contains "https://" line && contains "netlify" line); [|done].
  by destruct (Re.search App.netlify_url_re line).
Qed.

Lemma scan_url_untouched ls st :
  Forall (fun l => sets_url l = None) ls -> (fold_left App.url_step ls st).1 = st.1.
Proof.
  intros H. revert st. induction H as [|l ls Hl _ IH]; intros st; [done|].
  simpl. rewrite IH, url_step_sets, Hl. done.
Qed.

Lemma scan_deploy_url_untouched ls st :
  Forall (fun l => sets_deploy_url l = None) ls ->
  (fold_left App.url_step ls st).2 = st.2.
Proof.
  intros H. revert st. induction H as [|l ls Hl _ IH]; intros st; [done|].
  simpl. rewrite IH, url_step_sets, Hl. done.
Qed.

Lemma scan_last_url pre l post st u :
  sets_url l = Some u -> Forall (fun l' => sets_url l' = None) post ->
  (fold_left App.url_step (pre ++ l :: post) st).1 = Some u.
Proof.
  intros Hl Hpost. rewrite fold_left_app. simpl.
  rewrite scan_url_untouched by done. by rewrite url_step_sets, Hl.
Qed.

Lemma scan_last_deploy_url pre l post st w :
  sets_deploy_url l = Some w -> Forall (fun l' => sets_deploy_url l' = None) post ->
  (fold_left App.url_step (pre ++ l :: post) st).2 = Some w.
Proof.
  intros Hl Hpost. rewrite fold_left_app. simpl.
  rewrite scan_deploy_url_untouched by done. by rewrite url_step_sets, Hl.
Qed.

Lemma sets_url_nonempty line u : sets_url line = Some u -> u <> EmptyString.
Proof.
  unfold sets_url.
  destruct (contains "website" (lower line)) eqn:Ew; simpl.
  - destruct (contains "url" (lower line)); simpl.
    + intros Hu. destruct (keyword_line_last_word "website" line) as (w & Hw & Hne);
        [done..|]. congruence.
    + destruct (contains "deploy" (lower line)); simpl.
      * destruct (contains "https://" line && contains "netlify" line); [|done].
        apply netlify_url_nonempty.
      * destruct (contains "https://" line && contains "netlify" line); [|done].
        apply netlify_url_nonempty.
  - destruct (contains "deploy" (lower line) && contains "url" (lower line)); [done|].
    destruct (contains "https://" line && contains "netlify" line); [|done].
    apply netlify_url_nonempty.
Qed.

(** X13: for 7-bit ASCII output the web handler lets later lines overwrite
    earlier ones and prefers [url] to [deploy_url].  The reported URL is the
    one taken from the last line that writes [url] (a 'website ... url' line
    or a pattern match); only when no line writes [url] is it the one from
    the last 'deploy ... url' line. *)
Theorem web_deploy_reports_last_url p :
  is_ascii (all_output p) = true ->
  (forall pre l post u,
     split nl (all_output p) = pre ++ l :: post ->
     sets_url l = Some u -> Forall (fun l' => sets_url l' = None) post ->
     App.r_url (App.deploy p) = Some u) /\
  (forall pre l post w,
     split nl (all_output p) = pre ++ l :: post ->
     Forall (fun l' => sets_url l' = None) (split nl (all_output p)) ->
     sets_deploy_url l = Some w -> Forall (fun l' => sets_deploy_url l' = None) post ->
     App.r_url (App.deploy p) = Some w).
Proof.
  intros _. split.
  - intros pre l post u Hsplit Hl Hpost.
    pose proof (scan_last_url pre l post (None, None) u Hl Hpost) as Hurl.
    unfold App.deploy. cbv zeta. fold (all_output p). rewrite Hsplit.
    destruct (fold_left _ _ _) as [url deploy_url]. simpl in *. subst url.
    unfold por, truthy. apply sets_url_nonempty, eqb_false in Hl. by rewrite Hl.
  - intros pre l post w Hsplit Hnone Hl Hpost.
    pose proof (scan_url_untouched _ (None, None) Hnone) as Hurl.
    pose proof (scan_last_deploy_url pre l post (None, None) w Hl Hpost) as Hdep.
    rewrite <- Hsplit in Hdep.
    unfold App.deploy. cbv zeta. fold (all_output p).
    destruct (fold_left _ _ _) as [url deploy_url]. simpl in *. subst url deploy_url.
    done.
Qed.

Lemma web_deploy_reports_last_url_witness :
  App.r_url
    (App.deploy (Exited 0 "Website URL: https://old.netlify.app
Deploy URL: https://draft--new.netlify.app
Website URL: https://new.netlify.app" EmptyString)) = Some "https://new.netlify.app".
Proof.
  destruct (web_deploy_reports_last_url
              (Exited 0 "Website URL: https://old.netlify.app
Deploy URL: https://draft--new.netlify.app
Website URL: https://new.netlify.app" EmptyString) eq_refl) as [Hlast _].
  apply (Hlast ["Website URL: https://old.netlify.app";
                "Deploy URL: https://draft--new.netlify.app"]
               "Website URL: https://new.netlify.app" [EmptyString]).
  - reflexivity.
  - reflexivity.
  - by repeat constructor.
Defined.

(** *** The wizard's deploys *)

Lemma find_split {A} (test : A -> bool) l x :
  List.find test l = Some x <->
  exists pre post, l = pre ++ x :: post /\ test x = true /\
                   Forall (fun y => test y = false) pre.
Proof.
  induction l as [|y l IH]; simpl.
  - split; [done|]. intros (pre & post & H & _). by destruct pre.
  - destruct (test y) eqn:E.
    + split.
      * intros [= ->]. by exists [], l.
      * intros ([|z pre] & post & H & Hx & Hpre); simplify_eq/=; [done|].
        apply Forall_cons in Hpre as [Hz _]. congruence.
    + rewrite IH. split.
      * intros (pre & post & -> & Hx & Hpre). exists (y :: pre), post.
        split; [done|]. split; [done|]. by constructor.
      * intros ([|z pre] & post & H & Hx & Hpre); simplify_eq/=; [congruence|].
        apply Forall_cons in Hpre as [_ Hpre]. eauto.
Qed.

(** A line that holds a marker with a visible character has a word. *)
Lemma marker_line_last_word m line :
  all_space m = false -> contains m line = true ->
  exists w, last (words line) = Some w /\ w <> EmptyString.
Proof.
  intros Hm (a & b & ->)%contains_spec.
  pose proof (words_nonempty (a +:+ m +:+ b)) as Hall.
  destruct (last (words (a +:+ m +:+ b))) as [w|] eqn:E.
  - exists w. split; [done|].
    rewrite Forall_forall in Hall. apply Hall.
    apply last_Some in E as [l' ->]. apply elem_of_app. right. by left.
  - apply last_None, words_nil_all_space in E.
    rewrite !all_space_app, Hm in E. by rewrite andb_false_r in E.
Qed.

Lemma preview_marker_last_word line :
  preview_marker line = true ->
  exists w, last (words line) = Some w /\ w <> EmptyString.
Proof.
  unfold preview_marker. simpl. rewrite orb_false_r.
  intros [H|H]%orb_true_iff;
    [apply (marker_line_last_word "Website Draft URL")
    |apply (marker_line_last_word "Website draft URL")]; done.
Qed.

(** X14: for 7-bit ASCII stdout the wizard's preview deploy gives a URL
    exactly when the tool exited with code 0 and a line of stdout holds
    'Website Draft URL' or 'Website draft URL'; the URL is then the last word
    of the first such line, and it is not empty.  Stderr is never read. *)
Theorem wizard_preview_takes_first_marker_line p u :
  (forall returncode out err, p = Exited returncode out err -> is_ascii out = true) ->
  NetlifyAi.deploy_preview p = Some u <->
  exists out err pre line post,
    p = Exited 0 out err /\ split nl out = pre ++ line :: post /\
    Forall (fun l => preview_marker l = false) pre /\ preview_marker line = true /\
    last (words line) = Some u /\ u <> EmptyString.
Proof.
  intros _.
  unfold NetlifyAi.deploy_preview, NetlifyAi.scan_stdout.
  fold preview_marker. split.
  - destruct p as [returncode out err|msg]; [|done].
    destruct (Z.eqb returncode 0) eqn:Erc; [|done]. apply Z.eqb_eq in Erc as ->.
    destruct (List.find preview_marker (split nl out)) as [line|] eqn:Ef; [|done].
    apply find_split in Ef as (pre & post & Hs & Hm & Hpre). intros Hu.
    exists out, err, pre, line, post. repeat split; try done.
    destruct (preview_marker_last_word _ Hm) as (w & Hw & Hne). congruence.
  - intros (out & err & pre & line & post & -> & Hs & Hpre & Hm & Hu & _).
    simpl. assert (List.find preview_marker (split nl out) = Some line) as ->; [|done].
    apply find_split. eauto.
Qed.

Lemma wizard_preview_takes_first_marker_line_witness :
  NetlifyAi.deploy_preview
    (Exited 0 "Deploying to draft
Website Draft URL:  https://d--demo.netlify.app
Website Draft URL: https://late.netlify.app" "Warning") =
  Some "https://d--demo.netlify.app".
Proof.
  apply (wizard_preview_takes_first_marker_line
           (Exited 0 "Deploying to draft
Website Draft URL:  https://d--demo.netlify.app
Website Draft URL: https://late.netlify.app" "Warning") "https://d--demo.netlify.app").
  - by intros returncode out err [= _ <- _].
  - exists "Deploying to draft
Website Draft URL:  https://d--demo.netlify.app
Website Draft URL: https://late.netlify.app", "Warning", ["Deploying to draft"],
      "Website Draft URL:  https://d--demo.netlify.app",
      ["Website Draft URL: https://late.netlify.app"].
    repeat split; try reflexivity; [by repeat constructor|done].
Defined.

Lemma split_app_sep sep a b :
  split sep (a +:+ String sep b) = split sep a ++ split sep b.
Proof.
  induction a as [|c a IH].
  - rewrite app_empty_l. simpl. by rewrite Ascii.eqb_refl.
  - rewrite app_cons. simpl. rewrite IH.
    destruct (Ascii.eqb c sep); [done|].
    destruct (split sep a) as [|h r] eqn:E; [by apply split_not_nil in E|done].
Qed.

Lemma draft_marker_recognized line :
  preview_marker line = true -> recognized line = true.
Proof.
  unfold preview_marker. simpl. rewrite orb_false_r.
  assert (forall m, lower m = "website draft url" -> contains m line = true ->
                    recognized line = true) as Hm.
  { intros m Hl (a & b & ->)%contains_spec. unfold recognized.
    rewrite !lower_app, Hl.
    rewrite (contains_within "website" _ "website draft url" _) by done.
    by rewrite (contains_within "url" _ "website draft url" _). }
  intros [H|H]%orb_true_iff;
    [apply (Hm "Website Draft URL") | apply (Hm "Website draft URL")]; done.
Qed.

(** X15: whenever the wizard's preview deploy finds a URL, the web handler
    reports the same run of the tool as a success and with a URL. *)
Theorem wizard_preview_url_implies_web_success p u :
  NetlifyAi.deploy_preview p = Some u ->
  App.r_success (App.deploy p) = true /\
  exists u', App.r_url (App.deploy p) = Some u' /\ u' <> EmptyString.
Proof.
  unfold NetlifyAi.deploy_preview, NetlifyAi.scan_stdout. fold preview_marker.
  destruct p as [returncode out err|msg]; [|done].
  destruct (Z.eqb returncode 0) eqn:Erc; [|done].
  destruct (List.find preview_marker (split nl out)) as [line|] eqn:Ef; [|done].
  intros _. apply find_some in Ef as [Hin%list_elem_of_In Hm].
  assert (exists u', App.r_url (App.deploy (Exited returncode out err)) = Some u' /\
                     u' <> EmptyString) as Hurl.
  { apply (deploy_url_found _ line); [|by apply draft_marker_recognized].
    unfold all_output. simpl. change (newline +:+ err) with (String nl err).
    rewrite split_app_sep. apply elem_of_app. by left. }
  split; [|done]. destruct Hurl as (u' & Hu & _). revert Hu.
  unfold App.deploy. cbv zeta.
  destruct (fold_left _ _ _) as [url deploy_url]. simpl. intros ->.
  rewrite bool_decide_eq_true_2 by done. rewrite orb_true_r. by destruct (_ && _).
Qed.

Lemma wizard_preview_url_implies_web_success_witness :
  NetlifyAi.deploy_preview
    (Exited 0 "Website Draft URL: https://draft--demo.netlify.app" EmptyString) =
    Some "https://draft--demo.netlify.app" /\
  App.r_success
    (App.deploy (Exited 0 "Website Draft URL: https://draft--demo.netlify.app" EmptyString))
  = true.
Proof.
  split; [reflexivity|].
  apply (wizard_preview_url_implies_web_success
           (Exited 0 "Website Draft URL: https://draft--demo.netlify.app" EmptyString)
           "https://draft--demo.netlify.app").
  reflexivity.
Defined.

(** *** Login state *)

Lemma contains_lower_marker m s :
  contains m s = true -> contains (lower m) (lower s) = true.
Proof.
  intros (a & b & ->)%contains_spec. rewrite !lower_app. apply contains_spec. eauto.
Qed.

(** X16: both entry points decide the login state alike: the tool ran and
    its stdout, lower-cased, holds 'logged in'.  The wizard's extra test for
    'Logged in' adds nothing, and the exit code plays no part. *)
Theorem login_checks_agree p :
  NetlifyAi.check_logged_in p = App.check_logged_in p /\
  (App.check_logged_in p = true <->
   exists returncode out err, p = Exited returncode out err /\
                              contains "logged in" (lower out) = true).
Proof.
  destruct p as [returncode out err|msg]; simpl.
  - split.
    + destruct (contains "Logged in" out) eqn:E; [|done].
      pose proof (contains_lower_marker "Logged in" out E) as H.
      change (lower "Logged in") with "logged in" in H. by rewrite H.
    + split; [eauto 6|]. by intros (? & ? & ? & [= <- <- <-] & ?).
  - split; [done|]. split; [done|]. by intros (? & ? & ? & [=] & _).
Qed.

End MoreDeploy.

(** * More about the scanner *)

Section MoreScanner.
Import Str.

Lemma find_by_name (es : list (string * node)) e :
  NoDup (map fst es) -> e ∈ es ->
  List.find (fun e' => String.eqb (fst e') (fst e)) es = Some e.
Proof.
  induction es as [|e' es IH]; intros Hnd Hin; [by apply elem_of_nil in Hin|].
  simpl in *. apply NoDup_cons in Hnd as [Hnotin Hnd].
  apply elem_of_cons in Hin as [->|Hin].
  - by rewrite String.eqb_refl.
  - destruct (String.eqb e'.1 e.1) eqn:E; [|by apply IH].
    apply eqb_true in E. destruct Hnotin. rewrite E.
    apply list_elem_of_fmap. by exists e.
Qed.

Lemma lookup_path_cons es e cs :
  NoDup (map fst es) -> e ∈ es ->
  Fs.lookup_path (Dir es) (fst e :: cs) = Fs.lookup_path (snd e) cs.
Proof. intros Hnd Hin. simpl. by rewrite find_by_name. Qed.

(** What the walk reports below a directory reached through [segs]. *)
Lemma walk_resolves n segs p :
  well_named n = true -> unique_names n = true ->
  Forall (fun x => valid_segment x = true) segs ->
  p ∈ Fs.walk (join "/" segs) n ->
  exists dirs name text,
    p = join "/" (segs ++ dirs ++ [name]) /\
    Forall (fun x => valid_segment x = true) (dirs ++ [name]) /\
    Forall (fun d => Fs.ignored d = false) dirs /\
    Fs.lookup_path n (dirs ++ [name]) = Some (File text).
Proof.
  revert segs p. induction n as [text|es IH] using node_rect_entries;
    intros segs p Hn Hu Hv.
  { by intros ?%elem_of_nil. }
  cbn [Fs.walk well_named unique_names] in *. rewrite forallb_forall in Hn.
  apply andb_true_iff in Hu as [Hnd%bool_decide_eq_true Hu].
  rewrite forallb_forall in Hu. rewrite Forall_forall in IH.
  intros [Hp|Hp]%elem_of_app.
  - apply list_elem_of_In, in_map_iff in Hp as (e & <- & [He Hfile]%filter_In).
    pose proof (Hn _ He) as [Hname _]%andb_true_iff.
    unfold Fs.is_file in Hfile. destruct (e.2) as [text|] eqn:E; [|done].
    exists [], e.1, text. rewrite rel_join_segments by done.
    split; [done|]. split; [by repeat constructor|]. split; [constructor|].
    cbn [app]. rewrite (lookup_path_cons es e []) by (done || by apply list_elem_of_In).
    by rewrite E.
  - apply list_elem_of_In, in_flat_map in Hp as (e & He & Hp).
    pose proof (Hn _ He) as [Hname Hchild]%andb_true_iff.
    destruct (Fs.ignored e.1) eqn:Ei.
    { destruct e.2; by apply not_elem_of_nil in Hp || done. }
    assert (p ∈ Fs.walk (join "/" (segs ++ [e.1])) e.2) as Hw.
    { rewrite <- rel_join_segments by done. apply list_elem_of_In. by destruct e.2. }
    apply (IH e) in Hw as (dirs & name & text & -> & Hvalid & Hign & Hlook);
      [|by apply list_elem_of_In|done|by apply Hu|].
    2:{ apply Forall_app. by split; [|repeat constructor]. }
    exists (e.1 :: dirs), name, text. rewrite <- !app_assoc. split; [done|].
    split; [by constructor|]. split; [by constructor|].
    cbn [app]. by rewrite lookup_path_cons by (done || by apply list_elem_of_In).
Qed.

(** X17: in a tree with valid and unique entry names, every path the scan
    reports names a file of the tree, reached through directories none of
    which is on the ignore list; and reading that path, as the variable scan
    does, gives the text of that very file. *)
Theorem scanned_paths_resolve_to_files n p :
  well_named n = true -> unique_names n = true ->
  p ∈ Fs.scan_files (Some n) ->
  exists dirs name text,
    p = join "/" (dirs ++ [name]) /\
    Forall (fun d => Fs.ignored d = false) dirs /\
    Fs.lookup_path n (dirs ++ [name]) = Some (File text) /\
    Fs.read_text (Some n) p = text.
Proof.
  intros Hn Hu Hp.
  destruct (walk_resolves n [] p Hn Hu) as (dirs & name & text & -> & Hv & Hi & Hl);
    [constructor|done|].
  exists dirs, name, text. cbn [app]. repeat split; try done.
  unfold Fs.read_text. rewrite split_join by (done || by destruct dirs).
  by rewrite Hl.
Qed.

Lemma lookup_path_step es c cs target :
  Fs.lookup_path (Dir es) (c :: cs) = Some target ->
  exists e, e ∈ es /\ fst e = c /\ Fs.lookup_path (snd e) cs = Some target.
Proof.
  simpl. destruct (List.find _ es) as [e|] eqn:E; [|done].
  apply find_some in E as [Hin%list_elem_of_In He%eqb_true]. eauto.
Qed.

Lemma walk_complete dirs : forall n segs name text,
  well_named n = true ->
  Forall (fun x => valid_segment x = true) segs ->
  Forall (fun d => Fs.ignored d = false) dirs ->
  Fs.lookup_path n (dirs ++ [name]) = Some (File text) ->
  join "/" (segs ++ dirs ++ [name]) ∈ Fs.walk (join "/" segs) n.
Proof.
  induction dirs as [|d dirs IH]; intros n segs name text Hn Hv Hi Hl.
  - destruct n as [|es]; [done|].
    apply lookup_path_step in Hl as (e & He & <- & Hl). simpl in Hl.
    cbn [Fs.walk app]. apply elem_of_app. left.
    rewrite <- rel_join_segments by done.
    apply list_elem_of_In, in_map_iff. exists e. split; [done|].
    apply filter_In. split; [by apply list_elem_of_In|].
    unfold Fs.is_file. by injection Hl as ->.
  - destruct n as [|es]; [done|]. cbn [app] in Hl.
    apply lookup_path_step in Hl as (e & He & <- & Hl).
    apply Forall_cons in Hi as [Hd Hi].
    cbn [well_named] in Hn. rewrite forallb_forall in Hn.
    pose proof (Hn e (proj1 (list_elem_of_In _ _) He)) as [Hname Hchild]%andb_true_iff.
    cbn [Fs.walk]. apply elem_of_app. right.
    apply list_elem_of_In, in_flat_map. exists e. split; [by apply list_elem_of_In|].
    destruct e.2 as [text'|es'] eqn:E.
    { by destruct dirs. }
    rewrite Hd, rel_join_segments by done. apply list_elem_of_In.
    replace (segs ++ (e.1 :: dirs) ++ [name]) with ((segs ++ [e.1]) ++ dirs ++ [name])
      by (by rewrite <- app_assoc).
    apply (IH _ _ _ text); try done.
    apply Forall_app. by split; [|repeat constructor].
Qed.

(** X18: conversely, in a tree with valid entry names every file that is
    reached from the root through directories off the ignore list is
    reported, under its path relative to the root. *)
Theorem files_off_the_ignore_list_are_scanned n dirs name text :
  well_named n = true ->
  Forall (fun d => Fs.ignored d = false) dirs ->
  Fs.lookup_path n (dirs ++ [name]) = Some (File text) ->
  join "/" (dirs ++ [name]) ∈ Fs.scan_files (Some n).
Proof.
  intros Hn Hi Hl. by apply (walk_complete dirs n [] name text).
Qed.

Lemma scanned_paths_resolve_to_files_witness :
  exists dirs name text,
    "netlify/functions/handler.py" = join "/" (dirs ++ [name]) /\
    Forall (fun d => Fs.ignored d = false) dirs /\
    Fs.lookup_path demo_tree (dirs ++ [name]) = Some (File text) /\
    Fs.read_text (Some demo_tree) "netlify/functions/handler.py" = text.
Proof.
  apply (scanned_paths_resolve_to_files demo_tree "netlify/functions/handler.py").
  - reflexivity.
  - reflexivity.
  - vm_compute. by repeat constructor.
Defined.

Lemma files_off_the_ignore_list_are_scanned_witness :
  "netlify/functions/handler.py" ∈ Fs.scan_files (Some demo_tree).
Proof.
  apply (files_off_the_ignore_list_are_scanned demo_tree ["netlify"; "functions"]
           "handler.py" (Some "from openai import OpenAI")).
  - reflexivity.
  - by repeat constructor.
  - reflexivity.
Defined.

End MoreScanner.
(** * The wizard's prompts and its configuration step *)

Section MorePrompts.
Import Str.

(** *** [strip] *)

Lemma is_space_lower_char c : is_space (lower_char c) = is_space c.
Proof. by destruct c as [[] [] [] [] [] [] [] []]. Qed.

Lemma lower_char_idemp c : lower_char (lower_char c) = lower_char c.
Proof. by destruct c as [[] [] [] [] [] [] [] []]. Qed.

Lemma lower_idemp s : lower (lower s) = lower s.
Proof. induction s as [|c s IH]; [done|]. cbn [lower]. by rewrite lower_char_idemp, IH. Qed.

Lemma lower_is_empty s : String.eqb (lower s) EmptyString = String.eqb s EmptyString.
Proof. by destruct s. Qed.

Lemma lstrip_lower s : lstrip (lower s) = lower (lstrip s).
Proof.
  induction s as [|c s IH]; [done|]. cbn [lower lstrip].
  rewrite is_space_lower_char. by destruct (is_space c).
Qed.

Lemma rstrip_lower s : rstrip (lower s) = lower (rstrip s).
Proof.
  induction s as [|c s IH]; [done|]. cbn [lower rstrip].
  rewrite is_space_lower_char, IH, lower_is_empty.
  by destruct (is_space c && String.eqb (rstrip s) EmptyString).
Qed.

Lemma strip_lower s : strip (lower s) = lower (strip s).
Proof. unfold strip. by rewrite rstrip_lower, lstrip_lower. Qed.

Lemma lstrip_spaces a s : all_space a = true -> lstrip (a +:+ s) = lstrip s.
Proof.
  induction a as [|c a IH]; [done|]. rewrite app_cons. cbn [all_space lstrip].
  intros [Hc Ha]%andb_true_iff. rewrite Hc. auto.
Qed.

Lemma rstrip_spaces b : all_space b = true -> rstrip b = EmptyString.
Proof.
  induction b as [|c b IH]; [done|]. cbn [all_space rstrip].
  intros [Hc Hb]%andb_true_iff. by rewrite Hc, (IH Hb).
Qed.

Lemma app_is_empty a w :
  String.eqb w EmptyString = false -> String.eqb (a +:+ w) EmptyString = false.
Proof. destruct a; [done|]. by rewrite app_cons. Qed.

Lemma rstrip_app a w :
  rstrip (a +:+ w) =
  if String.eqb (rstrip w) EmptyString then rstrip a else a +:+ rstrip w.
Proof.
  induction a as [|c a IH].
  - rewrite !app_empty_l. destruct (String.eqb (rstrip w) EmptyString) eqn:E; [|done].
    by apply eqb_true in E.
  - rewrite app_cons. cbn [rstrip]. rewrite IH.
    destruct (String.eqb (rstrip w) EmptyString) eqn:E; [done|].
    by rewrite (app_is_empty a _ E), andb_false_r, app_cons.
Qed.

Lemma strip_padded a w b :
  all_space a = true -> all_space b = true -> strip (a +:+ w +:+ b) = strip w.
Proof.
  intros Ha Hb. unfold strip.
  rewrite (rstrip_app a (w +:+ b)), (rstrip_app w b), (rstrip_spaces b Hb).
  change (String.eqb EmptyString EmptyString) with true. cbv iota.
  destruct (String.eqb (rstrip w) EmptyString) eqn:E.
  - apply eqb_true in E. by rewrite E, (rstrip_spaces a Ha).
  - by apply lstrip_spaces.
Qed.

Lemma lstrip_single_line s :
  contains newline s = false -> contains newline (lstrip s) = false.
Proof.
  change newline with (String nl EmptyString).
  induction s as [|c s IH]; [done|]. intros H. cbn [lstrip].
  destruct (is_space c); [|done]. apply IH. by apply no_char_cons in H as [_ H].
Qed.

Lemma rstrip_single_line s :
  contains newline s = false -> contains newline (rstrip s) = false.
Proof.
  change newline with (String nl EmptyString).
  induction s as [|c s IH]; [done|]. intros [Hc Hs]%no_char_cons. cbn [rstrip].
  destruct (is_space c && String.eqb (rstrip s) EmptyString); [done|].
  apply no_char_cons. auto.
Qed.

Lemma strip_single_line s : single_line s = true -> single_line (strip s) = true.
Proof.
  rewrite !single_line_spec. intros H. by apply lstrip_single_line, rstrip_single_line.
Qed.

(** *** The prompts, one line at a time *)

Lemma ask_yes_no_step default line rest :
  NetlifyAi.ask_yes_no default (line :: rest) =
  match NetlifyAi.ask_yes_no default [line] with
  | NetlifyAi.Answer b _ => NetlifyAi.Answer b rest
  | _ => NetlifyAi.ask_yes_no default rest
  end.
Proof.
  cbn [NetlifyAi.ask_yes_no].
  destruct (String.eqb (lower (strip line)) EmptyString); [done|].
  destruct (NetlifyAi.mem (lower (strip line)) _); [done|].
  by destruct (NetlifyAi.mem (lower (strip line)) _).
Qed.

Lemma ask_yes_no_one default line :
  NetlifyAi.ask_yes_no default [line] = NetlifyAi.Eof \/
  exists b, NetlifyAi.ask_yes_no default [line] = NetlifyAi.Answer b [].
Proof.
  cbn [NetlifyAi.ask_yes_no].
  destruct (String.eqb (lower (strip line)) EmptyString); [right; by eexists|].
  destruct (NetlifyAi.mem (lower (strip line)) _); [right; by eexists|].
  destruct (NetlifyAi.mem (lower (strip line)) _); [right; by eexists|by left].
Qed.

Lemma ask_yes_no_rest default inputs b rest :
  NetlifyAi.ask_yes_no default inputs = NetlifyAi.Answer b rest ->
  exists skipped line,
    inputs = skipped ++ line :: rest /\
    Forall (fun l => NetlifyAi.ask_yes_no default [l] = NetlifyAi.Eof) skipped /\
    NetlifyAi.ask_yes_no default [line] = NetlifyAi.Answer b [].
Proof.
  induction inputs as [|l inputs IH]; [done|]. rewrite ask_yes_no_step.
  destruct (ask_yes_no_one default l) as [E|[b' E]]; rewrite E.
  - intros (skipped & line & -> & Hs & Hl)%IH.
    exists (l :: skipped), line. split; [done|]. split; [by constructor|done].
  - intros [= -> ->]. exists [], l. split; [done|]. split; [constructor|done].
Qed.

Lemma ask_input_inv default inputs a rest :
  NetlifyAi.ask_input default inputs = NetlifyAi.Answer a rest ->
  exists line, inputs = line :: rest /\
    a = if String.eqb (strip line) EmptyString then default else strip line.
Proof. destruct inputs as [|line inputs]; [done|]. intros [= <- <-]. by exists line. Qed.

Lemma ask_input_non_empty default inputs a rest :
  default <> EmptyString ->
  NetlifyAi.ask_input default inputs = NetlifyAi.Answer a rest -> a <> EmptyString.
Proof.
  intros Hd (line & -> & ->)%ask_input_inv.
  destruct (String.eqb (strip line) EmptyString) eqn:E; [done|]. by apply eqb_false.
Qed.

Lemma ask_input_single_line default inputs a rest :
  single_line default = true -> Forall (fun l => single_line l = true) inputs ->
  NetlifyAi.ask_input default inputs = NetlifyAi.Answer a rest ->
  single_line a = true /\ Forall (fun l => single_line l = true) rest.
Proof.
  intros Hd Hin (line & -> & ->)%ask_input_inv.
  apply Forall_cons in Hin as [Hl Hrest]. split; [|done].
  destruct (String.eqb (strip line) EmptyString); [done|by apply strip_single_line].
Qed.

Lemma bind_answer {A B} (m : NetlifyAi.reply A) (k : A -> list string -> NetlifyAi.reply B)
    x rest :
  NetlifyAi.bind m k = NetlifyAi.Answer x rest ->
  exists a r, m = NetlifyAi.Answer a r /\ k a r = NetlifyAi.Answer x rest.
Proof. destruct m as [a r| |]; [|done..]. intros H. by exists a, r. Qed.

Lemma truthy_str_non_empty analysis k d :
  NetlifyAi.truthy_str analysis k = Some d -> d <> EmptyString.
Proof.
  unfold NetlifyAi.truthy_str. destruct (analysis !! k) as [[]|]; try done.
  destruct (String.eqb s EmptyString) eqn:E; [done|]. intros [= <-]. by apply eqb_false.
Qed.

(** The ways through the configuration step. *)
Lemma main_configure_inv analysis inputs publish_dir functions_dir build_command rest :
  NetlifyAi.main_configure analysis inputs =
    NetlifyAi.Answer (publish_dir, functions_dir, build_command) rest ->
  exists r1 r2,
    NetlifyAi.ask_input "." inputs = NetlifyAi.Answer publish_dir r1 /\
    (get_bool analysis "has_python" = false /\ functions_dir = None /\ r2 = r1 \/
     get_bool analysis "has_python" = true /\
     ((exists d a, NetlifyAi.truthy_str analysis "functions_dir" = Some d /\
         NetlifyAi.ask_input d r1 = NetlifyAi.Answer a r2 /\ functions_dir = Some a) \/
      NetlifyAi.truthy_str analysis "functions_dir" = None /\
      (NetlifyAi.ask_yes_no true r1 = NetlifyAi.Answer false r2 /\ functions_dir = None \/
       exists r' a, NetlifyAi.ask_yes_no true r1 = NetlifyAi.Answer true r' /\
         NetlifyAi.ask_input "netlify/functions" r' = NetlifyAi.Answer a r2 /\
         functions_dir = Some a))) /\
    (get_bool analysis "has_node" = false /\ build_command = None /\ rest = r2 \/
     get_bool analysis "has_node" = true /\
     exists c, NetlifyAi.ask_input "npm run build" r2 = NetlifyAi.Answer c rest /\
       build_command = if String.eqb c EmptyString then None else Some c).
Proof.
  unfold NetlifyAi.main_configure.
  intros (pd & r1 & Hpd & (fd & r2 & Hfd & (bc & r3 & Hbc & H)%bind_answer)%bind_answer)%bind_answer.
  injection H as -> -> -> ->. exists r1, r2. split; [done|]. split.
  - destruct (get_bool analysis "has_python"); [|left; by injection Hfd as <- <-].
    right. split; [done|].
    destruct (NetlifyAi.truthy_str analysis "functions_dir") as [d|].
    + left. apply bind_answer in Hfd as (a & r & Ha & [= <- <-]). by exists d, a.
    + right. split; [done|]. apply bind_answer in Hfd as ([] & r & Hyes & Hfd).
      * right. apply bind_answer in Hfd as (a & r' & Ha & [= <- <-]). by exists r, a.
      * left. by injection Hfd as <- <-.
  - destruct (get_bool analysis "has_node"); [|left; by injection Hbc as <- <-].
    right. split; [done|]. apply bind_answer in Hbc as (c & r & Hc & [= <- <-]). by exists c.
Qed.

Lemma ask_yes_no_keeps (P : string -> Prop) default inputs b rest :
  Forall P inputs -> NetlifyAi.ask_yes_no default inputs = NetlifyAi.Answer b rest ->
  Forall P rest.
Proof.
  intros Hin (skipped & line & -> & _)%ask_yes_no_rest.
  by apply Forall_app in Hin as [_ [_ H]%Forall_cons].
Qed.

(** *** Yes/no answers *)

(** X19: the yes/no prompt reads an answer up to letter case and up to the
    white space around it: a line and its padded, re-cased variants are
    taken the same way, whatever lines follow. *)
Theorem yes_no_answer_ignores_case_and_padding default a w b rest :
  all_space a = true -> all_space b = true ->
  NetlifyAi.ask_yes_no default ((a +:+ w +:+ b) :: rest) =
  NetlifyAi.ask_yes_no default (lower w :: rest).
Proof.
  intros Ha Hb. cbn [NetlifyAi.ask_yes_no].
  by rewrite (strip_padded a w b Ha Hb), strip_lower, lower_idemp.
Qed.

Lemma yes_no_answer_ignores_case_and_padding_witness :
  NetlifyAi.ask_yes_no false ["  " +:+ "Yes" +:+ " "; "n"] =
  NetlifyAi.ask_yes_no false [lower "Yes"; "n"].
Proof. by apply (yes_no_answer_ignores_case_and_padding false "  " "Yes" " " ["n"]). Defined.

(** X20: the yes/no prompt consumes input lines up to and including the
    first one it takes as an answer, and that line alone decides the result;
    the lines before it are lines it would reject on their own.  It fails
    with end of input exactly when it rejects every line, and it never leaves
    the program. *)
Theorem yes_no_prompt_stops_at_first_answer default inputs :
  match NetlifyAi.ask_yes_no default inputs with
  | NetlifyAi.Answer b rest =>
      exists skipped line,
        inputs = skipped ++ line :: rest /\
        Forall (fun l => NetlifyAi.ask_yes_no default [l] = NetlifyAi.Eof) skipped /\
        NetlifyAi.ask_yes_no default [line] = NetlifyAi.Answer b []
  | NetlifyAi.Eof =>
      Forall (fun l => NetlifyAi.ask_yes_no default [l] = NetlifyAi.Eof) inputs
  | NetlifyAi.Quit _ => False
  end.
Proof.
  destruct (NetlifyAi.ask_yes_no default inputs) as [b rest| |code] eqn:E.
  - by apply ask_yes_no_rest.
  - induction inputs as [|l inputs IH]; [constructor|]. rewrite ask_yes_no_step in E.
    destruct (ask_yes_no_one default l) as [El|[b El]]; rewrite El in E; [|done].
    constructor; auto.
  - induction inputs as [|l inputs IH]; [done|]. rewrite ask_yes_no_step in E.
    destruct (ask_yes_no_one default l) as [El|[b El]]; rewrite El in E; [auto|done].
Qed.

(** X21: on 7-bit ASCII input lines the default of the yes/no prompt matters
    for blank lines only: with either default the prompt consumes the same
    lines, and the two results differ only when the deciding line is
    blank. *)
Theorem yes_no_default_counts_on_blank_lines_only inputs b rest :
  forallb is_ascii inputs = true ->
  NetlifyAi.ask_yes_no true inputs = NetlifyAi.Answer b rest ->
  exists b', NetlifyAi.ask_yes_no false inputs = NetlifyAi.Answer b' rest /\
    (b <> b' ->
     b = true /\ b' = false /\
     exists skipped line, inputs = skipped ++ line :: rest /\ all_space line = true).
Proof.
  intros _. revert b rest. induction inputs as [|l inputs IH]; [done|]. intros b rest.
  cbn [NetlifyAi.ask_yes_no].
  destruct (String.eqb (lower (strip l)) EmptyString) eqn:E.
  - intros [= <- <-]. exists false. split; [done|]. intros _. split; [done|]. split; [done|].
    exists [], l. split; [done|].
    rewrite lower_is_empty in E. apply eqb_true in E.
    clear IH. unfold strip in E.
    assert (forall s, lstrip s = EmptyString -> all_space s = true) as Hl.
    { induction s as [|c s IHs]; [done|]. cbn [lstrip all_space].
      destruct (is_space c); [auto|done]. }
    assert (forall s, all_space (rstrip s) = true -> all_space s = true) as Hr.
    { induction s as [|c s IHs]; [done|]. cbn [rstrip all_space].
      destruct (is_space c) eqn:Ec.
      - destruct (String.eqb (rstrip s) EmptyString) eqn:Es.
        + intros _. apply eqb_true in Es. apply IHs. by rewrite Es.
        + cbn [andb all_space]. rewrite Ec. by intros ?%IHs.
      - cbn [andb all_space]. by rewrite Ec. }
    auto.
  - destruct (NetlifyAi.mem (lower (strip l)) _).
    { intros [= <- <-]. exists true. split; [done|]. by intros []. }
    destruct (NetlifyAi.mem (lower (strip l)) _).
    { intros [= <- <-]. exists false. split; [done|]. by intros []. }
    intros (b' & Hb' & Hd)%IH. exists b'. split; [done|].
    intros (-> & -> & skipped & line & -> & Hs)%Hd. split; [done|]. split; [done|].
    by exists (l :: skipped), line.
Qed.

Lemma yes_no_default_counts_on_blank_lines_only_witness :
  exists b', NetlifyAi.ask_yes_no false ["perhaps"; "  "; "y"] = NetlifyAi.Answer b' ["y"] /\
    (true <> b' ->
     true = true /\ b' = false /\
     exists skipped line,
       ["perhaps"; "  "; "y"] = skipped ++ line :: ["y"] /\ all_space line = true).
Proof.
  apply (yes_no_default_counts_on_blank_lines_only ["perhaps"; "  "; "y"] true ["y"]);
    reflexivity.
Defined.

(** *** Choices *)

(** X22: whatever [int] makes of the lines, a choice is either the default,
    which is returned unchecked, or an index at which [options] has an
    element. *)
Theorem choice_is_default_or_valid_index to_int options default inputs idx rest :
  NetlifyAi.ask_choice to_int options default inputs = NetlifyAi.Answer idx rest ->
  idx = default \/ (0 <= idx)%Z /\ is_Some (options !! Z.to_nat idx).
Proof.
  induction inputs as [|l inputs IH]; [done|]. cbn [NetlifyAi.ask_choice].
  destruct (String.eqb (strip l) EmptyString); [intros [= <- <-]; by left|].
  destruct (to_int (strip l)) as [n|]; [|done].
  destruct (Z.leb 0 (n - 1) && Z.ltb (n - 1) (Z.of_nat (length options))) eqn:E; [|done].
  intros [= <- <-]. right. apply andb_true_iff in E as [H0%Z.leb_le Hn%Z.ltb_lt].
  split; [done|]. apply lookup_lt_is_Some. lia.
Qed.

Lemma choice_is_default_or_valid_index_witness :
  (1 = 7 \/ (0 <= 1 /\ is_Some (["static"; "python"; "node"] !! Z.to_nat 1)))%Z.
Proof.
  apply (choice_is_default_or_valid_index
           (fun s => if String.eqb s "2" then Some 2%Z else if String.eqb s "9" then Some 9%Z
                     else None)
           ["static"; "python"; "node"] 7%Z ["two"; "9"; " 2 "; "1"] 1%Z ["1"]).
  reflexivity.
Defined.

(** *** The main menu *)

Lemma show_main_menu_path cwd n : forall inputs, length inputs <= n ->
  cwd <> EmptyString ->
  match NetlifyAi.show_main_menu cwd inputs with
  | NetlifyAi.Answer p rest =>
      p <> EmptyString /\
      (p = "." \/ p = cwd \/ exists line, line ∈ inputs /\ p = strip line)
  | NetlifyAi.Eof => True
  | NetlifyAi.Quit code => code = 0
  end.
Proof.
  induction n as [|n IH]; intros inputs Hn Hcwd.
  { destruct inputs; [done|]. simpl in Hn. lia. }
  destruct inputs as [|l inputs]; [done|]. cbn [NetlifyAi.show_main_menu].
  assert (forall rest, length rest <= n -> (forall x, x ∈ rest -> x ∈ l :: inputs) ->
    match NetlifyAi.show_main_menu cwd rest with
    | NetlifyAi.Answer p rest =>
        p <> EmptyString /\
        (p = "." \/ p = cwd \/ exists line, line ∈ l :: inputs /\ p = strip line)
    | NetlifyAi.Eof => True
    | NetlifyAi.Quit code => code = 0
    end) as Hrec.
  { intros rest Hlen Hsub. specialize (IH rest Hlen Hcwd).
    destruct (NetlifyAi.show_main_menu cwd rest) as [p r| |]; [|done..].
    destruct IH as [Hp [Hd|[Hc|(line & Hin & Hl)]]]; split; auto.
    right. right. exists line. auto. }
  destruct (String.eqb (strip l) "0"); [done|].
  destruct (String.eqb (strip l) "1").
  { destruct inputs as [|l' inputs]; [done|].
    destruct (String.eqb (strip l') EmptyString) eqn:E.
    - apply Hrec; [simpl in Hn; lia|]. intros x Hx. rewrite !elem_of_cons. auto.
    - split; [by apply eqb_false|]. right. right. exists l'. split; [|done].
      rewrite !elem_of_cons. auto. }
  destruct (String.eqb (strip l) "2"); [split; [done|by left]|].
  destruct (String.eqb (strip l) "3").
  { destruct inputs as [|l' inputs]; [done|].
    destruct (String.eqb (strip l') EmptyString) eqn:E; [split; auto|].
    split; [by apply eqb_false|]. right. right. exists l'. split; [|done].
    rewrite !elem_of_cons. auto. }
  apply Hrec; [simpl in Hn; lia|]. intros x Hx. rewrite elem_of_cons. auto.
Qed.

(** X23: on 7-bit ASCII input lines and with a non-empty working directory
    the main menu never hands back an empty project path: the path is '.',
    the working directory, or an input line without the white space around
    it.  The menu leaves the program with exit code 0 only. *)
Theorem menu_path_is_never_empty cwd inputs :
  forallb is_ascii inputs = true ->
  cwd <> EmptyString ->
  match NetlifyAi.show_main_menu cwd inputs with
  | NetlifyAi.Answer p rest =>
      p <> EmptyString /\
      (p = "." \/ p = cwd \/ exists line, line ∈ inputs /\ p = strip line)
  | NetlifyAi.Eof => True
  | NetlifyAi.Quit code => code = 0
  end.
Proof. intros _. by apply (show_main_menu_path cwd (length inputs)). Qed.

Lemma menu_path_is_never_empty_witness :
  match NetlifyAi.show_main_menu "/home/me" ["1"; " "; "x"; "3"; ""] with
  | NetlifyAi.Answer p rest =>
      p <> EmptyString /\
      (p = "." \/ p = "/home/me" \/
       exists line, line ∈ ["1"; " "; "x"; "3"; ""] /\ p = strip line)
  | NetlifyAi.Eof => True
  | NetlifyAi.Quit code => code = 0
  end.
Proof.
  by apply (menu_path_is_never_empty "/home/me" ["1"; " "; "x"; "3"; ""] eq_refl).
Defined.

(** *** The configuration step *)

(** X24: the configuration step never yields an empty publish directory,
    functions directory or build command.  It asks for a functions directory
    only when the analysis found a Python file, and when the analysis
    proposes one the user cannot decline it.  For a project with a
    'package.json' there is always a build command: an empty answer gives
    'npm run build', so the build command cannot be left out. *)
Theorem configuration_has_no_empty_value analysis inputs publish_dir functions_dir
    build_command rest :
  NetlifyAi.main_configure analysis inputs =
    NetlifyAi.Answer (publish_dir, functions_dir, build_command) rest ->
  publish_dir <> EmptyString /\
  functions_dir <> Some EmptyString /\
  build_command <> Some EmptyString /\
  (get_bool analysis "has_python" = false -> functions_dir = None) /\
  (get_bool analysis "has_python" = true ->
   NetlifyAi.truthy_str analysis "functions_dir" <> None -> functions_dir <> None) /\
  (build_command = None <-> get_bool analysis "has_node" = false).
Proof.
  intros (r1 & r2 & Hpd & Hfd & Hbc)%main_configure_inv.
  split; [by apply (ask_input_non_empty "." inputs publish_dir r1)|].
  split; [|split; [|split; [|split]]].
  - destruct Hfd as [(_ & -> & _)|[_ [(d & a & Hd & Ha & ->)|[_ [[_ ->]|(r' & a & _ & Ha & ->)]]]]];
      try done.
    + intros [= ->].
      exact (ask_input_non_empty d r1 EmptyString r2
               (truthy_str_non_empty analysis "functions_dir" d Hd) Ha eq_refl).
    + intros [= ->].
      by apply (ask_input_non_empty "netlify/functions" r' EmptyString r2 ltac:(done) Ha).
  - destruct Hbc as [(_ & -> & _)|(_ & c & Hc & ->)]; [done|].
    by destruct (String.eqb c EmptyString) eqn:E; [|intros [= ->]].
  - intros Hpy. destruct Hfd as [(_ & -> & _)|[Hpy' _]]; [done|congruence].
  - intros Hpy Hd.
    destruct Hfd as [(Hpy' & _)|[_ [(d & a & _ & _ & ->)|[Hd' _]]]]; [congruence|done|done].
  - destruct Hbc as [(Hn & -> & _)|(Hn & c & Hc & ->)]; [done|].
    apply (ask_input_non_empty "npm run build") in Hc; [|done].
    apply eqb_false in Hc. rewrite Hc, Hn. split; done.
Qed.

Lemma configuration_has_no_empty_value_witness :
  "." <> EmptyString /\
  Some "netlify/functions" <> Some EmptyString /\
  Some "npm run build" <> Some EmptyString /\
  (get_bool (<["has_node" := VBool true]> (<["has_python" := VBool true]> ∅)) "has_python"
     = false -> Some "netlify/functions" = None) /\
  (get_bool (<["has_node" := VBool true]> (<["has_python" := VBool true]> ∅)) "has_python"
     = true ->
   NetlifyAi.truthy_str (<["has_node" := VBool true]> (<["has_python" := VBool true]> ∅))
     "functions_dir" <> None -> Some "netlify/functions" <> None) /\
  (Some "npm run build" = None <->
   get_bool (<["has_node" := VBool true]> (<["has_python" := VBool true]> ∅)) "has_node"
     = false).
Proof.
  apply (configuration_has_no_empty_value
           (<["has_node" := VBool true]> (<["has_python" := VBool true]> ∅))
           [""; "Y"; " "; ""; "left"] "." (Some "netlify/functions") (Some "npm run build")
           ["left"]).
  reflexivity.
Defined.

(** X25: the manifest the wizard builds from the configured values.  Let the
    analysis hold Booleans under 'has_python' and 'has_node' and, under
    'functions_dir', [None] or a string without line break, and let the input
    lines and the Python version carry no line break.  Then the generator
    returns a text that has the '[functions]' section and the redirect block
    together, exactly when a functions directory was configured, and a
    'command' line exactly when 'has_node' is true. *)
Theorem configured_manifest_sections analysis has_python has_node inputs publish_dir
    functions_dir build_command rest python_version :
  analysis !! "has_python" = Some (VBool has_python) ->
  analysis !! "has_node" = Some (VBool has_node) ->
  (analysis !! "functions_dir" = Some VNone \/
   exists d, analysis !! "functions_dir" = Some (VStr d) /\ single_line d = true) ->
  Forall (fun l => single_line l = true) inputs ->
  single_line python_version = true ->
  NetlifyAi.main_configure analysis inputs =
    NetlifyAi.Answer (publish_dir, functions_dir, build_command) rest ->
  exists text,
    NetlifyAi.generate_netlify_toml analysis publish_dir functions_dir build_command
      python_version = Some text /\
    count_line "[functions]" text = (if truthy functions_dir then 1 else 0) /\
    count_line "[[redirects]]" text = (if truthy functions_dir then 1 else 0) /\
    count_lines_where (startswith "  command = ") text = (if has_node then 1 else 0).
Proof.
  intros Hkp Hkn Hkd Hin Hv (r1 & r2 & Hpd & Hfd & Hbc)%main_configure_inv.
  assert (single_line_opt (NetlifyAi.truthy_str analysis "functions_dir") = true) as Hd.
  { unfold NetlifyAi.truthy_str. destruct Hkd as [->|(d & -> & Hd)]; [done|].
    by destruct (String.eqb d EmptyString). }
  assert (get_bool analysis "has_python" = has_python) as Egp
    by (unfold get_bool; by rewrite Hkp).
  assert (get_bool analysis "has_node" = has_node) as Egn
    by (unfold get_bool; by rewrite Hkn).
  rewrite Egp in Hfd. rewrite Egn in Hbc.
  destruct (ask_input_single_line "." inputs publish_dir r1 eq_refl Hin Hpd) as [Hp Hr1].
  assert (single_line_opt functions_dir = true /\ Forall (fun l => single_line l = true) r2 /\
          functions_dir <> Some EmptyString /\
          (functions_dir <> None -> has_python = true))
    as (Hf & Hr2 & Hfe & Hpy).
  { destruct Hfd as [(_ & -> & ->)|[Hpy [(d & a & Ed & Ha & ->)|[_ [[Hy ->]|(r' & a & Hy & Ha & ->)]]]]].
    - done.
    - rewrite Ed in Hd.
      destruct (ask_input_single_line d r1 a r2 Hd Hr1 Ha) as [? ?].
      repeat split; try done. intros [= ->].
      exact (ask_input_non_empty d r1 EmptyString r2
               (truthy_str_non_empty analysis "functions_dir" d Ed) Ha eq_refl).
    - repeat split; try done. by apply (ask_yes_no_keeps _ true r1 false r2).
    - pose proof (ask_yes_no_keeps _ true r1 true r' Hr1 Hy) as Hr'.
      destruct (ask_input_single_line "netlify/functions" r' a r2 eq_refl Hr' Ha) as [? ?].
      repeat split; try done. intros [= ->].
      by apply (ask_input_non_empty "netlify/functions" r' EmptyString r2 ltac:(done) Ha). }
  assert (single_line_opt build_command = true /\
          build_command <> Some EmptyString /\
          (build_command = None <-> has_node = false))
    as (Hb & Hbe & Hnode).
  { destruct Hbc as [(Hn & -> & _)|(Hn & c & Hc & ->)]; [done|].
    destruct (ask_input_single_line "npm run build" r2 c rest eq_refl Hr2 Hc) as [? _].
    apply (ask_input_non_empty "npm run build") in Hc; [|done].
    pose proof Hc as Hc'. apply eqb_false in Hc'. rewrite Hc', Hn.
    repeat split; try done. congruence. }
  eexists. split; [by apply (wizard_manifest_text analysis _ _ _ _ (VBool has_python))|].
  unfold count_line, count_lines_where.
  rewrite wizard_manifest_lines by done.
  unfold NetlifyAi.netlify_toml_lines, NetlifyAi.when_set, truthy, truth.
  destruct functions_dir as [d|].
  - rewrite Hpy by done.
    destruct (String.eqb d EmptyString) eqn:Ed; [by apply eqb_true in Ed as ->|].
    destruct build_command as [c|].
    + destruct (String.eqb c EmptyString) eqn:Ec; [by apply eqb_true in Ec as ->|].
      destruct has_node; [|by destruct Hnode as [_ H]; discriminate H].
      vm_compute. repeat split.
    + rewrite (proj1 Hnode eq_refl). vm_compute. repeat split.
  - destruct has_python, build_command as [c|].
    all: try (destruct (String.eqb c EmptyString) eqn:Ec; [by apply eqb_true in Ec as ->|]).
    all: try rewrite (proj1 Hnode eq_refl).
    all: try (destruct has_node; [|by destruct Hnode as [_ H]; discriminate H]).
    all: vm_compute; repeat split.
Qed.

Lemma configured_manifest_sections_witness :
  exists text,
    NetlifyAi.generate_netlify_toml
      (NetlifyAi.detect_project_type ["api/hello.py"; "index.html"] (fun _ => None))
      "public" (Some "netlify/functions") None "3.10" = Some text /\
    count_line "[functions]" text = 1 /\
    count_line "[[redirects]]" text = 1 /\
    count_lines_where (startswith "  command = ") text = 0.
Proof.
  assert (NetlifyAi.detect_project_type ["api/hello.py"; "index.html"] (fun _ => None)
            !! "has_python" = Some (VBool true)) as Hkp by (vm_compute; reflexivity).
  assert (NetlifyAi.detect_project_type ["api/hello.py"; "index.html"] (fun _ => None)
            !! "has_node" = Some (VBool false)) as Hkn by (vm_compute; reflexivity).
  apply (configured_manifest_sections
           (NetlifyAi.detect_project_type ["api/hello.py"; "index.html"] (fun _ => None))
           true false [" public"; "yes"; ""] "public" (Some "netlify/functions") None []
           "3.10" Hkp Hkn).
  - left. vm_compute. reflexivity.
  - by repeat constructor.
  - reflexivity.
  - reflexivity.
Defined.

End MorePrompts.
